(** * Maintenance PM dashboard: due-point calculator and status classifier

    A shallow embedding of [Pm_dashboard.py]: the helpers [parse_date] and
    [safe_int], the due-point calculator [compute_next_due], the status
    classifier [compute_status], the back-fill [recompute_all], the KPI
    tile counts and the "Log Completion" handler, together with the parts
    of the Python runtime they rest on (truthiness, [str.strip], [float],
    [int], [datetime.date] arithmetic, [strptime]/[strftime] for
    [%Y-%m-%d], and [relativedelta(months=n)]).

    Conventions.
    - A table cell is a [cell]: [None], the float [nan] pandas stores for
      an empty CSV field, a string, or an integer.
    - A row is a finite map from column names to cells; a data frame is
      the list of its rows, indexed by position.
    - A Python expression that may raise is a computation in [exc].
    - Text is ASCII: a string is a list of 8-bit characters.
    - [date.today()] and pandas' own date parser are parameters; what
      the parser hands back is a date or pandas' not-a-time, [NaT]. *)

From Stdlib Require Import ZArith Ascii String List Bool Lia DecimalString.
From Stdlib Require Import Floats.SpecFloat.
From Stdlib Require DecimalPos.
From stdpp Require Import base option list gmap strings.

Local Open Scope string_scope.
Local Open Scope Z_scope.

(** ** Exceptions *)

Inductive error : Type :=
  | AttributeError
  | OverflowError
  | TypeError
  | ValueError.

Inductive exc (A : Type) : Type :=
  | Ret (a : A)
  | Raise (e : error).
Arguments Ret {A} a.
Arguments Raise {A} e.

#[global] Instance error_eq_dec : EqDecision error.
Proof. solve_decision. Defined.

#[global] Instance exc_eq_dec {A} `{EqDecision A} : EqDecision (exc A).
Proof. solve_decision. Defined.

#[global] Instance exc_ret : MRet exc := @Ret.
#[global] Instance exc_bind : MBind exc := fun A B f m =>
  match m with
  | Ret a => f a
  | Raise e => Raise e
  end.

(** [try: return m / except Exception: return h]. *)
Definition try_except {A} (m : exc A) (h : A) : A :=
  match m with
  | Ret a => a
  | Raise _ => h
  end.

Definition returns {A} (m : exc A) : Prop := exists a, m = Ret a.

(** ** Cells and rows *)

Inductive cell : Type :=
  | PyNone
  | PyNaN
  | PyStr (s : string)
  | PyInt (n : Z).

#[global] Instance cell_eq_dec : EqDecision cell.
Proof. solve_decision. Defined.

(** Python truth value: [None], [""] and [0] are false; [nan] is a
    non-zero float and is true. *)
Definition truthy (c : cell) : bool :=
  match c with
  | PyNone => false
  | PyNaN => true
  | PyStr s => negb (String.eqb s "")
  | PyInt n => negb (n =? 0)
  end.

(** [a or b]. *)
Definition py_or (a b : cell) : cell := if truthy a then a else b.

(** [row.get(k)]: the cell under [k], [None] when the row has none. *)
Definition get (row : gmap string cell) (k : string) : cell :=
  default PyNone (row !! k).

(** ** Strings *)

(** Whitespace for [str.strip()] ([str.isspace]): tab to carriage return,
    the four separators 28-31, and the space. *)
Definition is_space (c : ascii) : bool :=
  let n := Z.of_N (N_of_ascii c) in
  ((9 <=? n) && (n <=? 13)) || ((28 <=? n) && (n <=? 32)).

Fixpoint lstrip (space : ascii -> bool) (l : list ascii) : list ascii :=
  match l with
  | c :: l' => if space c then lstrip space l' else l
  | [] => []
  end.

Definition strip_chars (space : ascii -> bool) (l : list ascii) : list ascii :=
  rev (lstrip space (rev (lstrip space l))).

(** [s.strip()]. *)
Definition strip (s : string) : string :=
  string_of_list_ascii (strip_chars is_space (list_ascii_of_string s)).

(** [str(n)] for an integer. *)
Definition str_of_Z (n : Z) : string := NilZero.string_of_int (Z.to_int n).

(** [str(v)]. *)
Definition str (v : cell) : string :=
  match v with
  | PyNone => "None"
  | PyNaN => "nan"
  | PyStr s => s
  | PyInt n => str_of_Z n
  end.

(** [c.strip()]: only strings have the method. *)
Definition strip_method (c : cell) : exc string :=
  match c with
  | PyStr s => Ret (strip s)
  | _ => Raise AttributeError
  end.

Definition digit (c : ascii) : option Z :=
  let n := Z.of_N (N_of_ascii c) in
  if (48 <=? n) && (n <=? 57) then Some (n - 48) else None.

Definition is_digit (c : ascii) : bool := bool_decide (is_Some (digit c)).

(** A maximal run of decimal digits: its value on top of [acc], the number
    of digits read on top of [cnt], and the rest of the input. *)
Fixpoint digits (acc cnt : Z) (l : list ascii) : Z * Z * list ascii :=
  match l with
  | c :: l' =>
      match digit c with
      | Some d => digits (10 * acc + d) (cnt + 1) l'
      | None => (acc, cnt, l)
      end
  | [] => (acc, cnt, [])
  end.

Definition lower (c : ascii) : ascii :=
  let n := N_of_ascii c in
  if ((65 <=? n) && (n <=? 90))%N then ascii_of_N (n + 32) else c.

(** ** Floats: [float(v)] and [int(x)]

    Doubles are Stdlib's [spec_float] at precision 53. A string is read
    as CPython reads it: underscores between digits are dropped, blanks
    are stripped at both ends, then an optional sign and [inf],
    [infinity], [nan] or a decimal literal; the literal's value is rounded
    to the nearest double, ties to even. *)

Module Float.

Definition prec : Z := 53.
Definition emax : Z := 1024.

(** Whitespace for [float] on ASCII text (C's [isspace]): tab to carriage
    return, and the space. *)
Definition is_space (c : ascii) : bool :=
  let n := Z.of_N (N_of_ascii c) in
  ((9 <=? n) && (n <=? 13)) || (n =? 32).

(** The double nearest to [(-1)^neg * d * 10^k] (ties to even), an
    infinity past the largest double. *)
Definition of_decimal (neg : bool) (d k : Z) : spec_float :=
  match d with
  | Zpos m =>
      if 0 <=? k
      then binary_normalize prec emax (cond_Zopp neg (d * 10 ^ k)) 0 neg
      else SFdiv prec emax (S754_finite neg m 0)
                 (S754_finite false (Z.to_pos (10 ^ (- k))) 0)
  | _ => S754_zero neg
  end.

(** Underscores in a numeric literal: each stands between two digits.
    [prev] is the character before [l]. The result drops them. *)
Fixpoint underscores (prev : option ascii) (l : list ascii) : option (list ascii) :=
  match l with
  | [] => if bool_decide (prev = Some "_"%char) then None else Some []
  | c :: l' =>
      if bool_decide (c = "_"%char)
      then if from_option is_digit false prev then underscores (Some c) l' else None
      else if bool_decide (prev = Some "_"%char) && negb (is_digit c) then None
      else cons c <$> underscores (Some c) l'
  end.

Definition sign (l : list ascii) : bool * list ascii :=
  match l with
  | "-"%char :: t => (true, t)
  | "+"%char :: t => (false, t)
  | _ => (false, l)
  end.

(** The exponent part after a mantissa: [e] or [E], a sign, digits. With
    no digit the part is not read. *)
Definition exponent (l : list ascii) : Z * list ascii :=
  match l with
  | c :: l1 =>
      if bool_decide (lower c = "e"%char) then
        let '(neg, l2) := sign l1 in
        let '(v, n, l3) := digits 0 0 l2 in
        if n =? 0 then (0, l) else (cond_Zopp neg v, l3)
      else (0, l)
  | [] => (0, [])
  end.

(** A decimal literal without its sign: digits, a point, digits, an
    exponent; at least one digit before the exponent. *)
Definition number (neg : bool) (l : list ascii) : option (spec_float * list ascii) :=
  let '(i, ni, l1) := digits 0 0 l in
  let '(d, nd, l2) :=
    match l1 with
    | "."%char :: t => let '(d, n, l2) := digits i 0 t in (d, n, l2)
    | _ => (i, 0, l1)
    end in
  if ni + nd =? 0 then None
  else let '(e, l3) := exponent l2 in Some (of_decimal neg d (e - nd), l3).

(** [inf], [infinity] and [nan], in any case. *)
Definition inf_or_nan (neg : bool) (l : list ascii) : option spec_float :=
  let w := string_of_list_ascii (map lower l) in
  if String.eqb w "inf" || String.eqb w "infinity" then Some (S754_infinity neg)
  else if String.eqb w "nan" then Some S754_nan
  else None.

(** [float(s)] for a string. *)
Definition of_string (s : string) : exc spec_float :=
  match underscores None (list_ascii_of_string s) with
  | None => Raise ValueError
  | Some l =>
      let '(neg, t) := sign (strip_chars is_space l) in
      match inf_or_nan neg t with
      | Some x => Ret x
      | None =>
          match number neg t with
          | Some (x, []) => Ret x
          | _ => Raise ValueError
          end
      end
  end.

(** [float(n)] for an integer: the nearest double, [OverflowError] past
    the largest one. *)
Definition of_int (n : Z) : exc spec_float :=
  match binary_normalize prec emax n 0 false with
  | S754_infinity _ => Raise OverflowError
  | x => Ret x
  end.

(** [int(x)]: the integer part, towards zero. *)
Definition to_int (x : spec_float) : exc Z :=
  match x with
  | S754_zero _ => Ret 0
  | S754_finite s m e => Ret (cond_Zopp s (Z.shiftl (Zpos m) e))
  | S754_infinity _ => Raise OverflowError
  | S754_nan => Raise ValueError
  end.

Definition finite (x : spec_float) : bool :=
  match x with
  | S754_zero _ | S754_finite _ _ _ => true
  | _ => false
  end.

(** The integer part of a finite double, towards zero. *)
Definition trunc (x : spec_float) : Z :=
  match x with
  | S754_finite s m e =>
      let v := if 0 <=? e then Zpos m * 2 ^ e else Z.quot (Zpos m) (2 ^ (- e)) in
      if s then - v else v
  | _ => 0
  end.

End Float.

(** [float(v)]. *)
Definition float (v : cell) : exc spec_float :=
  match v with
  | PyNone => Raise TypeError
  | PyNaN => Ret S754_nan
  | PyStr s => Float.of_string s
  | PyInt n => Float.of_int n
  end.

(** <<
def safe_int(v):
    try:
        if v is None or str(v).strip() == "": return None
        return int(float(v))
    except Exception: return None
>> *)
Definition safe_int (v : cell) : option Z :=
  try_except
    (if bool_decide (v = PyNone) || String.eqb (strip (str v)) ""
     then Ret None
     else x ← float v; n ← Float.to_int x; Ret (Some n))
    None.

(** ** Calendar dates: [datetime.date] *)

Module Date.

Record date : Type := mkdate { year : Z; month : Z; day : Z }.

#[global] Instance date_eq_dec : EqDecision date.
Proof. solve_decision. Defined.

Definition MINYEAR : Z := 1.
Definition MAXYEAR : Z := 9999.

Definition is_leap (y : Z) : bool :=
  (y mod 4 =? 0) && (negb (y mod 100 =? 0) || (y mod 400 =? 0)).

Definition DAYS_IN_MONTH : list Z :=
  [-1; 31; 28; 31; 30; 31; 30; 31; 31; 30; 31; 30; 31].

Definition DAYS_BEFORE_MONTH : list Z :=
  [-1; 0; 31; 59; 90; 120; 151; 181; 212; 243; 273; 304; 334].

Definition index (l : list Z) (i : Z) : Z := nth (Z.to_nat i) l 0.

Definition Z_of_bool (b : bool) : Z := if b then 1 else 0.

Definition days_before_year (y : Z) : Z :=
  let y := y - 1 in y * 365 + y / 4 - y / 100 + y / 400.

Definition days_in_month (y m : Z) : Z :=
  if (m =? 2) && is_leap y then 29 else index DAYS_IN_MONTH m.

Definition days_before_month (y m : Z) : Z :=
  index DAYS_BEFORE_MONTH m + Z_of_bool ((2 <? m) && is_leap y).

Definition ymd2ord (y m d : Z) : Z :=
  days_before_year y + days_before_month y m + d.

Definition DI400Y : Z := 146097.
Definition DI100Y : Z := 36524.
Definition DI4Y : Z := 1461.
Definition MAXORDINAL : Z := 3652059.

(** The year, month and day of the [n]-th day, day 1 being 0001-01-01. *)
Definition ord2ymd (n : Z) : date :=
  let n := n - 1 in
  let n400 := n / DI400Y in
  let n := n mod DI400Y in
  let y := n400 * 400 + 1 in
  let n100 := n / DI100Y in
  let n := n mod DI100Y in
  let n4 := n / DI4Y in
  let n := n mod DI4Y in
  let n1 := n / 365 in
  let n := n mod 365 in
  let y := y + (n100 * 100 + n4 * 4 + n1) in
  if (n1 =? 4) || (n100 =? 4) then mkdate (y - 1) 12 31
  else
    let leapyear := (n1 =? 3) && (negb (n4 =? 24) || (n100 =? 3)) in
    let m := Z.shiftr (n + 50) 5 in
    let preceding := index DAYS_BEFORE_MONTH m + Z_of_bool ((2 <? m) && leapyear) in
    let '(m, preceding) :=
      if n <? preceding
      then (m - 1,
            preceding - (index DAYS_IN_MONTH (m - 1)
                         + Z_of_bool ((m - 1 =? 2) && leapyear)))
      else (m, preceding) in
    mkdate y m (n - preceding + 1).

(** What the constructor [date(y, m, d)] accepts. *)
Definition valid (d : date) : Prop :=
  MINYEAR <= year d <= MAXYEAR /\ 1 <= month d <= 12 /\
  1 <= day d <= days_in_month (year d) (month d).

#[global] Instance valid_dec d : Decision (valid d).
Proof. unfold valid. apply _. Defined.

(** [date(y, m, d)], and [d0.replace(year=y, month=m, day=d)]: the
    arguments are first read as C [int]s, which raises [OverflowError]
    outside 32 bits, and then checked. *)
Definition c_int (n : Z) : bool := (- 2 ^ 31 <=? n) && (n <? 2 ^ 31).

Definition make (y m d : Z) : exc date :=
  if c_int y && c_int m && c_int d then
    if bool_decide (valid (mkdate y m d)) then Ret (mkdate y m d)
    else Raise ValueError
  else Raise OverflowError.

Definition toordinal (d : date) : Z := ymd2ord (year d) (month d) (day d).

(** [timedelta(days=n)]: at most 999999999 days either way. *)
Definition timedelta (n : Z) : exc Z :=
  if Z.abs n <=? 999999999 then Ret n else Raise OverflowError.

(** [d + delta], [delta] a number of days. *)
Definition add (d : date) (delta : Z) : exc date :=
  let o := toordinal d + delta in
  if (0 <? o) && (o <=? MAXORDINAL) then Ret (ord2ymd o)
  else Raise OverflowError.

(** [(a - b).days]. *)
Definition sub_days (a b : date) : Z := toordinal a - toordinal b.

(** [d + relativedelta(months=n)]: the constructor folds whole years out
    of [n], the addition clamps the day to the length of the month it
    lands in, rebuilds the date and adds the (empty) day part. *)
Definition add_months (d : date) (n : Z) : exc date :=
  let '(years, months) :=
    if 11 <? Z.abs n
    then let s := Z.sgn n in (((n * s) / 12) * s, ((n * s) mod 12) * s)
    else (0, n) in
  let y := year d + years in
  let m := month d in
  let '(y, m) :=
    if months =? 0 then (y, m)
    else let m := m + months in
         if 12 <? m then (y + 1, m - 12)
         else if m <? 1 then (y - 1, m + 12)
         else (y, m) in
  let dd := Z.min (days_in_month y m) (day d) in
  r ← make y m dd;
  add r 0.

(** The months of a date counted from year 0: month [k] is month
    [k mod 12 + 1] of year [k / 12]; and the day [dd] of a month, or the
    month's last day when it has fewer. *)
Definition month_index (d : date) : Z := year d * 12 + (month d - 1).

Definition clamp (y m dd : Z) : date := mkdate y m (Z.min (days_in_month y m) dd).

(** [ord2ymd] in two stages, for the proofs: first the year, the day of
    the year (from 0) and whether the year is a leap year, then the month
    and the day. [ord2ymd_stages] below shows they compose to [ord2ymd]. *)
Definition year_day (n : Z) : Z * Z * bool :=
  let n := n - 1 in
  let n400 := n / DI400Y in
  let n := n mod DI400Y in
  let n100 := n / DI100Y in
  let n := n mod DI100Y in
  let n4 := n / DI4Y in
  let n := n mod DI4Y in
  let n1 := n / 365 in
  let n := n mod 365 in
  let y := n400 * 400 + 1 + (n100 * 100 + n4 * 4 + n1) in
  if (n1 =? 4) || (n100 =? 4) then (y - 1, 365, true)
  else (y, n, (n1 =? 3) && (negb (n4 =? 24) || (n100 =? 3))).

Definition month_day (leapyear : bool) (n : Z) : Z * Z :=
  let m := Z.shiftr (n + 50) 5 in
  let preceding := index DAYS_BEFORE_MONTH m + Z_of_bool ((2 <? m) && leapyear) in
  let '(m, preceding) :=
    if n <? preceding
    then (m - 1,
          preceding - (index DAYS_IN_MONTH (m - 1)
                       + Z_of_bool ((m - 1 =? 2) && leapyear)))
    else (m, preceding) in
  (m, n - preceding + 1).

Definition year_len (y : Z) : Z := if is_leap y then 366 else 365.

Definition month_len (lp : bool) (m : Z) : Z :=
  if (m =? 2) && lp then 29 else index DAYS_IN_MONTH m.

Definition month_start (lp : bool) (m : Z) : Z :=
  index DAYS_BEFORE_MONTH m + Z_of_bool ((2 <? m) && lp).

(** Checks run over the days of a year and over the (month, day) pairs. *)
Definition month_day_ok (lp : bool) (n : Z) : bool :=
  let '(m, d) := month_day lp n in
  (1 <=? m) && (m <=? 12) && (1 <=? d) && (d <=? month_len lp m)
  && (month_start lp m + d =? n + 1).

Definition month_start_ok (lp : bool) (md : Z) : bool :=
  let m := md / 32 in
  let d := md mod 32 in
  negb ((1 <=? m) && (m <=? 12) && (1 <=? d) && (d <=? month_len lp m))
  || (bool_decide (month_day lp (month_start lp m + d - 1) = (m, d))
      && (1 <=? month_start lp m + d) && (month_start lp m + d <=? 365 + Z_of_bool lp)).

(** [d.strftime("%Y-%m-%d")]; the year is printed on four digits. *)
Definition digit_char (d : Z) : ascii := ascii_of_N (Z.to_N (48 + d)).

Definition pad2 (n : Z) : list ascii :=
  [digit_char (n / 10); digit_char (n mod 10)].

Definition pad4 (n : Z) : list ascii := pad2 (n / 100) ++ pad2 (n mod 100).

Definition strftime (d : date) : string :=
  string_of_list_ascii
    (pad4 (year d) ++ "-"%char :: pad2 (month d) ++ "-"%char :: pad2 (day d)).

(** [strptime(s, "%Y-%m-%d")]. The directives are the regular expressions
    of the standard library,
    [%Y = \d\d\d\d], [%m = 1[0-2]|0[1-9]|[1-9]] and
    [%d = 3[0-1]|[1-2]\d|0[1-9]|[1-9]| [1-9]];
    a directive lists its matches in the order of its alternatives, and
    the whole string has to be read. *)
Definition lit (c : ascii) (l : list ascii) : option (list ascii) :=
  match l with
  | c' :: t => if bool_decide (c' = c) then Some t else None
  | [] => None
  end.

Definition range (a b : Z) (l : list ascii) : option (Z * list ascii) :=
  match l with
  | c :: t =>
      d ← digit c;
      if (a <=? d) && (d <=? b) then Some (d, t) else None
  | [] => None
  end.

Definition re_Y (l : list ascii) : option (Z * list ascii) :=
  '(a, l) ← range 0 9 l; '(b, l) ← range 0 9 l;
  '(c, l) ← range 0 9 l; '(d, l) ← range 0 9 l;
  Some (1000 * a + 100 * b + 10 * c + d, l).

Definition re_m (l : list ascii) : list (Z * list ascii) :=
  omap id
    [ (t ← lit "1" l; '(d, t) ← range 0 2 t; Some (10 + d, t));
      (t ← lit "0" l; range 1 9 t);
      range 1 9 l ].

Definition re_d (l : list ascii) : list (Z * list ascii) :=
  omap id
    [ (t ← lit "3" l; '(d, t) ← range 0 1 t; Some (30 + d, t));
      ('(a, t) ← range 1 2 l; '(d, t) ← range 0 9 t; Some (10 * a + d, t));
      (t ← lit "0" l; range 1 9 t);
      range 1 9 l;
      (t ← lit " " l; range 1 9 t) ].

(** [%m-%d]: the first match of [%m] after which [-%d] matches. *)
Definition re_md (l : list ascii) : option (Z * Z * list ascii) :=
  head (omap (λ '(m, l), l ← lit "-" l; '(d, l) ← head (re_d l); Some (m, d, l))
             (re_m l)).

Definition re_ymd (l : list ascii) : option (Z * Z * Z * list ascii) :=
  '(y, l) ← re_Y l;
  l ← lit "-" l;
  '(m, d, l) ← re_md l;
  Some (y, m, d, l).

Definition strptime (s : string) : exc date :=
  match re_ymd (list_ascii_of_string s) with
  | Some (y, m, d, []) => make y m d
  | _ => Raise ValueError
  end.

(** The check run over the months and days: what [strftime] prints,
    [strptime] reads back. *)
Definition re_md_ok (m d : Z) : bool :=
  bool_decide (re_md (pad2 m ++ "-"%char :: pad2 d) = Some (m, d, [])).

End Date.
Export Date(date, mkdate).

(** What the date helpers hand on: a [datetime.date], or [NaT], the
    not-a-time of pandas, which [pd.to_datetime(s).date()] returns for a
    text such as "NaT".  [NaT] is an instance of [datetime] and, like any
    date, is true. *)
Inductive datelike : Type :=
  | Day (d : date)
  | NaT.

#[global] Instance datelike_eq_dec : EqDecision datelike.
Proof. solve_decision. Defined.

(** [base + timedelta(days=n)]: the [timedelta] is built first; a date
    moves by [n] days, and [NaT] absorbs the addition. *)
Definition plus_days (base : datelike) (n : Z) : exc datelike :=
  delta ← Date.timedelta n;
  match base with
  | Day d => r ← Date.add d delta; Ret (Day r)
  | NaT => Ret NaT
  end.

(** [base + relativedelta(months=n)].  [NaT] leaves the addition to
    [relativedelta.__radd__], which takes it for a date, reads its year
    and month, both [nan], and fails in [calendar.monthrange] with
    [IllegalMonthError], a [ValueError]. *)
Definition plus_months (base : datelike) (n : Z) : exc datelike :=
  match base with
  | Day d => r ← Date.add_months d n; Ret (Day r)
  | NaT => Raise ValueError
  end.

(** * The dashboard *)

Abbreviation row := (gmap string cell).

Section Dashboard.

(** [date.today()]. *)
Variable today : date.

(** [pd.to_datetime(s).date()], the second parser [parse_date] tries: the
    date or the [NaT] it gives, [None] where it raises. The parser is
    pandas' and is left open. *)
Variable to_datetime : cell -> option datelike.

(** ** Helpers *)

(** [pd.isna(s)]. *)
Definition isna (s : cell) : bool :=
  match s with
  | PyNone | PyNaN => true
  | _ => false
  end.

(** <<
def parse_date(s):
    if pd.isna(s) or s == "": return None
    if isinstance(s, (date, datetime)): return s if isinstance(s, date) else s.date()
    try: return datetime.strptime(str(s), DATE_FMT).date()
    except Exception:
        try: return pd.to_datetime(s).date()
        except Exception: return None
>>
    No cell holds a date object, so the second line never applies. *)
Definition parse_date (s : cell) : option datelike :=
  if isna s || bool_decide (s = PyStr "") then None
  else match Date.strptime (str s) with
       | Ret d => Some (Day d)
       | Raise _ => to_datetime s
       end.

(** [not v or v <= 0] for [v] an integer or [None]. *)
Definition not_positive (v : option Z) : bool :=
  match v with
  | None => true
  | Some n => (n =? 0) || (n <=? 0)
  end.

(** [(row.get("IntervalType") or "").strip()]. *)
Definition interval_type (r : row) : exc string :=
  strip_method (py_or (get r "IntervalType") (PyStr "")).

(** [(row.get("PMStatus") or "Active").strip()]. *)
Definition pm_status (r : row) : exc string :=
  strip_method (py_or (get r "PMStatus") (PyStr "Active")).

Definition date_based (t : string) : bool :=
  bool_decide (t ∈ ["Days"; "Weeks"; "Months"]).

(** ** Due-point calculator *)

(** <<
def compute_next_due(row):
    t = (row.get("IntervalType") or "").strip()
    iv = safe_int(row.get("IntervalValue"))
    ld = parse_date(row.get("LastDoneDate"))
    lm = safe_int(row.get("LastMeter"))
    cm = safe_int(row.get("CurrentMeter"))
    nd_date, nd_meter = None, None
    if t in ["Days","Weeks","Months"]:
        if not iv or iv <= 0: return None, None
        base = ld or date.today()
        if t=="Days": nd_date = base + timedelta(days=iv)
        elif t=="Weeks": nd_date = base + timedelta(weeks=iv)
        else: nd_date = base + relativedelta(months=iv)
    elif t=="Meter":
        if not iv or iv <= 0: return None, None
        if lm is None:
            base = cm if cm is not None else 0
            nd_meter = base + iv
        else:
            nd_meter = lm + iv
    return nd_date, nd_meter
>>
    [ld or date.today()] is [ld] for a date and for [NaT]. *)
Definition compute_next_due (r : row) : exc (option datelike * option Z) :=
  t ← interval_type r;
  let iv := safe_int (get r "IntervalValue") in
  let ld := parse_date (get r "LastDoneDate") in
  let lm := safe_int (get r "LastMeter") in
  let cm := safe_int (get r "CurrentMeter") in
  if date_based t then
    if not_positive iv then Ret (None, None)
    else
      let iv := default 0 iv in
      let base := default (Day today) ld in
      nd_date ←
        (if bool_decide (t = "Days") then plus_days base iv
         else if bool_decide (t = "Weeks") then plus_days base (7 * iv)
         else plus_months base iv);
      Ret (Some nd_date, None)
  else if bool_decide (t = "Meter") then
    if not_positive iv then Ret (None, None)
    else
      let iv := default 0 iv in
      match lm with
      | None => let base := default 0 cm in Ret (None, Some (base + iv))
      | Some lm => Ret (None, Some (lm + iv))
      end
  else Ret (None, None).

(** ** Status classifier *)

(** The three-way comparison both branches of [compute_status] make. *)
Definition urgency (left soon : Z) : string :=
  if left <? 0 then "Overdue"
  else if left <=? soon then "Due Soon"
  else "OK".

(** Lines 87-107 of [compute_status]: the state and the urgency before
    the override.  [not nd] is false for [NaT], and [NaT - date.today()]
    raises [TypeError]. *)
Definition computed_status (t : string) (r : row) (due_soon_days meter_soon : Z)
  : exc (string * option Z) :=
  if date_based t then
    match parse_date (get r "NextDueDate") with
    | None => Ret ("Unknown", None)
    | Some (Day nd) =>
        let days_left := Date.sub_days nd today in
        Ret (urgency days_left due_soon_days, Some days_left)
    | Some NaT => Raise TypeError
    end
  else if bool_decide (t = "Meter") then
    match safe_int (get r "NextDueMeter"), safe_int (get r "CurrentMeter") with
    | Some ndm, Some cm =>
        let meters_left := ndm - cm in
        Ret (urgency meters_left meter_soon, Some meters_left)
    | _, _ => Ret ("Unknown", None)
    end
  else Ret ("Unknown", None).

(** <<
def compute_status(row, due_soon_days, meter_soon):
    t = (row.get("IntervalType") or "").strip()
    if t in ["Days","Weeks","Months"]:
        nd = parse_date(row.get("NextDueDate"))
        if not nd: s, delta = "Unknown", None
        else:
            days_left = (nd - date.today()).days
            delta = days_left
            if days_left < 0: s = "Overdue"
            elif days_left <= due_soon_days: s = "Due Soon"
            else: s = "OK"
    elif t=="Meter":
        ndm, cm = safe_int(row.get("NextDueMeter")), safe_int(row.get("CurrentMeter"))
        if ndm is None or cm is None: s, delta = "Unknown", None
        else:
            meters_left = ndm - cm
            delta = meters_left
            if meters_left < 0: s = "Overdue"
            elif meters_left <= meter_soon: s = "Due Soon"
            else: s = "OK"
    else:
        s, delta = "Unknown", None
    pm_state = (row.get("PMStatus") or "Active").strip()
    if pm_state in ["Paused","Retired"]: s = pm_state
    return s, delta
>> *)
Definition compute_status (r : row) (due_soon_days meter_soon : Z)
  : exc (string * option Z) :=
  t ← interval_type r;
  '(s, delta) ← computed_status t r due_soon_days meter_soon;
  pm_state ← pm_status r;
  let s := if bool_decide (pm_state ∈ ["Paused"; "Retired"]) then pm_state else s in
  Ret (s, delta).

(** ** Back-fill of the derived columns *)

(** What the handlers write into [NextDueDate] and [NextDueMeter]:
    [nd_date.strftime(DATE_FMT) if isinstance(nd_date,(date,datetime)) else absent]
    and [nd_meter if nd_meter is not None else absent], where [absent] is
    [None] in [recompute_all] and [""] in the form handlers.

    The first expression is evaluated before anything is stored. [NaT]
    is an instance of [datetime], so the test lets it through, and its
    [strftime] raises [ValueError]: [printed] is the date whose text is
    to be stored, if any, and [due_to_store] the due point of a row as
    the handlers get to store it. *)
Definition printed (nd_date : option datelike) : exc (option date) :=
  match nd_date with
  | Some (Day d) => Ret (Some d)
  | Some NaT => Raise ValueError
  | None => Ret None
  end.

Definition due_to_store (r : row) : exc (option date * option Z) :=
  nd ← compute_next_due r;
  nd_date ← printed nd.1;
  Ret (nd_date, nd.2).

Definition date_cell (absent : cell) (nd_date : option date) : cell :=
  from_option (λ d, PyStr (Date.strftime d)) absent nd_date.

Definition meter_cell (absent : cell) (nd_meter : option Z) : cell :=
  from_option PyInt absent nd_meter.

Definition store_next_due (absent : cell) (nd : option date * option Z) (r : row) : row :=
  <["NextDueMeter" := meter_cell absent nd.2]>
    (<["NextDueDate" := date_cell absent nd.1]> r).

(** <<
def recompute_all(df):
    df = df.copy()
    for i, row in df.iterrows():
        nd_date, nd_meter = compute_next_due(row)
        df.at[i,"NextDueDate"] = nd_date.strftime(DATE_FMT) if isinstance(nd_date,(date,datetime)) else None
        df.at[i,"NextDueMeter"] = nd_meter if nd_meter is not None else None
    return df
>> *)
Definition recompute_row (r : row) : exc row :=
  nd ← due_to_store r; Ret (store_next_due PyNone nd r).

Definition recompute_all (df : list row) : exc (list row) :=
  mapM recompute_row df.

(** ** Session state and KPI tiles *)

(** [st.session_state]. *)
Record session : Type := mksession {
  df : list row;
  due_soon_days : Z;
  meter_soon : Z;
  status_filter : option string
}.

Definition STATES : list string :=
  ["Overdue"; "Due Soon"; "OK"; "Unknown"; "Paused"; "Retired"].

(** <<
counts = {"Overdue":0,"Due Soon":0,"OK":0,"Unknown":0,"Paused":0,"Retired":0}
for _, r in st.session_state.df.iterrows():
    s, _ = compute_status(r, st.session_state.due_soon_days, st.session_state.meter_soon)
    counts[s] = counts.get(s, 0) + 1
>> *)
Definition counts0 : gmap string Z :=
  list_to_map ((λ s, (s, 0)) <$> STATES).

Fixpoint count_rows (st : session) (rows : list row) (counts : gmap string Z)
  : exc (gmap string Z) :=
  match rows with
  | [] => Ret counts
  | r :: rows =>
      sd ← compute_status r (due_soon_days st) (meter_soon st);
      count_rows st rows (<[sd.1 := default 0 (counts !! sd.1) + 1]> counts)
  end.

Definition kpi_counts (st : session) : exc (gmap string Z) :=
  count_rows st (df st) counts0.

(** The state of a row under the session's cutoffs, and the number of
    rows among [rows] in state [s]. *)
Definition state_of (st : session) (r : row) : exc string :=
  sd ← compute_status r (due_soon_days st) (meter_soon st); Ret sd.1.

Definition tally (st : session) (rows : list row) (s : string) : Z :=
  Z.of_nat (length (filter (λ r, state_of st r = Ret s) rows)).

(** ** Log Completion *)

(** <<
if st.button("Log Completion", use_container_width=True):
    st.session_state.df.at[i_sel,"LastDoneDate"] = new_date.strftime(DATE_FMT)
    if (st.session_state.df.at[i_sel,"IntervalType"] == "Meter") and new_meter.strip():
        st.session_state.df.at[i_sel,"LastMeter"] = new_meter.strip()
        st.session_state.df.at[i_sel,"CurrentMeter"] = new_meter.strip()
    row = st.session_state.df.loc[i_sel].to_dict()
    nd_date, nd_meter = compute_next_due(row)
    st.session_state.df.at[i_sel,"NextDueDate"] = nd_date.strftime(DATE_FMT) if isinstance(nd_date,(date,datetime)) else ""
    st.session_state.df.at[i_sel,"NextDueMeter"] = nd_meter if nd_meter is not None else ""
    save_data(st.session_state.df); st.success("Completion logged.")
>>
    The frame is updated in place, so the handler is a state transformer:
    it yields the frame it leaves behind and whether it ran to its end.
    [i_sel] is one of the frame's row labels (the select box lists
    [df.iterrows()]); the model does nothing for any other. *)
Definition checkpoint (r : row) (new_date : date) (new_meter : string) : row :=
  let r := <["LastDoneDate" := PyStr (Date.strftime new_date)]> r in
  if bool_decide (get r "IntervalType" = PyStr "Meter") && truthy (PyStr (strip new_meter))
  then <["CurrentMeter" := PyStr (strip new_meter)]>
         (<["LastMeter" := PyStr (strip new_meter)]> r)
  else r.

Definition log_completion (df : list row) (i_sel : nat) (new_date : date)
    (new_meter : string) : list row * exc unit :=
  match df !! i_sel with
  | None => (df, Ret tt)
  | Some r =>
      let r := checkpoint r new_date new_meter in
      let df := <[i_sel := r]> df in
      match due_to_store r with
      | Raise e => (df, Raise e)
      | Ret nd => (<[i_sel := store_next_due (PyStr "") nd r]> df, Ret tt)
      end
  end.

End Dashboard.

(** ** Rows of text and sample data *)

(** The columns [compute_next_due] reads. *)
Definition DUE_INPUTS : list string :=
  ["IntervalType"; "IntervalValue"; "LastDoneDate"; "LastMeter"; "CurrentMeter"].

(** A row as a form or a Python [dict] gives it: every cell a string. *)
Definition mkrow (l : list (string * string)) : row :=
  list_to_map (prod_map id PyStr <$> l).

(** A cell that holds text, or nothing at all. *)
Definition text (c : cell) : Prop := c = PyNone \/ exists s, c = PyStr s.

Definition text_row (r : row) : Prop := forall k, text (get r k).



(** [s] after the override of [compute_status] by the status [p]. *)
Definition overridden (p s : string) : string :=
  if bool_decide (p ∈ ["Paused"; "Retired"]) then p else s.

(** A processing date; a second parser that reads nothing; and one that
    reads the text "NaT" as pandas does, and nothing else. *)
Definition today0 : date := mkdate 2024 6 15.
Definition no_fallback : cell -> option datelike := λ _, None.
Definition nat_fallback : cell -> option datelike :=
  λ c, if bool_decide (c = PyStr "NaT") then Some NaT else None.

(** The rows of [sample_data()] on [today0]. *)
Definition sample_compressor : row :=
  mkrow [("Site", "Main Plant"); ("AssetID", "CMP-401"); ("AssetName", "Air Compressor #1");
         ("Component", "Compressor"); ("PMTask", "Change oil & filter");
         ("IntervalType", "Months"); ("IntervalValue", "6");
         ("LastDoneDate", "2023-11-15");
         ("LastMeter", ""); ("CurrentMeter", ""); ("NextDueDate", ""); ("NextDueMeter", "");
         ("Priority", "High"); ("PMStatus", "Active"); ("Owner", "Keith"); ("Notes", "Use ISO 68")].

Definition sample_forklift : row :=
  mkrow [("Site", "Main Plant"); ("AssetID", "FLT-112"); ("AssetName", "Forklift A");
         ("Component", "Engine"); ("PMTask", "Service @ every 200 hrs");
         ("IntervalType", "Meter"); ("IntervalValue", "200");
         ("LastDoneDate", "2024-04-15");
         ("LastMeter", "1400"); ("CurrentMeter", "1585"); ("NextDueDate", ""); ("NextDueMeter", "");
         ("Priority", "Medium"); ("PMStatus", "Active"); ("Owner", "Shop"); ("Notes", "")].

Definition sample_fan : row :=
  mkrow [("Site", "Warehouse"); ("AssetID", "FAN-020"); ("AssetName", "Exhaust Fan");
         ("Component", "Motor"); ("PMTask", "Grease bearings");
         ("IntervalType", "Weeks"); ("IntervalValue", "12");
         ("LastDoneDate", "2024-04-06");
         ("LastMeter", ""); ("CurrentMeter", ""); ("NextDueDate", ""); ("NextDueMeter", "");
         ("Priority", "Low"); ("PMStatus", "Paused"); ("Owner", "Vendor"); ("Notes", "Awaiting parts")].

Definition sample_data : list row := [sample_compressor; sample_forklift; sample_fan].

(** The same rows once [recompute_all] has filled the derived columns,
    and a session over them with the default cutoffs. *)
Definition compressor_due : row := <["NextDueDate" := PyStr "2024-05-15"]> sample_compressor.
Definition forklift_due : row := <["NextDueMeter" := PyInt 1600]> sample_forklift.
Definition fan_due : row := <["NextDueDate" := PyStr "2024-06-29"]> sample_fan.

Definition DUE_SOON_DAYS_DEFAULT : Z := 14.
Definition METER_SOON_THRESHOLD_DEFAULT : Z := 50.

Definition session0 : session :=
  mksession [compressor_due; forklift_due; fan_due]
            DUE_SOON_DAYS_DEFAULT METER_SOON_THRESHOLD_DEFAULT None.

(** Rows an imported CSV can hold: a monthly task last done on a 31st; an
    interval of three million days; a weekly task last done in the last
    week of the calendar; intervals of a hundred thousand and of thirty
    billion months; a meter task with no last reading;
    and a row whose [PMStatus] field is empty, which [pd.read_csv] loads
    as [nan]. *)
Definition end_of_january : row :=
  mkrow [("IntervalType", "Months"); ("IntervalValue", "1");
         ("LastDoneDate", "2024-01-31"); ("PMStatus", "Active")].

Definition far_interval : row :=
  mkrow [("IntervalType", "Days"); ("IntervalValue", "3000000");
         ("LastDoneDate", "2024-01-01"); ("PMStatus", "Active")].


Definition far_months : row :=
  mkrow [("IntervalType", "Months"); ("IntervalValue", "100000");
         ("LastDoneDate", "2024-01-01"); ("PMStatus", "Active")].

Definition farther_months : row :=
  mkrow [("IntervalType", "Months"); ("IntervalValue", "30000000000");
         ("LastDoneDate", "2024-01-01"); ("PMStatus", "Active")].

Definition no_last_meter : row :=
  mkrow [("IntervalType", "Meter"); ("IntervalValue", "200");
         ("LastMeter", ""); ("CurrentMeter", "100"); ("PMStatus", "Active")].

Definition empty_status : row := <["PMStatus" := PyNaN]> forklift_due.

(** Rows whose last-done date and whose due date hold the text "NaT",
    which pandas reads as its not-a-time; a paused task with an interval
    in hours; and the forklift with a blank before its interval type. *)
Definition nat_done : row :=
  mkrow [("IntervalType", "Days"); ("IntervalValue", "30");
         ("LastDoneDate", "NaT"); ("PMStatus", "Active")].

Definition nat_months : row :=
  mkrow [("IntervalType", "Months"); ("IntervalValue", "6");
         ("LastDoneDate", "NaT"); ("PMStatus", "Active")].

Definition nat_long : row :=
  mkrow [("IntervalType", "Days"); ("IntervalValue", "1000000000");
         ("LastDoneDate", "NaT"); ("PMStatus", "Active")].




(** A meter task whose numeric fields hold decimal fractions. *)
Definition fractional_meter : row :=
  mkrow [("IntervalType", "Meter"); ("IntervalValue", "6.9");
         ("LastMeter", "10.5"); ("CurrentMeter", "12.9");
         ("NextDueMeter", "16.9"); ("PMStatus", "Active")].

(** * The rest of the page

    The functions around the calculator and the classifier: the column
    normaliser [ensure_columns], the loader and the CSV import, the row
    pickers and the "Save PM" and "Delete PM" handlers of the form, the
    table filter [apply_filters] and the table the page displays. *)

(** ** Integers from text: [int(s)] *)

Module Int.

(** [int(s)] for a string, in base ten: blanks are stripped at both ends,
    then an optional sign and digits, single underscores allowed between
    digits. *)
Definition of_string (s : string) : exc Z :=
  match Float.underscores None (list_ascii_of_string s) with
  | None => Raise ValueError
  | Some l =>
      let '(neg, t) := Float.sign (strip_chars Float.is_space l) in
      match digits 0 0 t with
      | (v, n, []) => if n =? 0 then Raise ValueError else Ret (cond_Zopp neg v)
      | _ => Raise ValueError
      end
  end.

End Int.

(** [s.split(sep)[0]]: the text before the first [sep], all of [s] when
    it holds none. *)
Fixpoint before (sep : ascii) (l : list ascii) : list ascii :=
  match l with
  | [] => []
  | c :: l' => if bool_decide (c = sep) then [] else c :: before sep l'
  end.

(** The select boxes of the form and of "Log Completion" list the rows as
    [f"{i}: {r.AssetName} • {r.PMTask}"], and the handlers read the row
    number back with [int(pick.split(":")[0])]. *)
Definition picked (pick : string) : exc Z :=
  Int.of_string (string_of_list_ascii (before ":" (list_ascii_of_string pick))).

(** The value of the decimal numeral [d] read after the digits that made
    [acc], and its number of digits (for the proofs). *)
Fixpoint uint_val (acc : Z) (d : Decimal.uint) : Z :=
  match d with
  | Decimal.Nil => acc
  | Decimal.D0 d => uint_val (10 * acc) d
  | Decimal.D1 d => uint_val (10 * acc + 1) d
  | Decimal.D2 d => uint_val (10 * acc + 2) d
  | Decimal.D3 d => uint_val (10 * acc + 3) d
  | Decimal.D4 d => uint_val (10 * acc + 4) d
  | Decimal.D5 d => uint_val (10 * acc + 5) d
  | Decimal.D6 d => uint_val (10 * acc + 6) d
  | Decimal.D7 d => uint_val (10 * acc + 7) d
  | Decimal.D8 d => uint_val (10 * acc + 8) d
  | Decimal.D9 d => uint_val (10 * acc + 9) d
  end.

(** The characters a number can start with, once trimmed. *)
Definition starts_number (c : ascii) : Prop :=
  is_digit c = true \/ c = "."%char \/ c = "+"%char \/ c = "-"%char.

(** ** Dates as text, and months in a row *)

(** The ways [%m] and [%d] read the month [m] and the day [d]: on two
    digits, and below ten on one digit, the day also after a space. *)
Definition month_texts (m : Z) : list (list ascii) :=
  Date.pad2 m :: (if m <? 10 then [[Date.digit_char m]] else []).

Definition day_texts (d : Z) : list (list ascii) :=
  Date.pad2 d ::
  (if d <? 10 then [[Date.digit_char d]; [" "%char; Date.digit_char d]] else []).

(** The check run over the months and days: each of these texts reads
    back as the month and the day. *)
Definition re_md_texts_ok (m d : Z) : bool :=
  forallb (λ ms, forallb (λ ds,
     bool_decide (Date.re_md (ms ++ "-"%char :: ds) = Some (m, d, [])))
     (day_texts d)) (month_texts m).

(** The ordinal of the last day before month [k], the months being
    counted from year 0 as [month_index] counts them. *)
Definition month_first (k : Z) : Z :=
  Date.days_before_year (k / 12)
  + Date.month_start (Date.is_leap (k / 12)) (k mod 12 + 1).

(** ** Data frames with their columns *)

(** A data frame as pandas holds it: the column labels, in order, and the
    rows, each with a cell under every label. Labels are distinct. *)
Record frame : Type := mkframe { columns : list string; values : list row }.

(** <<
def base_columns():
    return [
        "Site","AssetID","AssetName","Component","PMTask",
        "IntervalType","IntervalValue",
        "LastDoneDate","LastMeter","CurrentMeter",
        "NextDueDate","NextDueMeter",
        "Priority","PMStatus","Owner","Notes"
    ]
>> *)
Definition base_columns : list string :=
  ["Site"; "AssetID"; "AssetName"; "Component"; "PMTask";
   "IntervalType"; "IntervalValue";
   "LastDoneDate"; "LastMeter"; "CurrentMeter";
   "NextDueDate"; "NextDueMeter";
   "Priority"; "PMStatus"; "Owner"; "Notes"].

(** [df[c] = v] for a scalar [v]: the column [c], a new last column when
    the frame has none, holds [v] in every row. *)
Definition set_column (c : string) (v : cell) (df : frame) : frame :=
  mkframe (if bool_decide (c ∈ columns df) then columns df else columns df ++ [c])
          (insert c v <$> values df).

(** [df[cols]] for a list of labels the frame has: a new frame with
    these columns, in this order. *)
Definition select_columns (cols : list string) (df : frame) : frame :=
  mkframe cols ((λ r : row, filter (λ kv, kv.1 ∈ cols) r) <$> values df).

(** <<
def ensure_columns(df):
    cols = base_columns()
    for c in cols:
        if c not in df.columns: df[c] = None
    return df[cols]
>>
    The loop works on the caller's frame, the selection makes a new one:
    the function yields the frame it leaves behind and the one it
    returns. After the loop every label of [cols] is a column, so the
    selection finds them all. *)
Definition fill_step (df : frame) (c : string) : frame :=
  if bool_decide (c ∈ columns df) then df else set_column c PyNone df.

Definition fill_columns (df : frame) : frame := foldl fill_step df base_columns.

Definition ensure_columns (df : frame) : frame * frame :=
  let df := fill_columns df in (df, select_columns base_columns df).

(** [df.insert(loc, c, vals)], [loc] being at most the number of
    columns: [ValueError] when the frame has a column [c] already, or
    when [vals] has not one value per row. *)
Definition insert_column (loc : nat) (c : string) (vals : list cell) (df : frame)
  : exc frame :=
  if bool_decide (c ∈ columns df) || negb (length vals =? length (values df))%nat
  then Raise ValueError
  else Ret (mkframe (take loc (columns df) ++ c :: drop loc (columns df))
                    (zip_with (λ v (r : row), <[c := v]> r) vals (values df))).

(** [df.reindex(columns=cols, fill_value=fill)]: the columns [cols]; one
    the frame has keeps its cells, a new one holds [fill]. *)
Definition reindex_columns (cols : list string) (fill : cell) (df : frame) : frame :=
  mkframe cols
    ((λ r : row,
        list_to_map ((λ c, (c, if bool_decide (c ∈ columns df) then get r c else fill))
                     <$> cols)) <$> values df).

(** A frame is well formed when its labels are distinct and each row has
    a cell under each of them and under no other. *)
Definition frame_wf (df : frame) : Prop :=
  NoDup (columns df) /\
  Forall (λ r : row, forall k, is_Some (r !! k) <-> k ∈ columns df) (values df).

(** ** Dates before a day: [t - relativedelta(...)]

    The subtraction adds the negated delta: the months go through
    [add_months]; the weeks are days, added by [timedelta] to the date
    rebuilt with its own year, month and (clamped) day. *)
Definition months_before (t : date) (n : Z) : exc date := Date.add_months t (- n).

Definition weeks_before (t : date) (n : Z) : exc date :=
  r ← Date.make (Date.year t) (Date.month t)
                (Z.min (Date.days_in_month (Date.year t) (Date.month t)) (Date.day t));
  delta ← Date.timedelta (- (7 * n));
  Date.add r delta.

(** ** What the widgets hand to the handlers *)

(** The inputs of the "Add / Edit PM" form: text inputs give strings,
    select boxes one of their options, the number input an integer, the
    date input a date. *)
Module Form.
Record t : Type := mk {
  site : string;
  asset_id : string;
  asset_name : string;
  component : string;
  task : string;
  owner : string;
  interval_type : string;
  interval_value : Z;
  priority : string;
  pm_status : string;
  last_done_date : option date;
  last_meter : string;
  current_meter : string;
  notes : string
}.
End Form.

(** The filters of the sidebar. *)
Module Sidebar.
Record t : Type := mk {
  site_f : string;
  asset_f : string;
  priority_f : string;
  pmstatus_f : string;
  interval_f : list string;
  q : string
}.
End Sidebar.

Definition lower_string (s : string) : string :=
  string_of_list_ascii (map lower (list_ascii_of_string s)).

(** [column.isin(l)] on one cell, for a list of strings. *)
Definition isin (l : list string) (c : cell) : bool :=
  match c with
  | PyStr s => bool_decide (s ∈ l)
  | _ => false
  end.

(** [out[pd.Series(keep, index=out.index)]]: the rows whose flag is set. *)
Definition mask (keep : list bool) (out : list row) : list row :=
  (filter (λ p : bool * row, p.1 = true) (zip keep out)).*2.

Definition view_cols : list string :=
  "DueStatus" :: "Urgency (days/meter left)" :: base_columns.

(** The rows that pass the column filters of the sidebar: each select
    box either shows "(All)" or the row's value, and the interval type is
    one of those selected, when any is. *)
Definition passes (f : Sidebar.t) (r : row) : Prop :=
  (Sidebar.site_f f = "(All)" \/ get r "Site" = PyStr (Sidebar.site_f f)) /\
  (Sidebar.asset_f f = "(All)" \/ get r "AssetName" = PyStr (Sidebar.asset_f f)) /\
  (Sidebar.priority_f f = "(All)" \/ get r "Priority" = PyStr (Sidebar.priority_f f)) /\
  (Sidebar.pmstatus_f f = "(All)" \/ get r "PMStatus" = PyStr (Sidebar.pmstatus_f f)) /\
  (Sidebar.interval_f f = [] \/ isin (Sidebar.interval_f f) (get r "IntervalType") = true).

#[global] Instance passes_dec f r : Decision (passes f r).
Proof. unfold passes. apply _. Defined.

(** The rows of [sample_data()], given its three dates as text. *)
Definition sample_rows (compressor_done forklift_done fan_done : string) : list row :=
  [ mkrow [("Site", "Main Plant"); ("AssetID", "CMP-401"); ("AssetName", "Air Compressor #1");
           ("Component", "Compressor"); ("PMTask", "Change oil & filter");
           ("IntervalType", "Months"); ("IntervalValue", "6");
           ("LastDoneDate", compressor_done);
           ("LastMeter", ""); ("CurrentMeter", ""); ("NextDueDate", ""); ("NextDueMeter", "");
           ("Priority", "High"); ("PMStatus", "Active"); ("Owner", "Keith");
           ("Notes", "Use ISO 68")];
    mkrow [("Site", "Main Plant"); ("AssetID", "FLT-112"); ("AssetName", "Forklift A");
           ("Component", "Engine"); ("PMTask", "Service @ every 200 hrs");
           ("IntervalType", "Meter"); ("IntervalValue", "200");
           ("LastDoneDate", forklift_done);
           ("LastMeter", "1400"); ("CurrentMeter", "1585"); ("NextDueDate", "");
           ("NextDueMeter", "");
           ("Priority", "Medium"); ("PMStatus", "Active"); ("Owner", "Shop"); ("Notes", "")];
    mkrow [("Site", "Warehouse"); ("AssetID", "FAN-020"); ("AssetName", "Exhaust Fan");
           ("Component", "Motor"); ("PMTask", "Grease bearings");
           ("IntervalType", "Weeks"); ("IntervalValue", "12");
           ("LastDoneDate", fan_done);
           ("LastMeter", ""); ("CurrentMeter", ""); ("NextDueDate", ""); ("NextDueMeter", "");
           ("Priority", "Low"); ("PMStatus", "Paused"); ("Owner", "Vendor");
           ("Notes", "Awaiting parts")] ].

Section Page.

Variable today : date.
Variable to_datetime : cell -> option datelike.

(** The content of a CSV file, with pandas' reader ([pd.read_csv(...,
    dtype=str)], which may raise) and writer ([df.to_csv(index=False)]). *)
Variable csv : Type.
Variable read_csv : csv -> exc frame.
Variable to_csv : frame -> csv.

(** The search clause of [apply_filters]: the rows of [out] in which one
    of [PMTask], [Component], [AssetName] and [Notes] matches the pattern
    ([Series.str.contains], a regular-expression search; it raises on a
    text that is no regular expression). *)
Variable search : string -> list row -> exc (list row).

(** The column pandas makes of a Python list of integers and [None]. *)
Variable as_column : list (option Z) -> list cell.

(** <<
def sample_data():
    t = date.today()
    return pd.DataFrame([
        dict(..., LastDoneDate=(t - relativedelta(months=7)).strftime(DATE_FMT), ...),
        dict(..., LastDoneDate=(t - relativedelta(months=2)).strftime(DATE_FMT), ...),
        dict(..., LastDoneDate=(t - relativedelta(weeks=10)).strftime(DATE_FMT), ...),
    ])
>>
    The keys of the dictionaries are the base columns, in their order. *)
Definition sample_data_on : exc (list row) :=
  d1 ← months_before today 7;
  d2 ← months_before today 2;
  d3 ← weeks_before today 10;
  Ret (sample_rows (Date.strftime d1) (Date.strftime d2) (Date.strftime d3)).

(** <<
def load_data():
    if os.path.exists(DATA_FILE): df = pd.read_csv(DATA_FILE, dtype=str)
    else:
        df = sample_data(); df.to_csv(DATA_FILE, index=False)
    df = ensure_columns(df)
    df = recompute_all(df)
    return df
>>
    [file] is what [pm_data.csv] holds, [None] when there is no such
    file; the function yields what the file holds afterwards, and the
    rows of the frame it returns (its columns are the base columns). *)
Definition load_data (file : option csv) : option csv * exc (list row) :=
  let '(file, df) :=
    match file with
    | Some f => (file, read_csv f)
    | None =>
        match sample_data_on with
        | Ret rows => let df := mkframe base_columns rows in (Some (to_csv df), Ret df)
        | Raise e => (None, Raise e)
        end
    end in
  (file, df ← df; recompute_all today to_datetime (values (ensure_columns df).2)).

(** <<
def save_data(df):
    ensure_columns(df).to_csv(DATA_FILE, index=False)
>>
    on the frame of the session, whose columns are the base columns. *)
Definition save_data (df : list row) : csv :=
  to_csv (ensure_columns (mkframe base_columns df)).2.

(** <<
if up is not None:
    try:
        nd = pd.read_csv(up, dtype=str)
        nd = ensure_columns(nd)
        st.session_state.df = recompute_all(nd)
        save_data(st.session_state.df)
        st.success("Imported and saved.")
    except Exception as e:
        st.error(f"Import failed: {e}")
>>
    A transformer of the session's frame and of the file. *)
Definition import_csv (up : csv) (df : list row) (file : option csv)
  : list row * option csv :=
  match nd ← read_csv up; recompute_all today to_datetime (values (ensure_columns nd).2) with
  | Ret df' => (df', Some (save_data df'))
  | Raise _ => (df, file)
  end.

(** ** The table *)

(** <<
def apply_filters(df_in):
    out = df_in.copy()
    if site_f != "(All)": out = out[out["Site"] == site_f]
    if asset_f != "(All)": out = out[out["AssetName"] == asset_f]
    if priority_f != "(All)": out = out[out["Priority"] == priority_f]
    if pmstatus_f != "(All)": out = out[out["PMStatus"] == pmstatus_f]
    if interval_f: out = out[out["IntervalType"].isin(interval_f)]
    if st.session_state.status_filter:
        keep = []
        for _, r in out.iterrows():
            s, _ = compute_status(r, st.session_state.due_soon_days, st.session_state.meter_soon)
            keep.append(s == st.session_state.status_filter)
        out = out[pd.Series(keep, index=out.index)]
    if q and q.strip():
        ql = q.strip().lower()
        sel = (...)
        out = out[sel]
    return out
>>
    on the rows of the session's frame. *)
Definition column_is (k v : string) (out : list row) : list row :=
  if bool_decide (v = "(All)") then out
  else filter (λ r : row, get r k = PyStr v) out.

Definition apply_filters (f : Sidebar.t) (st : session) (df_in : list row)
  : exc (list row) :=
  let out := df_in in
  let out := column_is "Site" (Sidebar.site_f f) out in
  let out := column_is "AssetName" (Sidebar.asset_f f) out in
  let out := column_is "Priority" (Sidebar.priority_f f) out in
  let out := column_is "PMStatus" (Sidebar.pmstatus_f f) out in
  let out :=
    match Sidebar.interval_f f with
    | [] => out
    | _ => filter (λ r : row, isin (Sidebar.interval_f f) (get r "IntervalType") = true) out
    end in
  out ←
    match status_filter st with
    | Some label =>
        if truthy (PyStr label) then
          keep ← mapM (λ r, sd ← compute_status today to_datetime r
                                    (due_soon_days st) (meter_soon st);
                            Ret (bool_decide (sd.1 = label))) out;
          Ret (mask keep out)
        else Ret out
    | None => Ret out
    end;
  if truthy (PyStr (Sidebar.q f)) && truthy (PyStr (strip (Sidebar.q f)))
  then search (lower_string (strip (Sidebar.q f))) out
  else Ret out.

(** <<
disp = filtered.copy()
due_statuses, urgency = [], []
for _, r in disp.iterrows():
    s, d = compute_status(r, st.session_state.due_soon_days, st.session_state.meter_soon)
    due_statuses.append(s); urgency.append(d)
disp.insert(0, "DueStatus", due_statuses)
disp.insert(1, "Urgency (days/meter left)", urgency)
view_cols = ["DueStatus","Urgency (days/meter left)"] + base_columns()
disp = ensure_columns(disp).reindex(columns=view_cols, fill_value="")
>> *)
Definition display (st : session) (filtered : frame) : exc frame :=
  sds ← mapM (λ r, compute_status today to_datetime r (due_soon_days st) (meter_soon st))
             (values filtered);
  disp ← insert_column 0 "DueStatus" ((λ sd : string * option Z, PyStr sd.1) <$> sds) filtered;
  disp ← insert_column 1 "Urgency (days/meter left)" (as_column (snd <$> sds)) disp;
  Ret (reindex_columns view_cols (PyStr "") (ensure_columns disp).2).

(** ** The form *)

(** <<
interval_value = st.number_input("Interval Value", 0, 100000,
    value=int(float(df.at[idx,"IntervalValue"])) if idx is not None
          and str(df.at[idx,"IntervalValue"]).strip() not in ["","None","nan"] else 0)
>>
    the value the form opens with for the cell [c] of the picked row. *)
Definition interval_prefill (c : cell) : exc Z :=
  if bool_decide (strip (str c) ∈ [""; "None"; "nan"]) then Ret 0
  else x ← float c; Float.to_int x.

(** <<
row = dict(
    Site=site.strip(), AssetID=asset_id.strip(), AssetName=asset_name.strip(),
    Component=component.strip(), PMTask=task.strip(),
    IntervalType=interval_type, IntervalValue=str(interval_value) if interval_value else "",
    LastDoneDate=last_done_date.strftime(DATE_FMT) if last_done_date else "",
    LastMeter=str(last_meter).strip() if last_meter else "",
    CurrentMeter=str(current_meter).strip() if current_meter else "",
    NextDueDate="", NextDueMeter="",
    Priority=priority, PMStatus=pm_status, Owner=owner.strip(), Notes=notes.strip()
)
>> *)
Definition form_row (f : Form.t) : row :=
  mkrow
    [("Site", strip (Form.site f)); ("AssetID", strip (Form.asset_id f));
     ("AssetName", strip (Form.asset_name f));
     ("Component", strip (Form.component f)); ("PMTask", strip (Form.task f));
     ("IntervalType", Form.interval_type f);
     ("IntervalValue",
      if Form.interval_value f =? 0 then "" else str_of_Z (Form.interval_value f));
     ("LastDoneDate", from_option Date.strftime "" (Form.last_done_date f));
     ("LastMeter",
      if truthy (PyStr (Form.last_meter f)) then strip (Form.last_meter f) else "");
     ("CurrentMeter",
      if truthy (PyStr (Form.current_meter f)) then strip (Form.current_meter f) else "");
     ("NextDueDate", ""); ("NextDueMeter", "");
     ("Priority", Form.priority f); ("PMStatus", Form.pm_status f);
     ("Owner", strip (Form.owner f)); ("Notes", strip (Form.notes f))].

(** <<
if st.button("Save PM", use_container_width=True):
    row = dict(...)
    nd_date, nd_meter = compute_next_due(row)
    row["NextDueDate"] = nd_date.strftime(DATE_FMT) if isinstance(nd_date,(date,datetime)) else ""
    row["NextDueMeter"] = nd_meter if nd_meter is not None else ""
    if mode == "Edit Existing" and idx is not None:
        for k, v in row.items(): st.session_state.df.at[idx, k] = v
        st.success("PM updated.")
    else:
        st.session_state.df = pd.concat([st.session_state.df, pd.DataFrame([row])], ignore_index=True)
        st.success("PM created.")
    save_data(st.session_state.df)
>>
    [idx] is the row picked in the mode "Edit Existing", one of the
    frame's row labels, and [None] otherwise. The handler is a
    transformer of the session's frame and of the file. *)
Definition save_pm (df : list row) (file : option csv) (idx : option nat) (f : Form.t)
  : list row * option csv * exc unit :=
  match due_to_store today to_datetime (form_row f) with
  | Raise e => (df, file, Raise e)
  | Ret nd =>
      let r := store_next_due (PyStr "") nd (form_row f) in
      let df :=
        match idx with
        | Some i => alter (λ old : row, r ∪ old) i df
        | None => (df ++ [r])%list
        end in
      (df, Some (save_data df), Ret tt)
  end.

(** <<
if st.button("Delete PM", use_container_width=True, type="secondary"):
    st.session_state.df = st.session_state.df.drop(index=idx).reset_index(drop=True)
    save_data(st.session_state.df); st.success("PM deleted.")
>> *)
Definition delete_pm (df : list row) (idx : nat) : list row * csv :=
  let df := delete idx df in (df, save_data df).

End Page.

(** ** Sample inputs of the page *)

(** The sample rows as a stored table; the same table with the interval
    type of the forklift left empty; a table with one base column and a
    column of its own. *)
Definition sample_frame : frame := mkframe base_columns sample_data.

Definition blank_type_frame : frame :=
  mkframe base_columns [sample_compressor; <["IntervalType" := PyNaN]> sample_forklift].

Definition narrow_frame : frame :=
  mkframe ["AssetName"; "Extra"] [mkrow [("AssetName", "Exhaust Fan"); ("Extra", "x")]].

(** The sidebar as the page first shows it, and the same session with
    the Overdue tile selected. *)
Definition sidebar0 : Sidebar.t :=
  Sidebar.mk "(All)" "(All)" "(All)" "(All)" ["Days"; "Weeks"; "Months"; "Meter"] "".

Definition overdue_tile : session :=
  mksession [compressor_due; forklift_due; fan_due]
            DUE_SOON_DAYS_DEFAULT METER_SOON_THRESHOLD_DEFAULT (Some "Overdue").

(** A form filled in for a pump to inspect every 30 days. *)
Definition pump_form : Form.t :=
  Form.mk "Main Plant" "PMP-007" "Coolant Pump" "Seal" "Inspect seal" "Shop"
          "Days" 30 "Medium" "Active" (Some (mkdate 2024 6 1)) "" "" "".

(** A store whose files are the frames they hold, a search that keeps
    every row, and a column built cell by cell. *)
Definition read_frame (f : frame) : exc frame := Ret f.
Definition keep_all (q : string) (out : list row) : exc (list row) := Ret out.
Definition plain_column (l : list (option Z)) : list cell := from_option PyInt PyNone <$> l.

(** * Proofs *)

Ltac bools :=
  repeat progress
    rewrite ?andb_true_iff, ?orb_true_iff, ?andb_false_iff, ?negb_true_iff,
      ?orb_false_iff, ?negb_false_iff, ?Z.eqb_eq, ?Z.eqb_neq, ?Z.ltb_lt,
      ?Z.ltb_ge, ?Z.leb_le, ?Z.leb_gt in *.
Ltac divlia := Z.div_mod_to_equations; lia.
Ltac run := vm_compute; reflexivity.

(** ** The calendar: ordinals and dates are in bijection *)

Module Calendar.
Import Date.

Lemma range_check (P : Z -> bool) (lo len : Z) :
  forallb P (seqZ lo len) = true -> forall x, lo <= x < lo + len -> P x = true.
Proof.
  intros H x Hx. rewrite forallb_forall in H. apply H.
  apply list_elem_of_In, elem_of_seqZ. lia.
Qed.

Lemma month_day_spec lp n :
  0 <= n < 365 + Z_of_bool lp ->
  let '(m, d) := month_day lp n in
  1 <= m <= 12 /\ 1 <= d <= month_len lp m /\ month_start lp m + d = n + 1.
Proof.
  intros Hn.
  assert (H : month_day_ok lp n = true).
  { apply (range_check (month_day_ok lp) 0 (365 + Z_of_bool lp)); [|lia].
    destruct lp; vm_compute; reflexivity. }
  unfold month_day_ok in H. destruct (month_day lp n) as [m d].
  bools. lia.
Qed.

Lemma month_start_spec lp m d :
  1 <= m <= 12 -> 1 <= d <= month_len lp m ->
  month_day lp (month_start lp m + d - 1) = (m, d)
  /\ 1 <= month_start lp m + d <= 365 + Z_of_bool lp.
Proof.
  intros Hm Hd.
  assert (Hd' : d <= 31).
  { assert (month_len lp m <= 31); [|lia].
    pose proof (range_check (fun m => month_len lp m <=? 31) 1 12) as Hc.
    specialize (Hc ltac:(destruct lp; vm_compute; reflexivity) m ltac:(lia)).
    simpl in Hc. lia. }
  assert (H : month_start_ok lp (32 * m + d) = true).
  { apply (range_check (month_start_ok lp) 0 512); [|lia].
    destruct lp; vm_compute; reflexivity. }
  unfold month_start_ok in H.
  replace ((32 * m + d) / 32) with m in H by divlia.
  replace ((32 * m + d) mod 32) with d in H by divlia.
  bools. destruct H as [H|H].
  - exfalso. lia.
  - destruct H as [[H1 H2] H3]. apply bool_decide_eq_true in H1. split; [done|lia].
Qed.

Lemma year_day_spec n :
  1 <= n <= MAXORDINAL ->
  let '(y, r, lp) := year_day n in
  1 <= y <= 9999 /\ days_before_year y + r + 1 = n /\
  lp = is_leap y /\ 0 <= r < year_len y.
Proof.
  intros Hn. unfold year_day, year_len, MAXORDINAL, DI400Y, DI100Y, DI4Y in *.
  unfold days_before_year.
  match goal with |- context [if ?b then (_, _, _) else _] => destruct b eqn:E end.
  - destruct (is_leap _) eqn:E2; unfold is_leap in E2.
    + bools; repeat split; try reflexivity; divlia.
    + exfalso; bools; divlia.
  - destruct (is_leap _) eqn:E2; unfold is_leap in E2;
    match goal with |- context [?b = _ /\ _] => destruct b eqn:E3 end.
    all: bools; try (exfalso; divlia); repeat split; try reflexivity; try divlia.
Qed.

Lemma days_before_year_succ y :
  days_before_year (y + 1) = days_before_year y + year_len y.
Proof.
  unfold days_before_year, year_len, is_leap.
  destruct (_ && _) eqn:E; bools; divlia.
Qed.

Lemma year_len_pos y : 365 <= year_len y <= 366.
Proof. unfold year_len. destruct (is_leap y); lia. Qed.

Lemma days_before_year_mono y y' :
  y <= y' -> days_before_year y <= days_before_year y'.
Proof.
  intros H. replace y' with (y + (y' - y)) by lia.
  assert (Hk : 0 <= y' - y) by lia. revert Hk.
  generalize (y' - y) as k. apply natlike_ind.
  - rewrite Z.add_0_r. lia.
  - intros k Hk IH. replace (y + Z.succ k) with (y + k + 1) by lia.
    rewrite days_before_year_succ. pose proof (year_len_pos (y + k)). lia.
Qed.

Lemma year_day_unique y r :
  1 <= y <= 9999 -> 0 <= r < year_len y ->
  year_day (days_before_year y + r + 1) = (y, r, is_leap y).
Proof.
  intros Hy Hr.
  assert (Hn : 1 <= days_before_year y + r + 1 <= MAXORDINAL).
  { pose proof (days_before_year_mono 1 y ltac:(lia)).
    pose proof (days_before_year_mono (y + 1) 10000 ltac:(lia)) as H2.
    rewrite days_before_year_succ in H2.
    change (days_before_year 1) with 0 in *.
    change (days_before_year 10000) with 3652059 in *. unfold MAXORDINAL. lia. }
  pose proof (year_day_spec _ Hn) as H.
  destruct (year_day _) as [[y' r'] lp]. destruct H as (Hy' & He & -> & Hr').
  assert (y' = y) as ->.
  { destruct (Z.lt_trichotomy y y') as [Hlt|[->|Hlt]]; [|done|].
    - pose proof (days_before_year_mono (y + 1) y' ltac:(lia)) as H2.
      rewrite days_before_year_succ in H2. lia.
    - pose proof (days_before_year_mono (y' + 1) y ltac:(lia)) as H2.
      rewrite days_before_year_succ in H2. lia. }
  f_equal. f_equal. lia.
Qed.

Lemma ord2ymd_stages n :
  ord2ymd n =
  let '(y, r, lp) := year_day n in
  let '(m, d) := month_day lp r in mkdate y m d.
Proof.
  unfold ord2ymd, year_day, month_day.
  destruct (_ || _); [reflexivity|].
  destruct (_ <? _); reflexivity.
Qed.

Lemma days_in_month_len y m : days_in_month y m = month_len (is_leap y) m.
Proof. reflexivity. Qed.

Lemma days_before_month_start y m :
  days_before_month y m = month_start (is_leap y) m.
Proof. reflexivity. Qed.

Lemma year_len_leap y : year_len y = 365 + Z_of_bool (is_leap y).
Proof. unfold year_len. destruct (is_leap y); reflexivity. Qed.

Lemma ord2ymd_spec n :
  1 <= n <= MAXORDINAL -> valid (ord2ymd n) /\ toordinal (ord2ymd n) = n.
Proof.
  intros Hn. rewrite ord2ymd_stages.
  pose proof (year_day_spec n Hn) as H.
  destruct (year_day n) as [[y r] lp]. destruct H as (Hy & He & -> & Hr).
  rewrite year_len_leap in Hr.
  pose proof (month_day_spec (is_leap y) r Hr) as H.
  destruct (month_day _ r) as [m d]. destruct H as (Hm & Hd & Hs).
  unfold valid, toordinal, ymd2ord, MINYEAR, MAXYEAR. simpl.
  rewrite days_in_month_len, days_before_month_start. lia.
Qed.

Lemma toordinal_range d : valid d -> 1 <= toordinal d <= MAXORDINAL.
Proof.
  intros (Hy & Hm & Hd). unfold toordinal, ymd2ord, MINYEAR, MAXYEAR in *.
  rewrite days_in_month_len in Hd. rewrite days_before_month_start.
  destruct (month_start_spec _ _ _ Hm Hd) as [_ Hs].
  pose proof (days_before_year_mono 1 (year d) ltac:(lia)).
  pose proof (days_before_year_mono (year d + 1) 10000 ltac:(lia)) as H2.
  rewrite days_before_year_succ, year_len_leap in H2.
  change (days_before_year 1) with 0 in *.
  change (days_before_year 10000) with 3652059 in *. unfold MAXORDINAL. lia.
Qed.

Lemma ord2ymd_toordinal d : valid d -> ord2ymd (toordinal d) = d.
Proof.
  intros (Hy & Hm & Hd). unfold MINYEAR, MAXYEAR in *.
  rewrite days_in_month_len in Hd.
  destruct (month_start_spec _ _ _ Hm Hd) as [Hmd Hs].
  rewrite ord2ymd_stages. unfold toordinal, ymd2ord.
  rewrite days_before_month_start.
  replace (days_before_year (year d) + month_start (is_leap (year d)) (month d) + day d)
    with (days_before_year (year d)
          + (month_start (is_leap (year d)) (month d) + day d - 1) + 1) by lia.
  rewrite year_day_unique; [|lia|rewrite year_len_leap; lia].
  rewrite Hmd. destruct d; reflexivity.
Qed.

Lemma add_in_range d n :
  1 <= toordinal d + n <= MAXORDINAL ->
  exists d', add d n = Ret d' /\ valid d' /\ toordinal d' = toordinal d + n.
Proof.
  intros H. unfold add.
  replace ((0 <? _) && _) with true by (symmetry; bools; lia).
  destruct (ord2ymd_spec _ H). eauto.
Qed.

Lemma add_past_max d n :
  MAXORDINAL < toordinal d + n -> add d n = Raise OverflowError.
Proof.
  intros H. unfold add.
  replace ((0 <? _) && _) with false by (symmetry; bools; lia). reflexivity.
Qed.

Lemma add_ret d n d' : add d n = Ret d' -> valid d' /\ toordinal d' = toordinal d + n.
Proof.
  unfold add. destruct ((0 <? _) && _) eqn:E; [|discriminate]. intros [= <-].
  apply ord2ymd_spec. bools. lia.
Qed.

Lemma add_zero d : valid d -> add d 0 = Ret d.
Proof.
  intros H. unfold add. pose proof (toordinal_range d H).
  replace ((0 <? _) && _) with true by (symmetry; bools; lia).
  rewrite Z.add_0_r, ord2ymd_toordinal; done.
Qed.

Lemma month_len_bounds lp m : 1 <= m <= 12 -> 28 <= month_len lp m <= 31.
Proof.
  intros Hm.
  pose proof (range_check (fun m => (28 <=? month_len lp m) && (month_len lp m <=? 31)) 1 12) as Hc.
  specialize (Hc ltac:(destruct lp; vm_compute; reflexivity) m ltac:(lia)).
  simpl in Hc. bools. lia.
Qed.

Lemma c_int_small n : - 2 ^ 31 <= n < 2 ^ 31 -> c_int n = true.
Proof. intros H. unfold c_int. bools. lia. Qed.

Lemma make_valid y m d : valid (mkdate y m d) -> make y m d = Ret (mkdate y m d).
Proof.
  intros H. unfold make. rewrite bool_decide_eq_true_2 by done.
  destruct H as (Hy & Hm & Hd). unfold MINYEAR, MAXYEAR in Hy. cbn [year month day] in *.
  pose proof (month_len_bounds (is_leap y) m Hm) as Hl. rewrite <- days_in_month_len in Hl.
  rewrite !c_int_small; [done|lia..].
Qed.

Lemma make_invalid y m d :
  ¬ valid (mkdate y m d) -> c_int y = true -> c_int m = true -> c_int d = true ->
  make y m d = Raise ValueError.
Proof.
  intros H Hy Hm Hd. unfold make. rewrite Hy, Hm, Hd. cbn [andb].
  rewrite bool_decide_eq_false_2; done.
Qed.

Lemma make_overflow y m d : c_int y = false -> make y m d = Raise OverflowError.
Proof. intros H. unfold make. by rewrite H. Qed.

Lemma make_ret y m d r : make y m d = Ret r -> r = mkdate y m d /\ valid r.
Proof.
  unfold make. destruct (_ && _); [|discriminate].
  case_bool_decide; [|discriminate]. intros [= <-]. done.
Qed.

Lemma add_months_spec d n :
  valid d -> 0 < n ->
  let k := month_index d + n in
  (k / 12 <= MAXYEAR ->
   add_months d n = Ret (clamp (k / 12) (k mod 12 + 1) (day d))) /\
  (MAXYEAR < k / 12 ->
   add_months d n = Raise (if k / 12 <? 2 ^ 31 then ValueError else OverflowError)).
Proof.
  intros (Hy & Hm & Hd) Hn k. unfold MINYEAR, MAXYEAR in *.
  assert (Hk : exists y m, 1 <= y /\ 1 <= m <= 12 /\ y = k / 12 /\ m = k mod 12 + 1 /\
    add_months d n = (r ← make y m (Z.min (days_in_month y m) (day d)); add r 0)).
  { unfold add_months, k, month_index.
    destruct (11 <? Z.abs n) eqn:E1.
    - rewrite (Z.sgn_pos n) by lia. rewrite !Z.mul_1_r.
      destruct (n mod 12 =? 0) eqn:E2; [|destruct (12 <? month d + n mod 12) eqn:E3;
        [|destruct (month d + n mod 12 <? 1) eqn:E4]];
      eexists _, _; (split; [|split; [|split; [|split; [|reflexivity]]]]); bools; divlia.
    - destruct (n =? 0) eqn:E2; [|destruct (12 <? month d + n) eqn:E3;
        [|destruct (month d + n <? 1) eqn:E4]];
      eexists _, _; (split; [|split; [|split; [|split; [|reflexivity]]]]); bools; divlia. }
  destruct Hk as (y & m & Hy1 & Hm1 & <- & <- & ->).
  pose proof (month_len_bounds (is_leap y) m Hm1) as Hl.
  rewrite <- days_in_month_len in Hl. unfold clamp.
  split; intros Hle.
  - rewrite make_valid; [apply add_zero|]; unfold valid, MINYEAR, MAXYEAR; simpl; lia.
  - destruct (y <? 2 ^ 31) eqn:Ey.
    + rewrite make_invalid; try done; try (apply c_int_small; bools; lia).
      unfold valid, MINYEAR, MAXYEAR. simpl. lia.
    + rewrite make_overflow; [done|]. unfold c_int. bools. lia.
Qed.

Lemma forall_range (P : Z -> Prop) (lo len : Z) :
  Forall P (seqZ lo len) -> forall x, lo <= x < lo + len -> P x.
Proof.
  intros H x Hx. rewrite Forall_forall in H. apply H, elem_of_seqZ. lia.
Qed.

Ltac each_of lo len :=
  let l := eval vm_compute in (seqZ lo len) in
  change (seqZ lo len) with l;
  repeat apply Forall_cons_2; try apply Forall_nil_2.

Lemma digit_digit_char k : 0 <= k <= 9 -> digit (digit_char k) = Some k.
Proof.
  intros H. revert k H.
  refine (λ k H, forall_range (λ k, digit (digit_char k) = Some k) 0 10 _ k ltac:(lia)).
  each_of 0 10; reflexivity.
Qed.

Lemma range_digit_char a b k l :
  0 <= k <= 9 -> a <= k <= b -> range a b (digit_char k :: l) = Some (k, l).
Proof.
  intros Hk Hab. unfold range. rewrite digit_digit_char by done. simpl.
  replace ((a <=? k) && (k <=? b)) with true by (symmetry; bools; lia). done.
Qed.

Lemma re_Y_pad4 y l : 0 <= y <= 9999 -> re_Y (pad4 y ++ l) = Some (y, l).
Proof.
  intros Hy. unfold re_Y, pad4, pad2. cbn [app].
  do 4 (rewrite range_digit_char by divlia; cbn [mbind option_bind]).
  do 2 f_equal. divlia.
Qed.

Lemma re_md_pad2 m d :
  1 <= m <= 12 -> 1 <= d <= 31 ->
  re_md (pad2 m ++ "-"%char :: pad2 d) = Some (m, d, []).
Proof.
  intros Hm Hd.
  pose proof (range_check (λ m, forallb (re_md_ok m) (seqZ 1 31)) 1 12
                ltac:(vm_compute; reflexivity) m ltac:(lia)) as H.
  pose proof (range_check _ 1 31 H d ltac:(lia)) as H'.
  apply bool_decide_eq_true in H'. exact H'.
Qed.

Lemma strptime_strftime d : valid d -> strptime (strftime d) = Ret d.
Proof.
  intros Hv. pose proof Hv as (Hy & Hm & Hd). unfold MINYEAR, MAXYEAR in *.
  rewrite days_in_month_len in Hd.
  pose proof (month_len_bounds (is_leap (year d)) (month d) Hm).
  unfold strptime, strftime. rewrite list_ascii_of_string_of_list_ascii.
  unfold re_ymd. rewrite re_Y_pad4 by lia. cbn [mbind option_bind lit].
  rewrite bool_decide_eq_true_2 by done. cbn [mbind option_bind].
  rewrite (re_md_pad2 (month d) (day d)) by lia. destruct d; apply make_valid; done.
Qed.

Lemma strftime_nonempty d : strftime d <> "".
Proof. unfold strftime, pad4, pad2. simpl. discriminate. Qed.

Lemma sub_days_lt a b : sub_days a b < 0 <-> toordinal a < toordinal b.
Proof. unfold sub_days. lia. Qed.

End Calendar.

(** ** The numeric parser *)

Lemma lstrip_nil (space : ascii -> bool) (l : list ascii) :
  lstrip space l = [] -> Forall (λ c, space c = true) l.
Proof.
  induction l as [|c l IH]; [by constructor|]. cbn [lstrip].
  destruct (space c) eqn:E; [|discriminate]. intros H. constructor; auto.
Qed.

Lemma lstrip_spaces (space : ascii -> bool) (l : list ascii) :
  Forall (λ c, space c = true) l -> lstrip space l = [].
Proof. induction 1 as [|c l Hc _ IH]; [done|]. cbn [lstrip]. by rewrite Hc. Qed.

Lemma lstrip_lstrip (space : ascii -> bool) (l : list ascii) :
  lstrip space (lstrip space l) = lstrip space l.
Proof.
  induction l as [|c l IH]; [done|]. cbn [lstrip].
  destruct (space c) eqn:E; [done|]. cbn [lstrip]. by rewrite E.
Qed.

Lemma lstrip_Forall (P : ascii -> Prop) (space : ascii -> bool) (l : list ascii) :
  Forall P l -> Forall P (lstrip space l).
Proof.
  induction 1 as [|c l Hc Hl IH]; [by constructor|]. cbn [lstrip].
  destruct (space c); [done|by constructor].
Qed.

Lemma strip_chars_Forall (P : ascii -> Prop) (space : ascii -> bool) (l : list ascii) :
  Forall P l -> Forall P (strip_chars space l).
Proof.
  intros H. unfold strip_chars.
  by apply Forall_rev, lstrip_Forall, Forall_rev, lstrip_Forall.
Qed.

Lemma strip_chars_nil (space : ascii -> bool) (l : list ascii) :
  strip_chars space l = [] -> Forall (λ c, space c = true) l.
Proof.
  unfold strip_chars. intros H.
  apply (f_equal (@rev ascii)) in H. rewrite rev_involutive in H. cbn in H.
  apply lstrip_nil, Forall_rev in H. rewrite rev_involutive in H.
  apply lstrip_nil. rewrite <- lstrip_lstrip. by apply lstrip_spaces.
Qed.

Lemma space_not_underscore (c : ascii) : is_space c = true -> c <> "_"%char.
Proof. intros H ->. discriminate. Qed.

Lemma underscores_spaces (prev : option ascii) (l : list ascii) :
  Forall (λ c, is_space c = true) l -> prev <> Some "_"%char ->
  Float.underscores prev l = Some l.
Proof.
  intros H. revert prev. induction H as [|c l Hc _ IH]; intros prev Hp.
  - cbn. by rewrite bool_decide_eq_false_2.
  - pose proof (space_not_underscore c Hc) as Hn. cbn [Float.underscores].
    rewrite (bool_decide_eq_false_2 (c = _)) by done.
    rewrite (bool_decide_eq_false_2 (prev = _)) by done. cbn [andb].
    rewrite IH; [done|congruence].
Qed.

(** No literal starts with a whitespace character. *)
Lemma space_not_literal (c : ascii) (t : list ascii) :
  is_space c = true ->
  Float.sign (c :: t) = (false, c :: t) /\
  Float.inf_or_nan false (c :: t) = None /\
  Float.number false (c :: t) = None.
Proof.
  destruct c as [[] [] [] [] [] [] [] []]; intros H; try discriminate H;
    repeat split; reflexivity.
Qed.

Lemma blank_not_float (s : string) : strip s = "" -> Float.of_string s = Raise ValueError.
Proof.
  unfold strip. intros H.
  assert (Hl : Forall (λ c, is_space c = true) (list_ascii_of_string s)).
  { apply strip_chars_nil. by destruct (strip_chars _ _). }
  unfold Float.of_string. rewrite (underscores_spaces None _ Hl) by done.
  pose proof (strip_chars_Forall _ Float.is_space _ Hl) as Hs.
  destruct (strip_chars Float.is_space _) as [|c t]; [reflexivity|].
  apply Forall_cons in Hs as [Hc _].
  destruct (space_not_literal c t Hc) as (-> & -> & ->). reflexivity.
Qed.

Lemma to_int_finite (x : spec_float) :
  Float.finite x = true -> Float.to_int x = Ret (Float.trunc x).
Proof.
  destruct x as [| | |sg m e]; try discriminate; [done|]. intros _.
  assert (H : Z.shiftl (Zpos m) e
              = if 0 <=? e then Zpos m * 2 ^ e else Z.quot (Zpos m) (2 ^ (- e))).
  { destruct (0 <=? e) eqn:E; bools.
    - by rewrite Z.shiftl_mul_pow2.
    - replace e with (- (- e)) at 1 by lia. rewrite Z.shiftl_opp_r.
      rewrite Z.shiftr_div_pow2 by lia. symmetry. apply Z.quot_div_nonneg; lia. }
  unfold Float.to_int, Float.trunc, cond_Zopp. by rewrite H.
Qed.

Lemma to_int_not_finite (x : spec_float) :
  Float.finite x = false -> exists e, Float.to_int x = Raise e.
Proof. destruct x; try discriminate; by eexists. Qed.

(** C9, as amended. A numeric field holding a string is read as
    [float] reads it and cut towards zero: the result is the integer part
    of that double whenever [float] yields a finite one (so "6.9" gives 6
    and "-6.9" gives -6), and absent when [float] fails and also when
    it yields a NaN or an infinity ("nan", "inf", "1e999"); [None] and
    blank strings are absent. So an interval "6.9" on top of a last
    reading "10.5" gives the due reading 16, and the readings "16.9" and
    "12.9" leave 4. *)
Theorem safe_int_truncates (s : string) :
  safe_int (PyStr s)
  = match Float.of_string s with
    | Ret x => if Float.finite x then Some (Float.trunc x) else None
    | Raise _ => None
    end /\
  (String.eqb (strip s) "" = true -> safe_int (PyStr s) = None) /\
  safe_int PyNone = None /\
  safe_int (PyStr "6.9") = Some 6 /\ safe_int (PyStr "-6.9") = Some (-6) /\
  safe_int (PyStr "  ") = None /\ safe_int (PyStr "six") = None /\
  safe_int (PyStr "nan") = None /\ safe_int (PyStr "1e999") = None /\
  compute_next_due today0 no_fallback fractional_meter = Ret (None, Some 16) /\
  compute_status today0 no_fallback fractional_meter 14 50 = Ret ("Due Soon", Some 4).
Proof.
  assert (Hb : String.eqb (strip s) "" = true -> safe_int (PyStr s) = None).
  { intros H. unfold safe_int. cbn [str]. by rewrite H, orb_true_r. }
  split; [|split; [done|by vm_compute]].
  destruct (String.eqb (strip s) "") eqn:E.
  - rewrite Hb by done. apply String.eqb_eq in E. by rewrite blank_not_float.
  - unfold safe_int. cbn [str float]. rewrite E.
    rewrite bool_decide_eq_false_2 by done. cbn [orb].
    destruct (Float.of_string s) as [x|]; cbn [mbind exc_bind try_except]; [|done].
    destruct (Float.finite x) eqn:F.
    + by rewrite to_int_finite.
    + by destruct (to_int_not_finite x F) as [e ->].
Qed.

(** ** The dashboard *)

Section DashboardProofs.

Variable today : date.
Variable to_datetime : cell -> option datelike.

(** Python's [date] objects are calendar dates. *)
Hypothesis today_valid : Date.valid today.
Hypothesis to_datetime_valid : forall c d, to_datetime c = Some (Day d) -> Date.valid d.

Local Abbreviation parse_date := (parse_date to_datetime).
Local Abbreviation compute_next_due := (compute_next_due today to_datetime).
Local Abbreviation computed_status := (computed_status today to_datetime).
Local Abbreviation compute_status := (compute_status today to_datetime).
Local Abbreviation due_to_store := (due_to_store today to_datetime).
Local Abbreviation recompute_row := (recompute_row today to_datetime).
Local Abbreviation kpi_counts := (kpi_counts today to_datetime).
Local Abbreviation count_rows := (count_rows today to_datetime).
Local Abbreviation log_completion := (log_completion today to_datetime).

Lemma bind_ret {A B} (a : A) (f : A -> exc B) : (Ret a ≫= f) = f a.
Proof. reflexivity. Qed.

Lemma bind_raise {A B} (e : error) (f : A -> exc B) : (Raise e ≫= f) = Raise e.
Proof. reflexivity. Qed.


Lemma date_based_true t : t ∈ ["Days"; "Weeks"; "Months"] -> date_based t = true.
Proof. intros H. unfold date_based. by rewrite bool_decide_eq_true_2. Qed.

Lemma date_based_cases t :
  t ∈ ["Days"; "Weeks"; "Months"] -> t = "Days" \/ t = "Weeks" \/ t = "Months".
Proof.
  intros H. repeat (apply elem_of_cons in H as [->|H]; [tauto|]).
  by apply elem_of_nil in H.
Qed.



(** *** The due-point calculator on meter records *)

Lemma get_insert (r : row) (k k' : string) (v : cell) :
  get (<[k := v]> r) k' = if decide (k = k') then v else get r k'.
Proof. unfold get. rewrite lookup_insert. by destruct (decide (k = k')). Qed.

Lemma get_insert_ne (r : row) (k k' : string) (v : cell) :
  k <> k' -> get (<[k := v]> r) k' = get r k'.
Proof. intros H. rewrite get_insert. by destruct (decide (k = k')). Qed.

Lemma get_insert_eq (r : row) (k : string) (v : cell) : get (<[k := v]> r) k = v.
Proof. rewrite get_insert. by destruct (decide (k = k)). Qed.

(** [compute_next_due] reads the five columns of [DUE_INPUTS] only. *)
Lemma compute_next_due_frame (r r' : row) :
  Forall (λ k, get r' k = get r k) DUE_INPUTS ->
  compute_next_due r' = compute_next_due r.
Proof.
  unfold DUE_INPUTS. rewrite !Forall_cons. intros (H1 & H2 & H3 & H4 & H5 & _).
  unfold compute_next_due, interval_type. by rewrite H1, H2, H3, H4, H5.
Qed.

Lemma not_positive_false v n : v = Some n -> 0 < n -> not_positive v = false.
Proof. intros -> H. unfold not_positive. bools. lia. Qed.

Lemma not_positive_true v :
  v = None \/ (exists n, v = Some n /\ n <= 0) -> not_positive v = true.
Proof. intros [->|(n & -> & H)]; [done|]. unfold not_positive. bools. lia. Qed.

Lemma meter_next_due (r : row) :
  interval_type r = Ret "Meter" ->
  compute_next_due r =
  if not_positive (safe_int (get r "IntervalValue")) then Ret (None, None)
  else
    let iv := default 0 (safe_int (get r "IntervalValue")) in
    match safe_int (get r "LastMeter") with
    | Some lm => Ret (None, Some (lm + iv))
    | None => Ret (None, Some (default 0 (safe_int (get r "CurrentMeter")) + iv))
    end.
Proof.
  intros Ht. unfold compute_next_due. rewrite Ht. cbn [mbind exc_bind].
  change (date_based "Meter") with false. cbn [bool_decide decide_rel].
  rewrite bool_decide_eq_true_2 by done.
  destruct (not_positive _); [done|]. by destruct (safe_int (get r "LastMeter")).
Qed.

Lemma interval_type_insert (r : row) (k : string) (v : cell) :
  k <> "IntervalType" -> interval_type (<[k := v]> r) = interval_type r.
Proof. intros H. unfold interval_type. by rewrite get_insert_ne. Qed.

(** C3. For a Meter record whose [interval_value] is a positive integer:
    with a [last_meter], [next_due_meter = last_meter + interval_value],
    whatever [current_meter] holds; without one,
    [next_due_meter = (current_meter, or 0 when absent) + interval_value];
    [next_due_date] is absent either way. With no positive
    [interval_value], both fields are absent. *)
Theorem compute_next_due_meter (r : row) :
  interval_type r = Ret "Meter" ->
  (forall interval_value,
     safe_int (get r "IntervalValue") = Some interval_value -> 0 < interval_value ->
     (forall last_meter, safe_int (get r "LastMeter") = Some last_meter ->
        compute_next_due r = Ret (None, Some (last_meter + interval_value)) /\
        forall c, compute_next_due (<["CurrentMeter" := c]> r)
                  = Ret (None, Some (last_meter + interval_value))) /\
     (safe_int (get r "LastMeter") = None ->
        compute_next_due r =
        Ret (None, Some (default 0 (safe_int (get r "CurrentMeter")) + interval_value)))) /\
  (safe_int (get r "IntervalValue") = None \/
   (exists n, safe_int (get r "IntervalValue") = Some n /\ n <= 0) ->
   compute_next_due r = Ret (None, None)).
Proof.
  intros Ht. split.
  - intros iv Hiv Hpos. split.
    + intros lm Hlm. split.
      * rewrite meter_next_due by done.
        by rewrite (not_positive_false _ _ Hiv Hpos), Hiv, Hlm.
      * intros c. rewrite meter_next_due by (by rewrite interval_type_insert).
        rewrite !get_insert_ne by done.
        by rewrite (not_positive_false _ _ Hiv Hpos), Hiv, Hlm.
    + intros Hlm. rewrite meter_next_due by done.
      by rewrite (not_positive_false _ _ Hiv Hpos), Hiv, Hlm.
  - intros H. rewrite meter_next_due by done. by rewrite not_positive_true.
Qed.

(** C4, as amended. For a Meter record with a [last_meter], overwriting
    [current_meter] alone leaves what [compute_next_due] returns, and so
    the [NextDueMeter] the back-fill stores, unchanged; the
    other inputs of the calculator are untouched. Without a [last_meter]
    (and with a positive [interval_value]) the recomputed
    [next_due_meter] follows the new [current_meter]. *)
Theorem meter_update_keeps_next_due (r : row) (c : cell) :
  interval_type r = Ret "Meter" ->
  (forall k, k <> "CurrentMeter" -> get (<["CurrentMeter" := c]> r) k = get r k) /\
  (forall last_meter, safe_int (get r "LastMeter") = Some last_meter ->
     compute_next_due (<["CurrentMeter" := c]> r) = compute_next_due r /\
     forall r1 r2,
       recompute_row r = Ret r1 -> recompute_row (<["CurrentMeter" := c]> r) = Ret r2 ->
       get r2 "NextDueMeter" = get r1 "NextDueMeter" /\
       get r2 "NextDueDate" = get r1 "NextDueDate") /\
  (forall interval_value,
     safe_int (get r "LastMeter") = None ->
     safe_int (get r "IntervalValue") = Some interval_value -> 0 < interval_value ->
     compute_next_due (<["CurrentMeter" := c]> r)
     = Ret (None, Some (default 0 (safe_int c) + interval_value))).
Proof.
  intros Ht. split; [|split].
  - intros k Hk. by rewrite get_insert_ne.
  - intros lm Hlm.
    assert (He : compute_next_due (<["CurrentMeter" := c]> r) = compute_next_due r).
    { rewrite !meter_next_due by (by rewrite ?interval_type_insert).
      rewrite !get_insert_ne by done. by rewrite Hlm. }
    split; [done|]. intros r1 r2. unfold recompute_row, due_to_store. rewrite He.
    destruct (compute_next_due r ≫= _) as [nd|e]; cbn [mbind exc_bind]; [|discriminate].
    intros [= <-] [= <-]. unfold store_next_due.
    split; [by rewrite !get_insert_eq|].
    rewrite !(get_insert_ne _ "NextDueMeter") by done. by rewrite !get_insert_eq.
  - intros iv Hlm Hiv Hpos.
    rewrite meter_next_due by (by rewrite interval_type_insert).
    rewrite get_insert_eq, !get_insert_ne by done.
    by rewrite (not_positive_false _ _ Hiv Hpos), Hiv, Hlm.
Qed.

(** *** The override *)

Lemma pm_status_insert (r : row) (k : string) (v : cell) :
  k <> "PMStatus" -> pm_status (<[k := v]> r) = pm_status r.
Proof. intros H. unfold pm_status. by rewrite get_insert_ne. Qed.

Lemma computed_status_insert_pm (t : string) (r : row) (v : cell) (dsd ms : Z) :
  computed_status t (<["PMStatus" := v]> r) dsd ms = computed_status t r dsd ms.
Proof. unfold computed_status. by rewrite !get_insert_ne. Qed.

(** C5. When [pm_status] is Paused or Retired, the state [compute_status]
    returns is that very value, for any interval type and due point, and
    the urgency is the one steps 1-3 computed ([computed_status]): the
    same the record reports once set back to Active.  (Where steps 1-3
    raise, on a due date that reads as [NaT], the override is not
    reached.) *)
Theorem paused_retired_override (r : row) (due_soon_days meter_soon : Z) (t p : string) :
  interval_type r = Ret t -> pm_status r = Ret p -> p ∈ ["Paused"; "Retired"] ->
  match computed_status t r due_soon_days meter_soon with
  | Ret (state, delta) =>
      compute_status r due_soon_days meter_soon = Ret (p, delta) /\
      compute_status (<["PMStatus" := PyStr "Active"]> r) due_soon_days meter_soon
      = Ret (state, delta)
  | Raise e =>
      compute_status r due_soon_days meter_soon = Raise e /\
      compute_status (<["PMStatus" := PyStr "Active"]> r) due_soon_days meter_soon
      = Raise e
  end.
Proof.
  intros Ht Hp Hin. unfold compute_status.
  rewrite interval_type_insert, Ht by done. cbn [mbind exc_bind].
  rewrite computed_status_insert_pm.
  destruct (computed_status t r _ _) as [[s delta]|e]; cbn [mbind exc_bind]; [|done].
  rewrite Hp. cbn [mbind exc_bind]. rewrite bool_decide_eq_true_2 by done.
  split; [done|]. unfold pm_status. rewrite get_insert_eq. reflexivity.
Qed.

(** *** The due-point calculator on date-based records *)

Lemma strptime_valid (s : string) (d : date) : Date.strptime s = Ret d -> Date.valid d.
Proof.
  unfold Date.strptime. destruct (Date.re_ymd _) as [[[[y m] dd] [|? ?]]|]; try discriminate.
  intros H. by destruct (Calendar.make_ret _ _ _ _ H).
Qed.

Lemma parse_date_valid (c : cell) (d : date) : parse_date c = Some (Day d) -> Date.valid d.
Proof.
  unfold parse_date. destruct (_ || _); [discriminate|].
  destruct (Date.strptime _) eqn:E.
  - intros [= <-]. by eapply strptime_valid.
  - apply to_datetime_valid.
Qed.

Lemma parse_date_strftime (d : date) :
  Date.valid d -> parse_date (PyStr (Date.strftime d)) = Some (Day d).
Proof.
  intros H. unfold parse_date. cbn [isna orb str].
  rewrite bool_decide_eq_false_2
    by (intros [= E]; by apply Calendar.strftime_nonempty in E).
  by rewrite Calendar.strptime_strftime.
Qed.

Lemma base_valid (c : cell) (b : date) :
  default (Day today) (parse_date c) = Day b -> Date.valid b.
Proof.
  destruct (parse_date c) as [x|] eqn:E; simpl.
  - intros ->. by eapply parse_date_valid.
  - by intros [= <-].
Qed.

Lemma not_positive_no_due (r : row) (t : string) :
  interval_type r = Ret t -> not_positive (safe_int (get r "IntervalValue")) = true ->
  compute_next_due r = Ret (None, None).
Proof.
  intros Ht Hn. unfold compute_next_due. rewrite Ht, Hn. cbn [mbind exc_bind].
  destruct (date_based t); [done|]. by case_bool_decide.
Qed.

Lemma date_next_due (r : row) (t : string) (iv : Z) :
  interval_type r = Ret t -> t ∈ ["Days"; "Weeks"; "Months"] ->
  safe_int (get r "IntervalValue") = Some iv -> 0 < iv ->
  compute_next_due r =
  let base := default (Day today) (parse_date (get r "LastDoneDate")) in
  nd_date ←
    (if bool_decide (t = "Days") then plus_days base iv
     else if bool_decide (t = "Weeks") then plus_days base (7 * iv)
     else plus_months base iv);
  Ret (Some nd_date, None).
Proof.
  intros Ht Hin Hiv Hpos. unfold compute_next_due. rewrite Ht. cbn [mbind exc_bind].
  rewrite (date_based_true _ Hin), (not_positive_false _ _ Hiv Hpos), Hiv. reflexivity.
Qed.

Lemma add_days_spec (base : date) (n : Z) :
  Date.valid base -> 0 < n ->
  (Date.toordinal base + n <= Date.MAXORDINAL ->
   exists d, plus_days (Day base) n = Ret (Day d) /\
             Date.valid d /\ Date.toordinal d = Date.toordinal base + n) /\
  (Date.MAXORDINAL < Date.toordinal base + n ->
   plus_days (Day base) n = Raise OverflowError).
Proof.
  intros Hv Hn. pose proof (Calendar.toordinal_range _ Hv) as Hr.
  unfold Date.MAXORDINAL in *. unfold plus_days, Date.timedelta. split; intros H.
  - replace (Z.abs n <=? 999999999) with true by (symmetry; bools; lia).
    cbn [mbind exc_bind].
    destruct (Calendar.add_in_range base n) as (d & -> & ? & ?);
      [unfold Date.MAXORDINAL; lia|]. cbn [mbind exc_bind]. eauto.
  - destruct (Z.abs n <=? 999999999); [|done].
    cbn [mbind exc_bind]. rewrite Calendar.add_past_max; [done|]. unfold Date.MAXORDINAL. lia.
Qed.

(** From [NaT] the days are added as soon as they make a [timedelta]. *)
Lemma add_days_nat (n : Z) :
  0 < n ->
  plus_days NaT n = if n <=? 999999999 then Ret NaT else Raise OverflowError.
Proof.
  intros Hn. unfold plus_days, Date.timedelta. rewrite Z.abs_eq by lia.
  by destruct (n <=? 999999999).
Qed.

Lemma plus_days_ret (base x : datelike) (n : Z) :
  plus_days base n = Ret x ->
  match base, x with
  | Day b, Day d => Date.valid d /\ Date.toordinal d = Date.toordinal b + n
  | NaT, NaT => True
  | _, _ => False
  end.
Proof.
  unfold plus_days, Date.timedelta. destruct (_ <=? _); [|discriminate].
  cbn [mbind exc_bind]. destruct base as [b|].
  - destruct (Date.add b n) as [d|] eqn:E; [|discriminate]. cbn [mbind exc_bind].
    intros [= <-]. by apply Calendar.add_ret.
  - by intros [= <-].
Qed.

Lemma add_months_ret (b d : date) (n : Z) : Date.add_months b n = Ret d -> Date.valid d.
Proof.
  unfold Date.add_months. intros E.
  repeat match type of E with context [let '(_, _) := ?p in _] => destruct p end.
  destruct (Date.make _ _ _) as [x'|]; [|discriminate]. cbn [mbind exc_bind] in E.
  by destruct (Calendar.add_ret _ _ _ E).
Qed.

Lemma plus_months_ret (base x : datelike) (n : Z) :
  plus_months base n = Ret x ->
  exists b d, base = Day b /\ x = Day d /\ Date.add_months b n = Ret d.
Proof.
  unfold plus_months. destruct base as [b|]; [|discriminate].
  destruct (Date.add_months b n) as [d|] eqn:E; [|discriminate]. cbn [mbind exc_bind].
  intros [= <-]. eauto.
Qed.

(** The date slot of a due point, when it is filled. *)
Lemma compute_next_due_date (r : row) (x : datelike) (m : option Z) :
  compute_next_due r = Ret (Some x, m) ->
  let base := default (Day today) (parse_date (get r "LastDoneDate")) in
  exists t n, interval_type r = Ret t /\ t ∈ ["Days"; "Weeks"; "Months"] /\
    safe_int (get r "IntervalValue") = Some n /\ 0 < n /\ m = None /\
    ((t = "Days" /\ plus_days base n = Ret x) \/
     (t = "Weeks" /\ plus_days base (7 * n) = Ret x) \/
     (t = "Months" /\ plus_months base n = Ret x)).
Proof.
  intros H base. unfold compute_next_due in H.
  destruct (interval_type r) as [t|] eqn:Ht; [|discriminate].
  cbn [mbind exc_bind] in H. unfold date_based in H. case_bool_decide as Hd.
  - destruct (not_positive _) eqn:Hnp; [discriminate|].
    destruct (safe_int (get r "IntervalValue")) as [n|] eqn:Hn; [|discriminate].
    assert (Hpos : 0 < n) by (unfold not_positive in Hnp; bools; lia).
    change (default 0 (Some n)) with n in H. fold base in H. exists t, n.
    destruct (date_based_cases t Hd) as [-> | [-> | ->]].
    + rewrite bool_decide_eq_true_2 in H by done.
      destruct (plus_days base n) as [y|] eqn:E; [|discriminate].
      cbn [mbind exc_bind] in H. simplify_eq. auto 10.
    + rewrite bool_decide_eq_false_2, bool_decide_eq_true_2 in H by done.
      destruct (plus_days base (7 * n)) as [y|] eqn:E; [|discriminate].
      cbn [mbind exc_bind] in H. simplify_eq. auto 10.
    + rewrite !bool_decide_eq_false_2 in H by done.
      destruct (plus_months base n) as [y|] eqn:E; [|discriminate].
      cbn [mbind exc_bind] in H. simplify_eq. auto 10.
  - case_bool_decide; [|discriminate].
    destruct (not_positive _); [discriminate|].
    by destruct (safe_int (get r "LastMeter")).
Qed.

(** A due date is a date of the calendar. *)
Lemma compute_next_due_valid (r : row) (d : date) (m : option Z) :
  compute_next_due r = Ret (Some (Day d), m) -> Date.valid d.
Proof.
  intros H. destruct (compute_next_due_date r _ m H) as (t & n & _ & _ & _ & _ & _ & Hc).
  destruct Hc as [[_ Hc]|[[_ Hc]|[_ Hc]]].
  - apply plus_days_ret in Hc. destruct (default _ _); [by destruct Hc|done].
  - apply plus_days_ret in Hc. destruct (default _ _); [by destruct Hc|done].
  - apply plus_months_ret in Hc as (b & d' & _ & [= <-] & Hc). by eapply add_months_ret.
Qed.

(** [NaT] comes out only where it went in: as the last-done date of a
    record counted in days or weeks. *)
Lemma compute_next_due_nat (r : row) (m : option Z) :
  compute_next_due r = Ret (Some NaT, m) ->
  parse_date (get r "LastDoneDate") = Some NaT.
Proof.
  intros H. destruct (compute_next_due_date r _ m H) as (t & n & _ & _ & _ & _ & _ & Hc).
  assert (Hb : default (Day today) (parse_date (get r "LastDoneDate")) = NaT).
  { destruct Hc as [[_ Hc]|[[_ Hc]|[_ Hc]]].
    - apply plus_days_ret in Hc. by destruct (default _ _).
    - apply plus_days_ret in Hc. by destruct (default _ _).
    - by apply plus_months_ret in Hc as (b & d' & _ & ? & _). }
  destruct (parse_date _) as [x|]; [by rewrite <- Hb|discriminate].
Qed.

(** C2, as amended. For a record whose interval type is Days, Weeks or
    Months, with [base] its [last_done_date] or, when absent, today: with
    a positive [interval_value], [compute_next_due] returns the date
    [interval_value] days, or as many weeks, after [base], or the day of
    [base] (clamped to the month's last day) in the month
    [interval_value] months later, and no [next_due_meter] -- provided
    that date is not after 9999-12-31; past that it raises
    [OverflowError], or for months [ValueError] as long as the year fits
    32 bits.  A [last_done_date] that reads as [NaT] is handed on as the
    due date by days and weeks, when the interval makes a [timedelta],
    and makes months raise.  With an absent, zero or negative
    [interval_value] both fields are absent. *)
Theorem compute_next_due_dates (r : row) (t : string) :
  interval_type r = Ret t -> t ∈ ["Days"; "Weeks"; "Months"] ->
  (forall interval_value,
     safe_int (get r "IntervalValue") = Some interval_value -> 0 < interval_value ->
     match default (Day today) (parse_date (get r "LastDoneDate")) with
     | Day base =>
         (t = "Days" ->
          (Date.toordinal base + interval_value <= Date.MAXORDINAL ->
           exists d, compute_next_due r = Ret (Some (Day d), None) /\ Date.valid d /\
                     Date.toordinal d = Date.toordinal base + interval_value) /\
          (Date.MAXORDINAL < Date.toordinal base + interval_value ->
           compute_next_due r = Raise OverflowError)) /\
         (t = "Weeks" ->
          (Date.toordinal base + 7 * interval_value <= Date.MAXORDINAL ->
           exists d, compute_next_due r = Ret (Some (Day d), None) /\ Date.valid d /\
                     Date.toordinal d = Date.toordinal base + 7 * interval_value) /\
          (Date.MAXORDINAL < Date.toordinal base + 7 * interval_value ->
           compute_next_due r = Raise OverflowError)) /\
         (t = "Months" ->
          let k := Date.month_index base + interval_value in
          (k / 12 <= Date.MAXYEAR ->
           compute_next_due r
           = Ret (Some (Day (Date.clamp (k / 12) (k mod 12 + 1) (Date.day base))), None)) /\
          (Date.MAXYEAR < k / 12 ->
           compute_next_due r
           = Raise (if k / 12 <? 2 ^ 31 then ValueError else OverflowError)))
     | NaT =>
         (t = "Days" ->
          compute_next_due r
          = if interval_value <=? 999999999 then Ret (Some NaT, None)
            else Raise OverflowError) /\
         (t = "Weeks" ->
          compute_next_due r
          = if 7 * interval_value <=? 999999999 then Ret (Some NaT, None)
            else Raise OverflowError) /\
         (t = "Months" -> compute_next_due r = Raise ValueError)
     end) /\
  (safe_int (get r "IntervalValue") = None \/
   (exists n, safe_int (get r "IntervalValue") = Some n /\ n <= 0) ->
   compute_next_due r = Ret (None, None)).
Proof.
  intros Ht Hin. pose proof (base_valid (get r "LastDoneDate")) as Hb. split.
  - intros iv Hiv Hpos. rewrite (date_next_due r t iv) by done. cbn zeta.
    destruct (default (Day today) _) as [base|].
    + specialize (Hb base eq_refl). split; [|split]; intros ->.
      * rewrite bool_decide_eq_true_2 by done.
        destruct (add_days_spec base iv Hb Hpos) as [H1 H2]. split; intros H.
        -- destruct (H1 H) as (d & -> & ? & ?). eauto.
        -- by rewrite (H2 H).
      * rewrite bool_decide_eq_false_2, bool_decide_eq_true_2 by done.
        destruct (add_days_spec base (7 * iv) Hb ltac:(lia)) as [H1 H2]. split; intros H.
        -- destruct (H1 H) as (d & -> & ? & ?). eauto.
        -- by rewrite (H2 H).
      * rewrite !bool_decide_eq_false_2 by done. unfold plus_months.
        destruct (Calendar.add_months_spec base iv Hb Hpos) as [H1 H2]. split; intros H.
        -- by rewrite (H1 H).
        -- by rewrite (H2 H).
    + split; [|split]; intros ->.
      * rewrite bool_decide_eq_true_2 by done. rewrite add_days_nat by done.
        by destruct (iv <=? 999999999).
      * rewrite bool_decide_eq_false_2, bool_decide_eq_true_2 by done.
        rewrite add_days_nat by lia. by destruct (7 * iv <=? 999999999).
      * by rewrite !bool_decide_eq_false_2 by done.
  - intros H. apply (not_positive_no_due r t Ht). by apply not_positive_true.
Qed.

(** *** Log Completion *)

Lemma checkpoint_cases (r : row) (new_date : date) (new_meter : string) :
  let r0 := <["LastDoneDate" := PyStr (Date.strftime new_date)]> r in
  (get r "IntervalType" = PyStr "Meter" /\ strip new_meter <> "" /\
   checkpoint r new_date new_meter
   = <["CurrentMeter" := PyStr (strip new_meter)]>
       (<["LastMeter" := PyStr (strip new_meter)]> r0)) \/
  (¬ (get r "IntervalType" = PyStr "Meter" /\ strip new_meter <> "") /\
   checkpoint r new_date new_meter = r0).
Proof.
  intros r0. unfold checkpoint. fold r0.
  replace (get r0 "IntervalType") with (get r "IntervalType")
    by (unfold r0; by rewrite get_insert_ne).
  cbn [truthy]. case_bool_decide as Ht; cbn [andb].
  - destruct (String.eqb (strip new_meter) "") eqn:E; cbn [negb].
    + right. apply String.eqb_eq in E. split; [|done]. intros [_ H]. done.
    + left. apply String.eqb_neq in E. done.
  - right. split; [|done]. intros [H _]. done.
Qed.

Lemma store_next_due_due (absent : cell) (nd : option date * option Z) (r : row) :
  compute_next_due (store_next_due absent nd r) = compute_next_due r.
Proof.
  apply compute_next_due_frame. unfold DUE_INPUTS, store_next_due.
  repeat apply Forall_cons_2; try apply Forall_nil_2; by rewrite !get_insert_ne.
Qed.




(** *** KPI tiles *)

Local Abbreviation state_of := (state_of today to_datetime).
Local Abbreviation tally := (tally today to_datetime).

Lemma computed_status_state (t : string) (r : row) (dsd ms : Z) (sd : string * option Z) :
  computed_status t r dsd ms = Ret sd -> sd.1 ∈ ["Overdue"; "Due Soon"; "OK"; "Unknown"].
Proof.
  assert (Hu : forall a b, urgency a b ∈ ["Overdue"; "Due Soon"; "OK"; "Unknown"]).
  { intros a b. unfold urgency. destruct (a <? 0); [|destruct (a <=? b)]; compute_done. }
  unfold computed_status. destruct (date_based t).
  - destruct (parse_date _) as [[nd|]|]; intros [= <-]; cbn [fst]; [apply Hu|compute_done].
  - destruct (bool_decide (t = "Meter")); [|intros [= <-]; compute_done].
    destruct (safe_int _); [destruct (safe_int _)|]; intros [= <-]; cbn [fst];
      [apply Hu|compute_done..].
Qed.

Lemma compute_status_state (r : row) (dsd ms : Z) (s : string) (d : option Z) :
  compute_status r dsd ms = Ret (s, d) -> s ∈ STATES.
Proof.
  unfold compute_status. destruct (interval_type r) as [t|]; [|discriminate].
  cbn [mbind exc_bind]. pose proof (computed_status_state t r dsd ms) as Hc.
  destruct (computed_status t r dsd ms) as [[s0 d0]|]; [|discriminate].
  specialize (Hc _ eq_refl). cbn [fst mbind exc_bind] in *.
  destruct (pm_status r) as [p|]; [|discriminate]. cbn [mbind exc_bind].
  intros [= <- <-]. case_bool_decide as Hp.
  - repeat (apply elem_of_cons in Hp as [->|Hp]; [compute_done|]).
    by apply elem_of_nil in Hp.
  - repeat (apply elem_of_cons in Hc as [->|Hc]; [compute_done|]).
    by apply elem_of_nil in Hc.
Qed.

Lemma counts0_lookup (s : string) :
  counts0 !! s = if decide (s ∈ STATES) then Some 0 else None.
Proof.
  destruct (decide (s ∈ STATES)) as [H|H].
  - unfold STATES in H. repeat (apply elem_of_cons in H as [->|H]; [reflexivity|]).
    by apply elem_of_nil in H.
  - by apply not_elem_of_list_to_map_1.
Qed.

Lemma tally_cons (st : session) (r : row) (rows : list row) (s s0 : string) :
  state_of st r = Ret s0 ->
  tally st (r :: rows) s = (if decide (s0 = s) then 1 else 0) + tally st rows s.
Proof.
  intros H. unfold tally. rewrite filter_cons, H.
  destruct (decide (Ret s0 = Ret s)) as [[= ->]|Hn].
  - rewrite decide_True by done. cbn [length]. lia.
  - rewrite decide_False by congruence. lia.
Qed.

Lemma count_rows_spec (st : session) (rows : list row) (c : gmap string Z) :
  Forall (λ r, returns (compute_status r (due_soon_days st) (meter_soon st))) rows ->
  (forall s, s ∈ STATES -> is_Some (c !! s)) ->
  exists c', count_rows st rows c = Ret c' /\
    forall s, c' !! s = if decide (s ∈ STATES)
                        then Some (default 0 (c !! s) + tally st rows s)
                        else c !! s.
Proof.
  intros H. revert c. induction H as [|r rows [[s0 d] Hr] _ IH]; intros c Hc.
  - exists c. split; [done|]. intros s. case_decide as Hs; [|done].
    destruct (Hc s Hs) as [n ->]. unfold tally. cbn. f_equal. lia.
  - cbn [count_rows]. rewrite Hr. cbn [mbind exc_bind fst].
    pose proof (compute_status_state _ _ _ _ _ Hr) as Hs0.
    assert (Hst : state_of st r = Ret s0).
    { unfold state_of. by rewrite Hr. }
    destruct (IH (<[s0 := default 0 (c !! s0) + 1]> c)) as (c' & -> & Hc').
    { intros s Hs. rewrite lookup_insert. case_decide; [done|by apply Hc]. }
    exists c'. split; [done|]. intros s. rewrite Hc', (tally_cons st r rows s s0 Hst).
    rewrite lookup_insert. destruct (decide (s ∈ STATES)) as [Hs|Hs].
    + destruct (decide (s0 = s)) as [->|Hne]; simpl; f_equal; lia.
    + destruct (decide (s0 = s)) as [->|Hne]; done.
Qed.

Lemma tally_total (st : session) (rows : list row) :
  Forall (λ r, returns (compute_status r (due_soon_days st) (meter_soon st))) rows ->
  tally st rows "Overdue" + tally st rows "Due Soon" + tally st rows "OK"
  + tally st rows "Unknown" + tally st rows "Paused" + tally st rows "Retired"
  = Z.of_nat (length rows).
Proof.
  induction 1 as [|r rows [[s0 d] Hr] _ IH]; [done|].
  pose proof (compute_status_state _ _ _ _ _ Hr) as Hs0.
  assert (Hst : state_of st r = Ret s0).
  { unfold state_of. by rewrite Hr. }
  rewrite !(tally_cons st r rows _ s0 Hst). cbn [length]. unfold STATES in Hs0.
  repeat (apply elem_of_cons in Hs0 as [->|Hs0];
          [repeat (case_decide; try congruence); lia|]).
  by apply elem_of_nil in Hs0.
Qed.

Lemma count_rows_cutoffs (st st' : session) (rows : list row) (c : gmap string Z) :
  due_soon_days st' = due_soon_days st -> meter_soon st' = meter_soon st ->
  count_rows st' rows c = count_rows st rows c.
Proof.
  intros H1 H2. revert c. induction rows as [|r rows IH]; intros c; [done|].
  cbn [count_rows]. rewrite H1, H2.
  destruct (compute_status r _ _); cbn [mbind exc_bind]; [apply IH|done].
Qed.

(** C7. The KPI counts are taken over the session's whole frame with its
    current cutoffs: when every row classifies, each of the six tiles
    holds the number of rows of the frame in that state, no other state
    is counted, the six counts add up to the number of rows, and the
    counts are the same whichever KPI filter is selected. *)
Theorem kpi_counts_spec (st : session) :
  Forall (λ r, returns (compute_status r (due_soon_days st) (meter_soon st))) (df st) ->
  exists counts,
    kpi_counts st = Ret counts /\
    (forall s, s ∈ STATES -> counts !! s = Some (tally st (df st) s)) /\
    (forall s, s ∉ STATES -> counts !! s = None) /\
    tally st (df st) "Overdue" + tally st (df st) "Due Soon" + tally st (df st) "OK"
    + tally st (df st) "Unknown" + tally st (df st) "Paused" + tally st (df st) "Retired"
    = Z.of_nat (length (df st)) /\
    (forall selected,
       kpi_counts (mksession (df st) (due_soon_days st) (meter_soon st) selected)
       = Ret counts).
Proof.
  intros H. unfold kpi_counts.
  destruct (count_rows_spec st (df st) counts0 H) as (counts & Hc & Hl).
  { intros s Hs. rewrite counts0_lookup, decide_True; done. }
  exists counts. split; [done|]. split; [|split; [|split]].
  - intros s Hs. by rewrite Hl, decide_True, counts0_lookup, decide_True.
  - intros s Hs. by rewrite Hl, decide_False, counts0_lookup, decide_False.
  - by apply tally_total.
  - intros f. cbn [df]. by rewrite (count_rows_cutoffs st).
Qed.

(** *** Rows of text never make the classifier raise *)

Lemma text_strip_method (c : cell) (s0 : string) :
  text c -> exists s, strip_method (py_or c (PyStr s0)) = Ret s.
Proof.
  intros [->|[s ->]]; unfold py_or; cbn [truthy].
  - eexists. reflexivity.
  - destruct (negb _); eexists; reflexivity.
Qed.

Lemma text_row_mkrow (l : list (string * string)) : text_row (mkrow l).
Proof.
  intros k. unfold get, mkrow. induction l as [|[k' v] l IH].
  - left. reflexivity.
  - cbn [fmap list_fmap prod_map fst snd id list_to_map foldr uncurry].
    rewrite lookup_insert. destruct (decide (k' = k)); [right; by eexists|exact IH].
Qed.

Lemma compute_status_eq (r : row) (dsd ms : Z) (t p : string) :
  interval_type r = Ret t -> pm_status r = Ret p ->
  compute_status r dsd ms
  = (sd ← computed_status t r dsd ms; Ret (overridden p sd.1, sd.2)).
Proof.
  intros Ht Hp. unfold compute_status. rewrite Ht. cbn [mbind exc_bind].
  destruct (computed_status t r dsd ms) as [[s d]|]; [|done]. cbn [mbind exc_bind].
  by rewrite Hp.
Qed.

(** Steps 1-3 raise on a [NaT] due date of a date-based record, and
    nowhere else. *)
Lemma computed_status_raises (t : string) (r : row) (dsd ms : Z) (e : error) :
  computed_status t r dsd ms = Raise e <->
  t ∈ ["Days"; "Weeks"; "Months"] /\ parse_date (get r "NextDueDate") = Some NaT /\
  e = TypeError.
Proof.
  unfold computed_status, date_based. case_bool_decide as Hd.
  - destruct (parse_date _) as [[nd|]|]; split; try discriminate; try (by intros (_ & ? & _)).
    + by intros [= <-].
    + by intros (_ & _ & ->).
  - split; [|by intros (? & _)].
    destruct (bool_decide (t = "Meter")); [|discriminate].
    destruct (safe_int _); [destruct (safe_int _)|]; discriminate.
Qed.


(** *** A missing status *)

(** When [PMStatus] is [None], empty, or text other than Paused and
    Retired once trimmed, no override applies and the row classifies
    as it does with the status Active. *)
Lemma status_without_override (r : row) (dsd ms : Z) (t : string) :
  interval_type r = Ret t -> text (get r "PMStatus") ->
  (forall s, get r "PMStatus" = PyStr s -> strip s ∉ ["Paused"; "Retired"]) ->
  compute_status r dsd ms = computed_status t r dsd ms /\
  compute_status r dsd ms = compute_status (<["PMStatus" := PyStr "Active"]> r) dsd ms.
Proof.
  intros Ht Htx Hs.
  assert (Hp : exists p, pm_status r = Ret p /\ p ∉ ["Paused"; "Retired"]).
  { unfold pm_status, py_or. destruct Htx as [->|[s Hc]]; cbn [truthy].
    - exists "Active". split; [run|compute_done].
    - rewrite Hc. cbn [truthy]. destruct (String.eqb s "") eqn:E; cbn [negb].
      + exists "Active". split; [run|compute_done].
      + exists (strip s). split; [done|by apply Hs]. }
  destruct Hp as (p & Hp & Hn).
  assert (He : compute_status r dsd ms = computed_status t r dsd ms).
  { rewrite (compute_status_eq r dsd ms t p Ht Hp). unfold overridden.
    rewrite bool_decide_eq_false_2 by done.
    by destruct (computed_status t r dsd ms) as [[s d]|]. }
  split; [done|]. rewrite He. symmetry.
  rewrite (compute_status_eq _ dsd ms t "Active").
  - rewrite computed_status_insert_pm. by destruct (computed_status t r dsd ms) as [[s d]|].
  - by rewrite interval_type_insert.
  - unfold pm_status. rewrite get_insert_eq. run.
Qed.

End DashboardProofs.

(** ** The sample data, and rows on which a claim fails *)

Lemma today0_valid : Date.valid today0.
Proof. compute_done. Qed.

Lemma no_fallback_valid (c : cell) (d : date) :
  no_fallback c = Some (Day d) -> Date.valid d.
Proof. discriminate. Qed.

Lemma nat_fallback_valid (c : cell) (d : date) :
  nat_fallback c = Some (Day d) -> Date.valid d.
Proof. unfold nat_fallback. by case_bool_decide. Qed.

(** The derived columns [recompute_all] stores for the sample rows. *)
Lemma recompute_sample_data :
  (df ← recompute_all today0 no_fallback sample_data;
   Ret (map (λ r : row, (get r "NextDueDate", get r "NextDueMeter")) df))
  = Ret [(PyStr "2024-05-15", PyNone); (PyNone, PyInt 1600); (PyStr "2024-06-29", PyNone)].
Proof. run. Qed.


(** One month after 2024-01-31 is 2024-02-29: the day is clamped to
    the end of February. *)
Lemma compute_next_due_dates_witness :
  interval_type end_of_january = Ret "Months" /\
  safe_int (get end_of_january "IntervalValue") = Some 1 /\
  compute_next_due today0 no_fallback end_of_january
  = Ret (Some (Day (mkdate 2024 2 29)), None).
Proof.
  assert (Ht : interval_type end_of_january = Ret "Months") by run.
  assert (Hv : safe_int (get end_of_january "IntervalValue") = Some 1) by run.
  pose proof (compute_next_due_dates today0 no_fallback today0_valid no_fallback_valid
                end_of_january "Months" Ht ltac:(compute_done)) as [H _].
  specialize (H 1 Hv ltac:(lia)).
  replace (parse_date no_fallback (get end_of_january "LastDoneDate"))
    with (Some (Day (mkdate 2024 1 31))) in H by run.
  cbn [default from_option id] in H. destruct H as (_ & _ & H3).
  destruct (H3 eq_refl) as [Hin _].
  split; [exact Ht|split; [exact Hv|]]. rewrite Hin; [run|]. by vm_compute.
Defined.

(** C2 fails on [far_interval]: the interval type is Days and the
    interval a positive integer, yet no due date is returned; on
    [far_months] and [farther_months], where the months lead to the
    years 10357 and 2500002024; and on [nat_done], whose due date is
    [NaT], on [nat_months] and on [nat_long], on which the addition and
    the interval raise. *)
Lemma compute_next_due_dates_counterexample :
  (interval_type far_interval = Ret "Days" /\
   safe_int (get far_interval "IntervalValue") = Some 3000000 /\
   parse_date no_fallback (get far_interval "LastDoneDate") = Some (Day (mkdate 2024 1 1)) /\
   compute_next_due today0 no_fallback far_interval = Raise OverflowError) /\
  (interval_type far_months = Ret "Months" /\
   compute_next_due today0 no_fallback far_months = Raise ValueError /\
   compute_next_due today0 no_fallback farther_months = Raise OverflowError) /\
  (interval_type nat_done = Ret "Days" /\
   safe_int (get nat_done "IntervalValue") = Some 30 /\
   parse_date nat_fallback (get nat_done "LastDoneDate") = Some NaT /\
   compute_next_due today0 nat_fallback nat_done = Ret (Some NaT, None) /\
   interval_type nat_months = Ret "Months" /\
   compute_next_due today0 nat_fallback nat_months = Raise ValueError /\
   interval_type nat_long = Ret "Days" /\
   compute_next_due today0 nat_fallback nat_long = Raise OverflowError).
Proof. repeat split; run. Qed.

(** The forklift, serviced at 1400 hours every 200, is next due at
    1600. *)
Lemma compute_next_due_meter_witness :
  interval_type sample_forklift = Ret "Meter" /\
  compute_next_due today0 no_fallback sample_forklift = Ret (None, Some 1600).
Proof.
  assert (Ht : interval_type sample_forklift = Ret "Meter") by run.
  destruct (compute_next_due_meter today0 no_fallback sample_forklift Ht) as [H _].
  destruct (H 200 ltac:(run) ltac:(lia)) as [H1 _].
  destruct (H1 1400 ltac:(run)) as [H2 _]. split; [exact Ht|exact H2].
Defined.

(** C4 fails on [no_last_meter]: overwriting [CurrentMeter] alone moves
    the recomputed [next_due_meter] from 300 to 350. *)
Lemma meter_update_counterexample :
  interval_type no_last_meter = Ret "Meter" /\
  compute_next_due today0 no_fallback no_last_meter = Ret (None, Some 300) /\
  compute_next_due today0 no_fallback (<["CurrentMeter" := PyStr "150"]> no_last_meter)
  = Ret (None, Some 350).
Proof. repeat split; run. Qed.

(** A new reading of 1700 leaves the forklift due at 1600. *)
Lemma meter_update_keeps_next_due_witness :
  interval_type sample_forklift = Ret "Meter" /\
  compute_next_due today0 no_fallback (<["CurrentMeter" := PyStr "1700"]> sample_forklift)
  = compute_next_due today0 no_fallback sample_forklift.
Proof.
  assert (Ht : interval_type sample_forklift = Ret "Meter") by run.
  destruct (meter_update_keeps_next_due today0 no_fallback sample_forklift (PyStr "1700")
              Ht) as (_ & H & _).
  destruct (H 1400 ltac:(run)) as [H1 _]. split; [exact Ht|exact H1].
Defined.

(** The paused fan keeps its 14 days of margin and reports Paused. *)
Lemma paused_retired_override_witness :
  interval_type fan_due = Ret "Weeks" /\ pm_status fan_due = Ret "Paused" /\
  compute_status today0 no_fallback fan_due 14 50 = Ret ("Paused", Some 14).
Proof.
  assert (Ht : interval_type fan_due = Ret "Weeks") by run.
  assert (Hp : pm_status fan_due = Ret "Paused") by run.
  pose proof (paused_retired_override today0 no_fallback fan_due 14 50 "Weeks" "Paused"
                Ht Hp ltac:(compute_done)) as H.
  replace (computed_status today0 no_fallback "Weeks" fan_due 14 50)
    with (@Ret (string * option Z) ("Due Soon", Some 14)) in H by run.
  split; [exact Ht|split; [exact Hp|exact (proj1 H)]].
Defined.



(** The tiles of the sample data: one task overdue, one due soon, one
    paused. *)
Lemma kpi_counts_spec_witness :
  exists counts,
    kpi_counts today0 no_fallback session0 = Ret counts /\
    counts !! "Overdue" = Some 1 /\ counts !! "Due Soon" = Some 1 /\
    counts !! "OK" = Some 0 /\ counts !! "Paused" = Some 1.
Proof.
  destruct (kpi_counts_spec today0 no_fallback session0) as (counts & Hk & Hs & _).
  { repeat (apply Forall_cons_2; [eexists; run|]). apply Forall_nil_2. }
  exists counts. split; [exact Hk|].
  rewrite !Hs by compute_done. repeat split; run.
Defined.



(** C9 fails on ["inf"] (and on ["1e999"]): [float] reads it, as an
    infinity, and the field is absent, not cut to an integer. *)
Lemma safe_int_counterexample :
  Float.of_string "inf" = Ret (S754_infinity false) /\ safe_int (PyStr "inf") = None /\
  Float.of_string "1e999" = Ret (S754_infinity false) /\ safe_int (PyStr "1e999") = None.
Proof. repeat split; run. Qed.

(** C10 on a row whose [PMStatus] field was empty in the CSV:
    [pd.read_csv] stores [nan], which is true, so ["Active"] is not
    substituted and [.strip()] raises; the same row classifies as Due
    Soon when the status is [None], empty or Active. *)
Theorem empty_status_raises :
  get empty_status "PMStatus" = PyNaN /\
  compute_status today0 no_fallback empty_status 14 50 = Raise AttributeError /\
  compute_status today0 no_fallback (<["PMStatus" := PyNone]> empty_status) 14 50
  = Ret ("Due Soon", Some 15) /\
  compute_status today0 no_fallback (<["PMStatus" := PyStr ""]> empty_status) 14 50
  = Ret ("Due Soon", Some 15) /\
  compute_status today0 no_fallback (<["PMStatus" := PyStr "Active"]> empty_status) 14 50
  = Ret ("Due Soon", Some 15).
Proof. repeat split; run. Qed.

(** * Further properties

    The rest of this file is about the code around the calculator and the
    classifier: the number and date readers, the stored table and its
    columns, the filters, the table on display and the handlers of the
    page. *)

(** ** Numbers *)

(** *** Whole numbers as text and as doubles *)

Lemma digits2_pos_lower (p : positive) : 2 ^ (Zpos (digits2_pos p) - 1) <= Zpos p.
Proof.
  induction p as [p IH|p IH|]; cbn [digits2_pos]; [| |done].
  all: rewrite Pos2Z.inj_succ; replace (Z.succ (Zpos (digits2_pos p)) - 1)
         with (Z.succ (Zpos (digits2_pos p) - 1)) by lia;
       rewrite Z.pow_succ_r by lia; lia.
Qed.

Lemma digits2_pos_small (p : positive) : Zpos p < 2 ^ 53 -> Zpos (digits2_pos p) <= 53.
Proof.
  intros H. pose proof (digits2_pos_lower p) as Hl.
  destruct (Z_le_gt_dec (Zpos (digits2_pos p)) 53) as [|Hgt]; [done|exfalso].
  assert (2 ^ 53 <= 2 ^ (Zpos (digits2_pos p) - 1)) by (apply Z.pow_le_mono_r; lia).
  lia.
Qed.

Lemma iter_xO_spec (p k : positive) :
  Zpos (Pos.iter xO p k) = Zpos p * 2 ^ Zpos k /\
  digits2_pos (Pos.iter xO p k) = (digits2_pos p + k)%positive.
Proof.
  induction k as [|k IH] using Pos.peano_ind.
  - cbn. split; [lia|]. by rewrite Pos.add_1_r.
  - rewrite Pos.iter_succ. destruct IH as [IH1 IH2]. split.
    + rewrite Pos2Z.inj_xO, IH1, Pos2Z.inj_succ, Z.pow_succ_r by lia. lia.
    + cbn [digits2_pos]. rewrite IH2. lia.
Qed.

Lemma binary_round_small (sx : bool) (p : positive) :
  Zpos p < 2 ^ 53 ->
  exists m e, binary_round Float.prec Float.emax sx p 0 = S754_finite sx m e /\
              Z.shiftl (Zpos m) e = Zpos p.
Proof.
  intros H. pose proof (digits2_pos_small p H) as Hd.
  assert (Hround : forall m e, digits2_pos m = 53%positive -> -52 <= e <= 0 ->
    binary_round_aux Float.prec Float.emax sx (Zpos m) e loc_Exact = S754_finite sx m e).
  { intros m e Hm He. unfold binary_round_aux, shr_fexp, Zdigits2, shr_record_of_loc.
    rewrite Hm. unfold fexp, emin, Float.prec, Float.emax.
    replace (Z.max (53 + e - 53) (3 - 1024 - 53) - e) with 0 by lia.
    cbn [shr loc_of_shr_record shr_m round_nearest_even]. rewrite Hm.
    replace (Z.max (53 + e - 53) (3 - 1024 - 53) - e) with 0 by lia.
    cbn [shr shr_m]. replace (e <=? 1024 - 53) with true by (symmetry; apply Z.leb_le; lia).
    reflexivity. }
  unfold binary_round, shl_align, fexp, emin, Float.prec, Float.emax.
  rewrite Z.add_0_r, Z.sub_0_r.
  replace (Z.max (Zpos (digits2_pos p) - 53) (3 - 1024 - 53))
    with (Zpos (digits2_pos p) - 53) by lia.
  destruct (Zpos (digits2_pos p) - 53) as [|k|k] eqn:E; [|lia|].
  - exists p, 0. split; [|done]. apply Hround; [|lia]. lia.
  - destruct (iter_xO_spec p k) as [H1 H2].
    exists (Pos.iter xO p k), (Zneg k). split.
    + apply Hround; [|lia]. lia.
    + rewrite H1. change (Zneg k) with (- Zpos k). rewrite Z.shiftl_opp_r.
      rewrite Z.shiftr_div_pow2 by lia. apply Z.div_mul. lia.
Qed.

Lemma normalize_small (n : Z) (sz : bool) :
  Z.abs n < 2 ^ 53 ->
  exists x, binary_normalize Float.prec Float.emax n 0 sz = x /\
            Float.finite x = true /\ Float.to_int x = Ret n.
Proof.
  intros H. destruct n as [|p|p]; cbn [binary_normalize].
  - by eexists.
  - destruct (binary_round_small false p) as (m & e & -> & He); [lia|].
    eexists. split; [done|]. split; [done|]. cbn. by rewrite He.
  - destruct (binary_round_small true p) as (m & e & -> & He); [lia|].
    eexists. split; [done|]. split; [done|]. cbn. by rewrite He.
Qed.

Lemma uint_val_acc (d : Decimal.uint) (acc : positive) :
  uint_val (Zpos acc) d = Zpos (Pos.of_uint_acc d acc).
Proof.
  revert acc. induction d as [|d IH|d IH|d IH|d IH|d IH|d IH|d IH|d IH|d IH|d IH];
    intros acc; cbn [uint_val Pos.of_uint_acc]; [done|..]; rewrite <- IH; f_equal; lia.
Qed.

Lemma uint_val_0 (d : Decimal.uint) : uint_val 0 d = Z.of_N (Pos.of_uint d).
Proof.
  induction d as [|d IH|d IH|d IH|d IH|d IH|d IH|d IH|d IH|d IH|d IH];
    cbn [uint_val Pos.of_uint Z.of_N]; [done|exact IH|..];
    rewrite <- (uint_val_acc d); reflexivity.
Qed.

Lemma digits_cons (acc cnt k : Z) (c : ascii) (l : list ascii) :
  digit c = Some k -> digits acc cnt (c :: l) = digits (10 * acc + k) (cnt + 1) l.
Proof. intros H. cbn [digits]. by rewrite H. Qed.

(** The characters of a numeral are digits: [digits] reads them all. *)
Lemma digits_uint (d : Decimal.uint) (acc cnt : Z) :
  digits acc cnt (list_ascii_of_string (NilEmpty.string_of_uint d))
  = (uint_val acc d, cnt + Z.of_nat (Decimal.nb_digits d), []).
Proof.
  revert acc cnt. induction d as [|d IH|d IH|d IH|d IH|d IH|d IH|d IH|d IH|d IH|d IH];
    intros acc cnt;
    cbn [NilEmpty.string_of_uint list_ascii_of_string uint_val Decimal.nb_digits].
  { cbn. f_equal. f_equal. lia. }
  all: erewrite digits_cons by reflexivity.
  all: rewrite IH; rewrite ?Z.add_0_r; f_equal; f_equal; lia.
Qed.

Lemma uint_chars (d : Decimal.uint) :
  Forall (λ c, is_digit c = true) (list_ascii_of_string (NilEmpty.string_of_uint d)).
Proof.
  induction d; cbn [NilEmpty.string_of_uint list_ascii_of_string];
    [constructor|constructor; [reflexivity|assumption]..].
Qed.

(** [str(n)] is a minus sign, for a negative [n], and a numeral of at
    least one digit whose value is [|n|]. *)
Lemma str_of_Z_spec (n : Z) :
  exists d, (0 < Decimal.nb_digits d)%nat /\ uint_val 0 d = Z.abs n /\
    str_of_Z n = (if n <? 0 then "-" else "") ++ NilEmpty.string_of_uint d.
Proof.
  assert (Hp : forall p, (0 < Decimal.nb_digits (Pos.to_uint p))%nat /\
                         uint_val 0 (Pos.to_uint p) = Zpos p /\
                         NilZero.string_of_uint (Pos.to_uint p)
                         = NilEmpty.string_of_uint (Pos.to_uint p)).
  { intros p. pose proof (DecimalPos.Unsigned.to_uint_nonnil p) as Hn.
    rewrite uint_val_0, DecimalPos.Unsigned.of_to.
    destruct (Pos.to_uint p); try done; cbn; repeat split; lia. }
  destruct n as [|p|p].
  - exists (Decimal.D0 Decimal.Nil). cbn. repeat split; lia.
  - destruct (Hp p) as (H1 & H2 & H3). exists (Pos.to_uint p). repeat split; try done.
  - destruct (Hp p) as (H1 & H2 & H3). exists (Pos.to_uint p). repeat split; try done.
    unfold str_of_Z. cbn [Z.to_int NilZero.string_of_int Z.ltb Z.compare].
    by rewrite H3.
Qed.

Lemma digit_plain (c : ascii) :
  is_digit c = true ->
  c <> "_"%char /\ c <> "-"%char /\ c <> "+"%char /\ c <> ":"%char /\
  Float.is_space c = false /\ is_space c = false /\
  lower c <> "i"%char /\ lower c <> "n"%char.
Proof.
  destruct c as [[] [] [] [] [] [] [] []]; intros H; try discriminate H;
    repeat split; discriminate.
Qed.

Lemma underscores_plain (prev : option ascii) (l : list ascii) :
  Forall (λ c, c <> "_"%char) l -> prev <> Some "_"%char ->
  Float.underscores prev l = Some l.
Proof.
  intros H. revert prev. induction H as [|c l Hc _ IH]; intros prev Hp.
  - cbn. by rewrite bool_decide_eq_false_2.
  - cbn [Float.underscores].
    rewrite (bool_decide_eq_false_2 (c = _)) by done.
    rewrite (bool_decide_eq_false_2 (prev = _)) by done. cbn [andb].
    rewrite IH; [done|congruence].
Qed.

Lemma lstrip_plain (space : ascii -> bool) (l : list ascii) :
  Forall (λ c, space c = false) l -> lstrip space l = l.
Proof. destruct 1 as [|c l Hc _]; [done|]. cbn [lstrip]. by rewrite Hc. Qed.

Lemma strip_chars_plain (space : ascii -> bool) (l : list ascii) :
  Forall (λ c, space c = false) l -> strip_chars space l = l.
Proof.
  intros H. unfold strip_chars. rewrite (lstrip_plain _ l H).
  rewrite lstrip_plain by (by apply Forall_rev). apply rev_involutive.
Qed.

(** What [int] and [float] make of the numeral [d], after a sign. *)
Lemma numeral_plain (neg : bool) (d : Decimal.uint) :
  let l := list_ascii_of_string ((if neg then "-" else "") ++ NilEmpty.string_of_uint d) in
  (0 < Decimal.nb_digits d)%nat ->
  Float.underscores None l = Some l /\
  strip_chars Float.is_space l = l /\ strip_chars is_space l = l /\
  Float.sign l = (neg, list_ascii_of_string (NilEmpty.string_of_uint d)) /\
  Float.inf_or_nan neg (list_ascii_of_string (NilEmpty.string_of_uint d)) = None /\
  l <> [].
Proof.
  intros l Hd. pose proof (uint_chars d) as Hc.
  set (t := list_ascii_of_string (NilEmpty.string_of_uint d)) in *.
  assert (El : l = if neg then "-"%char :: t else t) by (by destruct neg).
  clearbody l. subst l.
  assert (Ht : exists c t', t = c :: t' /\ is_digit c = true) .
  { unfold t in *. destruct d; try (cbn in Hd; lia);
      cbn [NilEmpty.string_of_uint list_ascii_of_string]; by eexists _, _. }
  destruct Ht as (c & t' & Et & Hdc).
  assert (Hl : Forall (λ c, c <> "_"%char /\ Float.is_space c = false /\ is_space c = false)
                      (if neg then "-"%char :: t else t)).
  { assert (Forall (λ c, c <> "_"%char /\ Float.is_space c = false /\ is_space c = false) t).
    { eapply Forall_impl; [exact Hc|]. intros x H.
      by destruct (digit_plain x H) as (?&?&?&?&?&?&?). }
    destruct neg; [constructor; [repeat split; discriminate|]|]; done. }
  destruct (digit_plain c Hdc) as (?&?&?&?&?&?&Hi&Hn).
  split; [|split; [|split; [|split; [|split]]]].
  - apply underscores_plain; [|done]. eapply Forall_impl; [exact Hl|]. by intros x (?&?&?).
  - apply strip_chars_plain. eapply Forall_impl; [exact Hl|]. by intros x (?&?&?).
  - apply strip_chars_plain. eapply Forall_impl; [exact Hl|]. by intros x (?&?&?).
  - destruct neg; [done|]. rewrite Et. unfold Float.sign.
    destruct c as [[] [] [] [] [] [] [] []]; done.
  - rewrite Et. unfold Float.inf_or_nan. cbn [map string_of_list_ascii String.eqb].
    rewrite !(proj2 (Ascii.eqb_neq _ _)) by done. reflexivity.
  - destruct neg; [done|]. by rewrite Et.
Qed.

Lemma int_of_str (n : Z) : Int.of_string (str_of_Z n) = Ret n.
Proof.
  destruct (str_of_Z_spec n) as (d & Hd & Hv & ->).
  destruct (numeral_plain (n <? 0) d Hd) as (Hu & Hs & _ & Hg & _).
  unfold Int.of_string. rewrite Hu, Hs, Hg, digits_uint, Hv.
  replace (0 + Z.of_nat (Decimal.nb_digits d) =? 0) with false by (symmetry; bools; lia).
  f_equal. destruct (n <? 0) eqn:E; bools; cbn [cond_Zopp]; lia.
Qed.

Lemma float_of_str (n : Z) :
  Z.abs n < 2 ^ 53 ->
  exists x, Float.of_string (str_of_Z n) = Ret x /\ Float.to_int x = Ret n.
Proof.
  intros Hn. destruct (str_of_Z_spec n) as (d & Hd & Hv & ->).
  destruct (numeral_plain (n <? 0) d Hd) as (Hu & Hs & _ & Hg & Hi & _).
  unfold Float.of_string. rewrite Hu, Hs, Hg, Hi.
  unfold Float.number. rewrite digits_uint, Hv. cbn [Float.exponent].
  replace (0 + Z.of_nat (Decimal.nb_digits d) + 0 =? 0) with false by (symmetry; bools; lia).
  change (0 - 0) with 0.
  eexists. split; [reflexivity|]. unfold Float.of_decimal.
  pose proof (normalize_small n (n <? 0) Hn) as Hnorm.
  destruct (Z.abs n) as [|m|m] eqn:Ea; [|clear Hv|lia].
  - assert (n = 0) as -> by lia. reflexivity.
  - cbn [Z.leb Z.compare]. rewrite Z.pow_0_r, Z.mul_1_r.
    assert (Hc : cond_Zopp (n <? 0) (Zpos m) = n).
    { destruct (n <? 0) eqn:E; bools; cbn [cond_Zopp]; lia. }
    rewrite Hc. by destruct Hnorm as (x & -> & _ & Hx).
Qed.

Lemma strip_str_of_Z (n : Z) : strip (str_of_Z n) = str_of_Z n /\ str_of_Z n <> "".
Proof.
  destruct (str_of_Z_spec n) as (d & Hd & Hv & ->).
  destruct (numeral_plain (n <? 0) d Hd) as (_ & _ & Hs & _ & _ & Hne).
  unfold strip. rewrite Hs, string_of_list_ascii_of_string. split; [done|].
  intros E. apply Hne. by rewrite E.
Qed.

Lemma safe_int_exact (n : Z) :
  Z.abs n < 2 ^ 53 -> safe_int (PyInt n) = Some n /\ safe_int (PyStr (str_of_Z n)) = Some n.
Proof.
  intros Hn. destruct (strip_str_of_Z n) as [Hs Hne].
  unfold safe_int. cbn [str float].
  rewrite !bool_decide_eq_false_2 by done. cbn [orb]. rewrite Hs.
  rewrite (proj2 (String.eqb_neq _ _)) by done. split.
  - destruct (normalize_small n false Hn) as (x & Hx & Hf & Hi).
    unfold Float.of_int. rewrite Hx.
    destruct x; try discriminate; cbn [mbind exc_bind]; by rewrite Hi.
  - destruct (float_of_str n Hn) as (x & -> & Hx). cbn [mbind exc_bind]. by rewrite Hx.
Qed.

(** *** The first character of a number *)

Lemma starts_number_plain (c : ascii) :
  starts_number c -> is_space c = false /\ Float.is_space c = false.
Proof.
  intros [H|[-> |[-> | ->]]]; [|done..]. by destruct (digit_plain c H) as (?&?&?&?&?&?&?).
Qed.

Lemma lstrip_suffix (space : ascii -> bool) (l : list ascii) :
  exists k, l = (k ++ lstrip space l)%list.
Proof.
  induction l as [|c l [k IH]]; [by exists []|]. cbn [lstrip].
  destruct (space c); [|by exists []]. exists (c :: k). cbn. by rewrite <- IH.
Qed.

(** Stripping the end of a text leaves a prefix of it. *)
Lemma rstrip_head (space : ascii -> bool) (l : list ascii) (c : ascii) (t : list ascii) :
  rev (lstrip space (rev l)) = c :: t -> exists r, l = c :: r.
Proof.
  intros H. destruct (lstrip_suffix space (rev l)) as [k Hk].
  apply (f_equal (@rev ascii)) in Hk. rewrite rev_involutive, rev_app_distr, H in Hk.
  rewrite Hk. by eexists.
Qed.

Lemma lstrip_snoc (space : ascii -> bool) (l : list ascii) (c : ascii) :
  space c = false -> lstrip space (l ++ [c]) = (lstrip space l ++ [c])%list.
Proof.
  intros Hc. induction l as [|x l IH]; cbn [app lstrip]; [by rewrite Hc|].
  by destruct (space x).
Qed.

Lemma rstrip_keeps_head (space : ascii -> bool) (c : ascii) (r : list ascii) :
  space c = false -> exists t, rev (lstrip space (rev (c :: r))) = c :: t.
Proof.
  intros Hc. cbn [rev]. rewrite lstrip_snoc by done. rewrite rev_app_distr. by eexists.
Qed.

Lemma lstrip_finer (l : list ascii) :
  lstrip is_space (lstrip Float.is_space l) = lstrip is_space l.
Proof.
  induction l as [|c l IH]; [done|]. cbn [lstrip].
  destruct (Float.is_space c) eqn:E.
  - rewrite IH. assert (is_space c = true) as ->; [|done].
    revert E. destruct c as [[] [] [] [] [] [] [] []]; by vm_compute.
  - done.
Qed.

(** Underscores stand between digits: dropping them does not change the
    first character after the leading blanks. *)
Lemma underscores_head (prev : option ascii) (l l2 : list ascii) (c : ascii) (r2 : list ascii) :
  from_option is_digit false prev = false ->
  Float.underscores prev l = Some l2 -> lstrip Float.is_space l2 = c :: r2 ->
  exists r, lstrip Float.is_space l = c :: r.
Proof.
  revert prev l2. induction l as [|x l IH]; intros prev l2 Hp; cbn [Float.underscores].
  - case_bool_decide; [discriminate|]. intros [= <-]. discriminate.
  - case_bool_decide as Hx.
    + by rewrite Hp.
    + destruct (bool_decide (prev = Some "_"%char) && negb (is_digit x)); [discriminate|].
      destruct (Float.underscores (Some x) l) as [l2'|] eqn:E; [|discriminate].
      cbn [fmap option_fmap option_map]. intros [= <-]. cbn [lstrip].
      destruct (Float.is_space x) eqn:Es; [|intros [= <- <-]; by eexists].
      apply (IH (Some x) l2'); [|done]. cbn [from_option].
      revert Es. destruct x as [[] [] [] [] [] [] [] []]; by vm_compute.
Qed.

Lemma number_head (neg : bool) (t : list ascii) (x : spec_float) (rest : list ascii) :
  Float.number neg t = Some (x, rest) ->
  exists c t', t = c :: t' /\ (is_digit c = true \/ c = "."%char).
Proof.
  destruct t as [|c t']; [discriminate|]. intros H. exists c, t'. split; [done|].
  destruct c as [[] [] [] [] [] [] [] []];
    first [left; reflexivity|right; reflexivity|by vm_compute in H].
Qed.

(** When [float] reads a finite number in a text, the trimmed text
    starts with a digit, a point or a sign. *)
Lemma finite_head (s : string) (x : spec_float) :
  Float.of_string s = Ret x -> Float.finite x = true ->
  exists c rest, strip s = String c rest /\ starts_number c.
Proof.
  unfold Float.of_string. intros H Hf.
  destruct (Float.underscores None _) as [l2|] eqn:Eu; [|discriminate].
  destruct (Float.sign _) as [neg t'] eqn:Es.
  destruct (Float.inf_or_nan neg t') as [y|] eqn:Ei.
  { injection H as <-. unfold Float.inf_or_nan in Ei.
    destruct (_ || _); [by injection Ei as <-|].
    destruct (String.eqb _ _); [by injection Ei as <-|discriminate]. }
  destruct (Float.number neg t') as [[y rest]|] eqn:En; [|discriminate].
  destruct (number_head _ _ _ _ En) as (c' & t'' & Et & Hc'). subst t'.
  assert (Ht : exists c t, strip_chars Float.is_space l2 = c :: t /\ starts_number c).
  { unfold Float.sign in Es.
    destruct (strip_chars Float.is_space l2) as [|c t]; [by injection Es|].
    exists c, t. split; [done|]. unfold starts_number.
    destruct c as [[] [] [] [] [] [] [] []]; simplify_eq; first [by auto|tauto]. }
  destruct Ht as (c & t & Ht & Hc). destruct (starts_number_plain c Hc) as [Hs1 Hs2].
  unfold strip_chars in Ht. destruct (rstrip_head _ _ _ _ Ht) as [r2 Hr2].
  destruct (underscores_head None _ _ _ _ eq_refl Eu Hr2) as [r Hr].
  unfold strip, strip_chars. rewrite <- (lstrip_finer (list_ascii_of_string s)), Hr.
  cbn [lstrip]. rewrite Hs1.
  destruct (rstrip_keeps_head is_space c r Hs1) as [t2 ->]. by exists c, (string_of_list_ascii t2).
Qed.

Lemma safe_int_some (c : cell) (n : Z) :
  safe_int c = Some n ->
  (strip (str c) ∉ [""; "None"; "nan"]) /\
  (exists x, float c = Ret x /\ Float.to_int x = Ret n).
Proof.
  unfold safe_int. destruct (bool_decide (c = PyNone) || _) eqn:E; [discriminate|].
  apply orb_false_iff in E as [E1 E2]. apply String.eqb_neq in E2.
  destruct (float c) as [x|] eqn:Ex; [|discriminate]. cbn [mbind exc_bind].
  destruct (Float.to_int x) as [m|] eqn:Em; [|discriminate]. cbn [mbind exc_bind try_except].
  intros [= <-]. split; [|by exists x].
  assert (Hfin : Float.finite x = true) by (destruct x; done).
  destruct c as [| |s|k]; cbn [float str] in *; try discriminate.
  - by injection Ex as <-.
  - destruct (finite_head s x Ex Hfin) as (c & rest & Hs & Hc).
    rewrite Hs in *. rewrite !elem_of_cons, elem_of_nil.
    intros [H|[H|[H|[]]]]; try discriminate H; injection H as -> _;
      destruct Hc as [Hc|[Hc|[Hc|Hc]]]; discriminate Hc.
  - destruct (strip_str_of_Z k) as [-> Hne]. destruct (str_of_Z_spec k) as (d & Hd & _ & ->).
    rewrite !elem_of_cons, elem_of_nil.
    destruct (k <? 0); destruct d; cbn in Hd |- *; try lia;
      intros [H|[H|[H|[]]]]; discriminate H.
Qed.

Lemma list_ascii_app (s1 s2 : string) :
  list_ascii_of_string (s1 ++ s2) = (list_ascii_of_string s1 ++ list_ascii_of_string s2)%list.
Proof. induction s1 as [|c s1 IH]; [done|]. simpl. f_equal. exact IH. Qed.

Lemma before_app (sep : ascii) (l r : list ascii) :
  Forall (λ c, c <> sep) l -> before sep (l ++ sep :: r) = l.
Proof.
  induction 1 as [|c l Hc _ IH]; cbn [app before].
  - by rewrite bool_decide_eq_true_2.
  - rewrite bool_decide_eq_false_2 by done. by rewrite IH.
Qed.

(** X1. [safe_int] reads a whole number below 2^53 in magnitude exactly,
    as the integer [recompute_all] stores in [NextDueMeter] and as its
    decimal text, the form a CSV file or a form field gives it.  It goes
    through a double, so this is the limit: 2^53 + 1 is read as 2^53. *)
Theorem whole_numbers_read_exactly (n : Z) :
  Z.abs n < 2 ^ 53 ->
  safe_int (PyInt n) = Some n /\ safe_int (PyStr (str_of_Z n)) = Some n /\
  safe_int (PyInt (2 ^ 53 + 1)) = Some (2 ^ 53).
Proof.
  intros H. destruct (safe_int_exact n H) as [H1 H2].
  split; [done|]. split; [done|]. by vm_compute.
Qed.

(** What [float] and [int] raise on a cell other than [None]. *)
Lemma float_error (c : cell) (e : error) :
  c <> PyNone -> float c = Raise e -> e = ValueError \/ e = OverflowError.
Proof.
  intros Hc. destruct c as [| |s|n]; cbn [float]; [done|discriminate| |].
  - unfold Float.of_string. destruct (Float.underscores _ _); [|intros [= <-]; auto].
    destruct (Float.sign _) as [neg t]. destruct (Float.inf_or_nan _ _); [discriminate|].
    destruct (Float.number _ _) as [[x [|? ?]]|]; [discriminate|intros [= <-]; auto..].
  - unfold Float.of_int. destruct (binary_normalize _ _ _ _ _); try discriminate.
    intros [= <-]. auto.
Qed.

Lemma to_int_error (x : spec_float) (e : error) :
  Float.to_int x = Raise e -> e = ValueError \/ e = OverflowError.
Proof. destruct x; try discriminate; intros [= <-]; auto. Qed.

(** X2. The number the Edit form opens with,
    [int(float(v)) if str(v).strip() not in ["", "None", "nan"] else 0]:
    a cell that reads "", "None" or "nan" once trimmed gives 0, and
    [safe_int] reads no number in it; on any other cell the expression
    gives the number [safe_int] reads, and raises [ValueError] or
    [OverflowError] where [safe_int] gives [None]: [ValueError] for
    "abc", [OverflowError] for "inf". *)
Theorem interval_prefill_spec (c : cell) :
  (strip (str c) ∈ [""; "None"; "nan"] ->
   interval_prefill c = Ret 0 /\ safe_int c = None) /\
  (strip (str c) ∉ [""; "None"; "nan"] ->
   match safe_int c with
   | Some n => interval_prefill c = Ret n
   | None => exists e, interval_prefill c = Raise e /\ (e = ValueError \/ e = OverflowError)
   end) /\
  interval_prefill (PyStr "abc") = Raise ValueError /\
  interval_prefill (PyStr "inf") = Raise OverflowError /\
  interval_prefill PyNaN = Ret 0.
Proof.
  split; [|split; [|by vm_compute]].
  - intros Hin. unfold interval_prefill. rewrite bool_decide_eq_true_2 by done.
    split; [done|]. destruct (safe_int c) as [n|] eqn:E; [|done].
    by destruct (safe_int_some c n E) as [Hn _].
  - intros Hin. unfold interval_prefill. rewrite bool_decide_eq_false_2 by done.
    assert (Hc : c <> PyNone) by (intros ->; apply Hin; compute_done).
    assert (Hs : strip (str c) <> "") by (intros E; apply Hin; rewrite E; compute_done).
    unfold safe_int. rewrite bool_decide_eq_false_2 by done.
    rewrite (proj2 (String.eqb_neq _ _)) by done. cbn [orb].
    destruct (float c) as [x|e] eqn:Ex; cbn [mbind exc_bind try_except].
    + destruct (Float.to_int x) as [n|e] eqn:En; cbn [mbind exc_bind try_except]; [done|].
      exists e. split; [done|]. by eapply to_int_error.
    + exists e. split; [done|]. by eapply float_error.
Qed.

(** X3. The select boxes list the rows as "<index>: <asset> - <task>"
    and the handlers read the index back with [int(pick.split(":")[0])]:
    this gives the index of the row, whatever colons its asset name or
    task contain. *)
Theorem picked_row (i : nat) (rest : string) :
  picked (str_of_Z (Z.of_nat i) ++ ":" ++ rest) = Ret (Z.of_nat i).
Proof.
  unfold picked. rewrite list_ascii_app.
  change (list_ascii_of_string (":" ++ rest)) with (":"%char :: list_ascii_of_string rest).
  rewrite before_app.
  - rewrite string_of_list_ascii_of_string. apply int_of_str.
  - destruct (str_of_Z_spec (Z.of_nat i)) as (d & _ & _ & ->).
    replace (Z.of_nat i <? 0) with false by (symmetry; apply Z.ltb_ge; lia).
    change ("" ++ ?x) with x. eapply Forall_impl; [apply uint_chars|].
    intros c Hc. by destruct (digit_plain c Hc) as (?&?&?&?&?&?&?).
Qed.

(** ** The calendar: months and plain dates *)

Module Months.
Import Date Calendar.

Lemma month_start_succ lp m :
  1 <= m <= 11 -> month_start lp (m + 1) = month_start lp m + month_len lp m.
Proof.
  intros Hm.
  pose proof (range_check
    (λ m, month_start lp (m + 1) =? month_start lp m + month_len lp m) 1 11) as Hc.
  specialize (Hc ltac:(destruct lp; vm_compute; reflexivity) m ltac:(lia)).
  simpl in Hc. by apply Z.eqb_eq in Hc.
Qed.

Lemma month_first_succ k :
  month_first (k + 1) = month_first k + month_len (is_leap (k / 12)) (k mod 12 + 1).
Proof.
  unfold month_first. destruct (Z.eq_dec (k mod 12) 11) as [E|E].
  - replace ((k + 1) / 12) with (k / 12 + 1) by divlia.
    replace ((k + 1) mod 12) with 0 by divlia. rewrite E.
    rewrite days_before_year_succ, year_len_leap.
    set (b := days_before_year (k / 12)).
    destruct (is_leap (k / 12)), (is_leap (k / 12 + 1)); vm_compute month_start;
      vm_compute month_len; vm_compute Z_of_bool; lia.
  - replace ((k + 1) / 12) with (k / 12) by divlia.
    replace ((k + 1) mod 12 + 1) with (k mod 12 + 1 + 1) by divlia.
    rewrite month_start_succ by divlia. lia.
Qed.

Lemma month_first_mono k k' : k <= k' -> month_first k <= month_first k'.
Proof.
  intros H. replace k' with (k + (k' - k)) by lia.
  assert (Hk : 0 <= k' - k) by lia. revert Hk.
  generalize (k' - k) as j. apply natlike_ind.
  - rewrite Z.add_0_r. lia.
  - intros j Hj IH. replace (k + Z.succ j) with (k + j + 1) by lia.
    rewrite month_first_succ.
    pose proof (month_len_bounds (is_leap ((k + j) / 12)) ((k + j) mod 12 + 1)
                  ltac:(divlia)). lia.
Qed.

Lemma toordinal_month_first y m d :
  1 <= m <= 12 -> toordinal (mkdate y m d) = month_first (y * 12 + (m - 1)) + d.
Proof.
  intros Hm. unfold toordinal, ymd2ord, month_first. cbn [year month day].
  replace ((y * 12 + (m - 1)) / 12) with y by divlia.
  replace ((y * 12 + (m - 1)) mod 12 + 1) with m by divlia.
  by rewrite days_before_month_start.
Qed.

(** A day of a later month is a later day. *)
Lemma later_month a y m d :
  valid a -> 1 <= m <= 12 -> 1 <= d -> month_index a < y * 12 + (m - 1) ->
  toordinal a < toordinal (mkdate y m d).
Proof.
  intros (Hy & Hm & Hd) Hm' Hd' Hlt. unfold month_index in Hlt.
  rewrite (toordinal_month_first y m d Hm').
  destruct a as [ya ma da]. cbn [year month day] in *.
  rewrite (toordinal_month_first ya ma da Hm).
  pose proof (month_first_succ (ya * 12 + (ma - 1))) as Hs.
  replace ((ya * 12 + (ma - 1)) / 12) with ya in Hs by divlia.
  replace ((ya * 12 + (ma - 1)) mod 12 + 1) with ma in Hs by divlia.
  rewrite days_in_month_len in Hd.
  pose proof (month_first_mono (ya * 12 + (ma - 1) + 1) (y * 12 + (m - 1)) ltac:(lia)).
  lia.
Qed.

Lemma add_months_later d n d' :
  valid d -> 0 < n -> add_months d n = Ret d' -> toordinal d < toordinal d'.
Proof.
  intros Hv Hn H. destruct (add_months_spec d n Hv Hn) as [H1 H2].
  destruct (Z_le_gt_dec ((month_index d + n) / 12) MAXYEAR) as [Hle|Hgt].
  - rewrite (H1 Hle) in H. injection H as <-. unfold clamp.
    apply later_month; [done|divlia| |].
    + pose proof (month_len_bounds (is_leap ((month_index d + n) / 12))
                    ((month_index d + n) mod 12 + 1) ltac:(divlia)) as Hb.
      rewrite <- days_in_month_len in Hb. destruct Hv as (_ & _ & Hd). lia.
    + divlia.
  - rewrite H2 in H by lia. discriminate.
Qed.

End Months.

Module PlainDates.
Import Date Calendar.

Lemma re_md_texts (m d : Z) (ms ds : list ascii) :
  1 <= m <= 12 -> 1 <= d <= 31 -> ms ∈ month_texts m -> ds ∈ day_texts d ->
  re_md (ms ++ "-"%char :: ds) = Some (m, d, []).
Proof.
  intros Hm Hd Hms Hds.
  pose proof (range_check (λ m, forallb (re_md_texts_ok m) (seqZ 1 31)) 1 12
                ltac:(vm_compute; reflexivity) m ltac:(lia)) as H.
  pose proof (range_check _ 1 31 H d ltac:(lia)) as H'.
  unfold re_md_texts_ok in H'. rewrite forallb_forall in H'.
  specialize (H' ms ltac:(by apply list_elem_of_In)). rewrite forallb_forall in H'.
  specialize (H' ds ltac:(by apply list_elem_of_In)). by apply bool_decide_eq_true in H'.
Qed.

Lemma strptime_texts (d : date) (ms ds : list ascii) :
  valid d -> ms ∈ month_texts (month d) -> ds ∈ day_texts (day d) ->
  strptime (string_of_list_ascii (pad4 (year d) ++ "-"%char :: ms ++ "-"%char :: ds)) = Ret d.
Proof.
  intros Hv Hms Hds. pose proof Hv as (Hy & Hm & Hd). unfold MINYEAR, MAXYEAR in *.
  rewrite days_in_month_len in Hd.
  pose proof (month_len_bounds (is_leap (year d)) (month d) Hm).
  unfold strptime. rewrite list_ascii_of_string_of_list_ascii.
  unfold re_ymd. rewrite re_Y_pad4 by lia. cbn [mbind option_bind lit].
  rewrite bool_decide_eq_true_2 by done. cbn [mbind option_bind].
  rewrite (re_md_texts (month d) (day d)) by (done || lia).
  destruct d; apply make_valid; done.
Qed.

End PlainDates.

Module Back.
Import Date Calendar.

(** [d - relativedelta(months=n)] for less than a year. *)
Lemma months_before_spec d n :
  valid d -> 0 < n <= 11 -> 2 <= year d ->
  let k := month_index d - n in
  months_before d n = Ret (clamp (k / 12) (k mod 12 + 1) (day d)) /\
  valid (clamp (k / 12) (k mod 12 + 1) (day d)).
Proof.
  intros (Hy & Hm & Hd) Hn Hy2 k. unfold MINYEAR, MAXYEAR in *.
  assert (Hk : exists y m, 1 <= y <= 9999 /\ 1 <= m <= 12 /\ y = k / 12 /\ m = k mod 12 + 1 /\
    add_months d (- n) = (r ← make y m (Z.min (days_in_month y m) (day d)); add r 0)).
  { unfold add_months, k, month_index.
    replace (11 <? Z.abs (- n)) with false by (symmetry; bools; lia).
    replace (- n =? 0) with false by (symmetry; bools; lia).
    replace (12 <? month d + - n) with false by (symmetry; bools; lia).
    destruct (month d + - n <? 1) eqn:E;
      eexists _, _; (split; [|split; [|split; [|split; [|reflexivity]]]]); bools; divlia. }
  destruct Hk as (y & m & Hy1 & Hm1 & <- & <- & Hk).
  pose proof (month_len_bounds (is_leap y) m Hm1) as Hl.
  rewrite <- days_in_month_len in Hl. unfold clamp, months_before.
  assert (Hv : valid (mkdate y m (Z.min (days_in_month y m) (day d)))).
  { unfold valid, MINYEAR, MAXYEAR; simpl; lia. }
  split; [|done]. rewrite Hk, make_valid by done. by apply add_zero.
Qed.

Lemma weeks_before_spec d n :
  valid d -> 0 <= n <= 100 -> 3 <= year d ->
  exists d', weeks_before d n = Ret d' /\ valid d' /\
             toordinal d' = toordinal d - 7 * n /\ year d - 2 <= year d'.
Proof.
  intros Hv Hn Hy. pose proof Hv as (Hy' & Hm & Hd). unfold MINYEAR, MAXYEAR in *.
  unfold weeks_before. rewrite Z.min_r by lia.
  destruct d as [y m dd]. cbn [year month day] in *. rewrite make_valid by done.
  cbn [mbind exc_bind]. unfold timedelta.
  replace (Z.abs (- (7 * n)) <=? 999999999) with true by (symmetry; bools; lia).
  cbn [mbind exc_bind].
  pose proof (toordinal_range _ Hv) as Hr.
  assert (Hlow : days_before_year y < toordinal (mkdate y m dd)).
  { unfold toordinal, ymd2ord. cbn [year month day].
    rewrite days_before_month_start.
    rewrite days_in_month_len in Hd.
    destruct (month_start_spec (is_leap y) m dd Hm Hd) as [_ ?]. lia. }
  assert (Hy2 : days_before_year (y - 2) + 730 <= days_before_year y).
  { replace y with (y - 2 + 1 + 1) at 2 by lia. rewrite !days_before_year_succ.
    pose proof (year_len_pos (y - 2)). pose proof (year_len_pos (y - 2 + 1)). lia. }
  pose proof (days_before_year_mono 1 (y - 2) ltac:(lia)) as H1.
  change (days_before_year 1) with 0 in H1.
  destruct (add_in_range (mkdate y m dd) (- (7 * n))) as (d' & -> & Hv' & Ho).
  { unfold MAXORDINAL in *. lia. }
  exists d'. split; [done|]. split; [done|]. split; [lia|].
  destruct (Z_le_gt_dec (y - 2) (year d')) as [|Hgt]; [done|exfalso].
  pose proof Hv' as (Hy'' & Hm'' & Hd'').
  assert (toordinal d' <= days_before_year (year d' + 1)).
  { unfold toordinal, ymd2ord. rewrite days_before_month_start, days_before_year_succ.
    rewrite days_in_month_len in Hd''.
    destruct (month_start_spec _ _ _ Hm'' Hd'') as [_ ?]. rewrite year_len_leap. lia. }
  pose proof (days_before_year_mono (year d' + 1) (y - 2) ltac:(lia)). lia.
Qed.

End Back.

(** ** Due points and states *)

Ltac elems :=
  repeat match goal with
         | H : _ ∈ _ :: _ |- _ => apply elem_of_cons in H as [H|H]; [try discriminate H|]
         | H : _ ∈ [] |- _ => by apply elem_of_nil in H
         end.

Section StatusProofs.

Variable today : date.
Variable to_datetime : cell -> option datelike.

Local Abbreviation parse_date := (parse_date to_datetime).
Local Abbreviation compute_next_due := (compute_next_due today to_datetime).
Local Abbreviation computed_status := (computed_status today to_datetime).
Local Abbreviation compute_status := (compute_status today to_datetime).
Local Abbreviation due_to_store := (due_to_store today to_datetime).
Local Abbreviation recompute_row := (recompute_row today to_datetime).
Local Abbreviation recompute_all := (recompute_all today to_datetime).

(** X4. [compute_next_due] never returns a date and a meter reading
    together.  The date slot is filled only for the interval types Days,
    Weeks and Months, with a date of the calendar or with [NaT], and
    with [NaT] only when the record is in days or weeks and its
    last-done date reads as [NaT]; a meter reading is returned only for
    Meter; any other interval type gives (None, None). *)
Theorem due_point_kind (r : row) (d : option datelike) (m : option Z) :
  compute_next_due r = Ret (d, m) ->
  (d = None \/ m = None) /\
  (forall x, d = Some x ->
     (exists t, interval_type r = Ret t /\ t ∈ ["Days"; "Weeks"; "Months"]) /\
     match x with
     | Day y => Date.valid y
     | NaT => parse_date (get r "LastDoneDate") = Some NaT /\
              (interval_type r = Ret "Days" \/ interval_type r = Ret "Weeks")
     end) /\
  (forall n, m = Some n -> interval_type r = Ret "Meter") /\
  (forall t, interval_type r = Ret t -> t ∉ ["Days"; "Weeks"; "Months"; "Meter"] ->
     d = None /\ m = None).
Proof.
  intros H.
  assert (Hv : forall x, d = Some x ->
    match x with
    | Day y => Date.valid y
    | NaT => parse_date (get r "LastDoneDate") = Some NaT /\
             (interval_type r = Ret "Days" \/ interval_type r = Ret "Weeks")
    end).
  { intros [y|] ->.
    - eapply compute_next_due_valid; eauto.
    - split; [by eapply compute_next_due_nat|].
      destruct (compute_next_due_date today to_datetime r _ m H)
        as (t & n & Ht & _ & _ & _ & _ & Hc).
      destruct Hc as [[-> _]|[[-> _]|[_ Hc]]]; [auto..|].
      by apply plus_months_ret in Hc as (? & ? & _ & ? & _). }
  unfold compute_next_due in H.
  destruct (interval_type r) as [t|] eqn:Ht; [|discriminate].
  cbn [mbind exc_bind] in H.
  assert (Hcases :
    (t ∈ ["Days"; "Weeks"; "Months"] /\ m = None) \/
    (t = "Meter" /\ d = None) \/
    (d = None /\ m = None)).
  { unfold date_based in H. case_bool_decide as Hd.
    - destruct (not_positive _); [simplify_eq; auto|].
      match type of H with (?c ≫= _) = _ => destruct c as [x|] end; [|discriminate].
      cbn [mbind exc_bind] in H. simplify_eq. auto.
    - case_bool_decide as Hm; [|simplify_eq; auto].
      destruct (not_positive _); [simplify_eq; auto|].
      destruct (safe_int (get r "LastMeter")); simplify_eq; auto. }
  split; [|split; [|split]].
  - destruct Hcases as [[_ ->]|[[_ ->]|[-> _]]]; auto.
  - intros x ->. split; [|by apply Hv].
    destruct Hcases as [[Hd _]|[[_ ?]|[? _]]]; [eauto|done..].
  - intros n ->. destruct Hcases as [[_ ?]|[[-> _]|[_ ?]]]; done.
  - intros t' [= <-] Hn.
    destruct Hcases as [[Hd _]|[[-> _]|?]]; [| |done]; exfalso; apply Hn.
    + repeat (apply elem_of_cons in Hd as [->|Hd]; [compute_done|]).
      by apply elem_of_nil in Hd.
    + compute_done.
Qed.

Lemma computed_status_cases (t : string) (r : row) (dsd ms : Z) (sd : string * option Z) :
  computed_status t r dsd ms = Ret sd ->
  sd = ("Unknown", None) \/
  (exists n, (sd = (urgency n dsd, Some n) /\ date_based t = true) \/
             (sd = (urgency n ms, Some n) /\ t = "Meter")).
Proof.
  unfold computed_status. destruct (date_based t) eqn:Ed.
  - destruct (parse_date _) as [[nd|]|]; intros [= <-];
      [right; eexists; left; eauto|by left].
  - case_bool_decide; [|intros [= <-]; by left].
    destruct (safe_int _); [destruct (safe_int _)|]; intros [= <-]; try by left.
    right. eexists. right. eauto.
Qed.

Lemma urgency_cases (n c : Z) :
  (urgency n c = "Overdue" /\ n < 0) \/
  (urgency n c = "Due Soon" /\ 0 <= n <= c) \/
  (urgency n c = "OK" /\ 0 <= n /\ c < n).
Proof.
  unfold urgency. destruct (n <? 0) eqn:E1; [|destruct (n <=? c) eqn:E2]; bools;
    [left|right; left|right; right]; (split; [done|lia]).
Qed.

Lemma compute_status_cases (r : row) (dsd ms : Z) (s : string) (d : option Z) :
  compute_status r dsd ms = Ret (s, d) ->
  exists t p s0, interval_type r = Ret t /\ pm_status r = Ret p /\
    computed_status t r dsd ms = Ret (s0, d) /\ s = overridden p s0.
Proof.
  unfold compute_status. destruct (interval_type r) as [t|]; [|discriminate].
  cbn [mbind exc_bind].
  destruct (computed_status t r dsd ms) as [[s0 d0]|] eqn:Ec; [|discriminate].
  cbn [mbind exc_bind].
  destruct (pm_status r) as [p|]; [|discriminate]. cbn [mbind exc_bind].
  intros [= <- <-]. by exists t, p, s0.
Qed.

Lemma overridden_cases (p s : string) :
  (p ∈ ["Paused"; "Retired"] /\ overridden p s = p) \/
  ((p ∉ ["Paused"; "Retired"]) /\ overridden p s = s).
Proof. unfold overridden. case_bool_decide; auto. Qed.

Lemma paused_or_retired (p : string) :
  p ∈ ["Paused"; "Retired"] -> p = "Paused" \/ p = "Retired".
Proof.
  intros H. repeat (apply elem_of_cons in H as [->|H]; [tauto|]). by apply elem_of_nil in H.
Qed.

(** X5. The state and the urgency [compute_status] returns agree:
    Overdue comes with a negative urgency, Due Soon with one from 0 up to
    a cutoff, OK with one above a cutoff, Unknown with none; and a row
    with no urgency is Unknown, Paused or Retired. *)
Theorem state_matches_urgency (r : row) (dsd ms : Z) (s : string) (d : option Z) :
  compute_status r dsd ms = Ret (s, d) ->
  (s = "Overdue" -> exists n, d = Some n /\ n < 0) /\
  (s = "Due Soon" -> exists n, d = Some n /\ 0 <= n /\ (n <= dsd \/ n <= ms)) /\
  (s = "OK" -> exists n, d = Some n /\ 0 <= n /\ (dsd < n \/ ms < n)) /\
  (s = "Unknown" -> d = None) /\
  (d = None -> s ∈ ["Unknown"; "Paused"; "Retired"]).
Proof.
  intros H. destruct (compute_status_cases _ _ _ _ _ H) as (t & p & s0 & _ & _ & Hc & ->).
  assert (Hs0 : (s0 = "Unknown" /\ d = None) \/
                (exists n c, d = Some n /\ s0 = urgency n c /\ (c = dsd \/ c = ms))).
  { destruct (computed_status_cases t r dsd ms _ Hc) as [E|[n [[E _]|[E _]]]];
      simplify_eq;
      [by left|right; eexists _, _; split; [done|split; [done|auto]]..]. }
  destruct (overridden_cases p s0) as [[Hp ->]|[Hp ->]].
  - destruct (paused_or_retired p Hp) as [-> | ->];
      (split; [done|split; [done|split; [done|split; [done|]]]]); intros _; compute_done.
  - destruct Hs0 as [[-> ->]|(n & c & -> & -> & Hc')].
    + split; [done|split; [done|split; [done|split; [done|]]]]. intros _; compute_done.
    + destruct (urgency_cases n c) as [[-> ?]|[[-> ?]|[-> ?]]];
        (split; [|split; [|split; [|split]]]); try done; intros _; exists n;
        (split; [done|]); try lia; destruct Hc' as [-> | ->]; lia.
Qed.

(** X6. The two cutoffs of the sidebar only move rows between Due Soon
    and OK: with other cutoffs [compute_status] returns the same urgency,
    the same state when that was Overdue, Unknown, Paused or Retired, and
    Due Soon or OK otherwise. *)
Theorem cutoffs_split_the_rest (r : row) (dsd ms dsd' ms' : Z) (s : string) (d : option Z) :
  compute_status r dsd ms = Ret (s, d) ->
  exists s', compute_status r dsd' ms' = Ret (s', d) /\
    (s ∈ ["Overdue"; "Unknown"; "Paused"; "Retired"] -> s' = s) /\
    (s ∈ ["Due Soon"; "OK"] -> s' ∈ ["Due Soon"; "OK"]) /\
    (dsd <= dsd' -> ms <= ms' -> s = "Due Soon" -> s' = "Due Soon") /\
    (dsd' <= dsd -> ms' <= ms -> s = "OK" -> s' = "OK").
Proof.
  intros H. destruct (compute_status_cases _ _ _ _ _ H) as (t & p & s0 & Ht & Hp & Hc & ->).
  rewrite (compute_status_eq today to_datetime r dsd' ms' t p Ht Hp).
  assert (Hs0 : (s0 = "Unknown" /\ d = None /\
                 computed_status t r dsd' ms' = Ret ("Unknown", None)) \/
                (exists n c c', d = Some n /\ s0 = urgency n c /\
                   computed_status t r dsd' ms' = Ret (urgency n c', Some n) /\
                   ((c = dsd /\ c' = dsd') \/ (c = ms /\ c' = ms')))).
  { revert Hc. unfold computed_status. destruct (date_based t).
    - destruct (parse_date _) as [[nd|]|]; intros [= <- <-];
        [right; eexists _, _, _; eauto 10|by left].
    - case_bool_decide; [|intros [= <- <-]; by left].
      destruct (safe_int _); [destruct (safe_int _)|]; intros [= <- <-]; try by left.
      right; eexists _, _, _; eauto 10. }
  assert (Hgoal : forall a a' : string,
    (a ∈ ["Overdue"; "Unknown"; "Paused"; "Retired"] -> a' = a) ->
    (a ∈ ["Due Soon"; "OK"] -> a' ∈ ["Due Soon"; "OK"]) ->
    (dsd <= dsd' -> ms <= ms' -> a = "Due Soon" -> a' = "Due Soon") ->
    (dsd' <= dsd -> ms' <= ms -> a = "OK" -> a' = "OK") ->
    exists s', Ret (overridden p a', d) = Ret (s', d) /\
      (overridden p a ∈ ["Overdue"; "Unknown"; "Paused"; "Retired"] -> s' = overridden p a) /\
      (overridden p a ∈ ["Due Soon"; "OK"] -> s' ∈ ["Due Soon"; "OK"]) /\
      (dsd <= dsd' -> ms <= ms' -> overridden p a = "Due Soon" -> s' = "Due Soon") /\
      (dsd' <= dsd -> ms' <= ms -> overridden p a = "OK" -> s' = "OK")).
  { intros a a' H1 H2 H3 H4. eexists. split; [reflexivity|].
    destruct (overridden_cases p a) as [[Hp' E]|[Hp' E]]; rewrite E;
      destruct (overridden_cases p a') as [[Hp'' E']|[Hp'' E']]; rewrite E'; done. }
  destruct Hs0 as [(-> & -> & ->)|(n & c & c' & -> & -> & -> & Hcc)];
    cbn [fst snd mbind exc_bind].
  - apply Hgoal; try done.
  - apply Hgoal;
      destruct (urgency_cases n c) as [[-> ?]|[[-> ?]|[-> ?]]];
      destruct (urgency_cases n c') as [[-> ?]|[[-> ?]|[-> ?]]];
      intros; try done; try compute_done; try (by elems);
      exfalso; destruct Hcc as [[-> ->]|[-> ->]]; lia.
Qed.

Lemma store_next_due_twice (absent : cell) (nd : option date * option Z) (r : row) :
  store_next_due absent nd (store_next_due absent nd r) = store_next_due absent nd r.
Proof.
  unfold store_next_due. apply map_eq. intros k. rewrite !lookup_insert.
  repeat case_decide; done.
Qed.

Lemma due_to_store_ret (r : row) (due : option date) (m : option Z) :
  due_to_store r = Ret (due, m) <-> compute_next_due r = Ret (Day <$> due, m).
Proof.
  unfold due_to_store.
  destruct (compute_next_due r) as [[[[d|]|] m']|]; cbn [mbind exc_bind printed fst snd];
    split; intros H; destruct due; simplify_eq; done.
Qed.

Lemma due_to_store_raise (r : row) (e : error) :
  due_to_store r = Raise e <->
  compute_next_due r = Raise e \/
  ((exists m, compute_next_due r = Ret (Some NaT, m)) /\ e = ValueError).
Proof.
  unfold due_to_store.
  destruct (compute_next_due r) as [[[[d|]|] m']|]; cbn [mbind exc_bind printed fst snd];
    split; intros H; simplify_eq; try done;
    try (by destruct H as [?|[[? ?] ?]]); eauto.
  - by destruct H as [?|[_ ->]].
  - by destruct H as [[= ->]|[[? ?] _]].
Qed.

Lemma due_to_store_stored (absent : cell) (nd : option date * option Z) (r : row) :
  due_to_store (store_next_due absent nd r) = due_to_store r.
Proof. unfold due_to_store. by rewrite (store_next_due_due today to_datetime). Qed.

Lemma recompute_row_again (r r' : row) :
  recompute_row r = Ret r' -> recompute_row r' = Ret r'.
Proof.
  unfold recompute_row. destruct (due_to_store r) as [nd|] eqn:E; [|discriminate].
  cbn [mbind exc_bind]. intros [= <-].
  rewrite due_to_store_stored, E. cbn [mbind exc_bind].
  by rewrite store_next_due_twice.
Qed.

(** X7. [recompute_all] keeps the number and the order of the rows and
    writes into each row the due point [compute_next_due] gives for it;
    running it again on its result changes nothing.  It raises exactly
    when, on some row, [compute_next_due] raises or returns [NaT] for the
    due date, which [strftime] refuses with [ValueError]; the error is
    that of the first such row. *)
Theorem recompute_all_spec (df : list row) :
  match recompute_all df with
  | Ret df' =>
      length df' = length df /\
      (forall i r, df !! i = Some r ->
         exists due m, compute_next_due r = Ret (Day <$> due, m) /\
                       df' !! i = Some (store_next_due PyNone (due, m) r)) /\
      recompute_all df' = Ret df'
  | Raise e =>
      exists i r, df !! i = Some r /\
        (compute_next_due r = Raise e \/
         ((exists m, compute_next_due r = Ret (Some NaT, m)) /\ e = ValueError)) /\
        forall j r', (j < i)%nat -> df !! j = Some r' ->
          exists due m, compute_next_due r' = Ret (Day <$> due, m)
  end.
Proof.
  induction df as [|r df IH]; [done|].
  unfold recompute_all in *. cbn [mapM].
  destruct (recompute_row r) as [r1|e] eqn:Er; cbn [mbind exc_bind].
  - pose proof (recompute_row_again r r1 Er) as Hagain.
    unfold recompute_row in Er.
    destruct (due_to_store r) as [[due m]|] eqn:End; [|discriminate].
    apply due_to_store_ret in End.
    cbn [mbind exc_bind] in Er. injection Er as <-.
    destruct (mapM _ df) as [df'|e]; cbn [mbind exc_bind mret exc_ret].
    + destruct IH as (Hlen & Hrows & Hid). split; [cbn; by rewrite Hlen|]. split.
      * intros [|i] r0; cbn; [intros [= <-]; eauto|apply Hrows].
      * cbn [mapM]. rewrite Hagain. cbn [mbind exc_bind]. by rewrite Hid.
    + destruct IH as (i & r0 & Hi & He & Hbefore). exists (S i), r0.
      split; [done|]. split; [done|]. intros [|j] r'; cbn.
      * intros _ [= <-]. eauto.
      * intros Hj. apply Hbefore. lia.
  - unfold recompute_row in Er.
    destruct (due_to_store r) as [nd|e'] eqn:End; [discriminate|].
    injection Er as <-. apply due_to_store_raise in End.
    exists 0%nat, r. split; [done|]. split; [done|]. intros j r' Hj. lia.
Qed.

End StatusProofs.

Section DueProofs.

Variable today : date.
Variable to_datetime : cell -> option datelike.
Hypothesis today_valid : Date.valid today.
Hypothesis to_datetime_valid : forall c d, to_datetime c = Some (Day d) -> Date.valid d.

Local Abbreviation parse_date := (parse_date to_datetime).
Local Abbreviation compute_next_due := (compute_next_due today to_datetime).
Local Abbreviation computed_status := (computed_status today to_datetime).
Local Abbreviation compute_status := (compute_status today to_datetime).
Local Abbreviation recompute_row := (recompute_row today to_datetime).
Local Abbreviation recompute_all := (recompute_all today to_datetime).

(** What a date-based record's due date is, when it is a date. *)
Lemma due_date_cases (r : row) (d : date) (m : option Z) :
  compute_next_due r = Ret (Some (Day d), m) ->
  exists base t n,
    default (Day today) (parse_date (get r "LastDoneDate")) = Day base /\
    interval_type r = Ret t /\
    safe_int (get r "IntervalValue") = Some n /\ 0 < n /\ m = None /\
    ((t = "Days" /\ Date.toordinal d = Date.toordinal base + n) \/
     (t = "Weeks" /\ Date.toordinal d = Date.toordinal base + 7 * n) \/
     (t = "Months" /\ Date.add_months base n = Ret d)).
Proof.
  intros H. destruct (compute_next_due_date today to_datetime r _ m H)
    as (t & n & Ht & _ & Hn & Hpos & -> & Hc). cbn zeta in Hc.
  destruct (default (Day today) _) as [base|].
  - exists base, t, n. do 5 (split; [done|]).
    destruct Hc as [[-> Hc]|[[-> Hc]|[-> Hc]]].
    + apply plus_days_ret in Hc as [_ Hc]. auto.
    + apply plus_days_ret in Hc as [_ Hc]. auto.
    + apply plus_months_ret in Hc as (b & d' & [= <-] & [= <-] & Hc). auto.
  - exfalso. destruct Hc as [[_ Hc]|[[_ Hc]|[_ Hc]]].
    + by apply plus_days_ret in Hc.
    + by apply plus_days_ret in Hc.
    + by apply plus_months_ret in Hc as (? & ? & ? & _).
Qed.

(** A due date is after the date it is counted from. *)
Lemma due_date_later (r : row) (d : date) (m : option Z) :
  compute_next_due r = Ret (Some (Day d), m) ->
  exists base, default (Day today) (parse_date (get r "LastDoneDate")) = Day base /\
    Date.toordinal base < Date.toordinal d.
Proof.
  intros H. destruct (due_date_cases r d m H) as (base & t & n & Hb & _ & _ & Hn & _ & Hc).
  exists base. split; [done|].
  destruct Hc as [[_ ->]|[[_ ->]|[_ Hm]]]; [lia|lia|].
  eapply Months.add_months_later; [|exact Hn|exact Hm].
  by apply (base_valid today to_datetime today_valid to_datetime_valid (get r "LastDoneDate")).
Qed.

(** X8. A due point is beyond the point it is counted from: a due date
    is counted from a date, the last-done date or today when the row
    has none, and is later than it; [NaT] for a due date comes from a
    last-done date that reads as [NaT]; and a due meter reading is above
    the last reading (the current one, or 0, when the row has none). *)
Theorem due_point_beyond_base (r : row) (d : option datelike) (m : option Z) :
  compute_next_due r = Ret (d, m) ->
  (forall x, d = Some (Day x) ->
     exists base, default (Day today) (parse_date (get r "LastDoneDate")) = Day base /\
       Date.toordinal base < Date.toordinal x) /\
  (d = Some NaT -> parse_date (get r "LastDoneDate") = Some NaT) /\
  (forall n, m = Some n ->
     default (default 0 (safe_int (get r "CurrentMeter"))) (safe_int (get r "LastMeter")) < n).
Proof.
  intros H. split; [|split].
  - intros x ->. by apply (due_date_later r x m).
  - intros ->. by eapply compute_next_due_nat.
  - intros n ->. unfold compute_next_due in H.
    destruct (interval_type r) as [t|]; [|discriminate]. cbn [mbind exc_bind] in H.
    destruct (date_based t).
    + destruct (not_positive _); [discriminate|].
      match type of H with (?c ≫= _) = _ => destruct c end; discriminate.
    + case_bool_decide; [|discriminate].
      destruct (not_positive _) eqn:Hnp; [discriminate|].
      destruct (safe_int (get r "IntervalValue")) as [iv|] eqn:Hiv; [|discriminate].
      assert (0 < iv) by (unfold not_positive in Hnp; bools; lia).
      change (default 0 (Some iv)) with iv in H.
      destruct (safe_int (get r "LastMeter")); simplify_eq; unfold default, from_option, id; lia.
Qed.

End DueProofs.

(** ** The columns of the table *)

Lemma fill_spec (cols : list string) (df : frame) :
  let df' := foldl fill_step df cols in
  (forall k, k ∈ columns df' <-> k ∈ columns df \/ k ∈ cols) /\
  (NoDup (columns df) -> NoDup (columns df')) /\
  (Forall (λ c, c ∈ columns df) cols -> df' = df) /\
  Forall2 (λ r r' : row, forall k,
             r' !! k = if decide (k ∈ cols /\ k ∉ columns df) then Some PyNone else r !! k)
          (values df) (values df').
Proof.
  revert df. induction cols as [|c cols IH]; intros df; cbn [foldl].
  - split; [|split; [|split]].
    + intros k. rewrite elem_of_nil. tauto.
    + done.
    + done.
    + apply Forall2_same_length_lookup. split; [done|]. intros i r r' H1 H2 k.
      rewrite decide_False by (rewrite elem_of_nil; tauto). congruence.
  - destruct (IH (fill_step df c)) as (Hc & Hn & He & Hr). unfold fill_step in *.
    case_bool_decide as Hin.
    + split; [|split; [|split]].
      * intros k. rewrite Hc, elem_of_cons. split; [tauto|]. intros [?|[->|?]]; auto.
      * done.
      * intros Hall. apply He. by apply Forall_cons in Hall as [_ ?].
      * eapply Forall2_impl; [exact Hr|]. intros r r' Hk k. rewrite Hk.
        destruct (decide (k ∈ cols /\ k ∉ columns df)) as [[? ?]|Hno].
        -- rewrite decide_True; [done|]. split; [by right|done].
        -- rewrite decide_False; [done|]. rewrite elem_of_cons. intros [[->|?] ?]; tauto.
    + cbn [set_column columns values] in *. rewrite bool_decide_eq_false_2 in * by done.
      split; [|split; [|split]].
      * intros k. rewrite Hc, elem_of_app, list_elem_of_singleton, elem_of_cons. tauto.
      * intros Hnd. apply Hn. apply NoDup_app. split; [done|]. split.
        -- intros x Hx Hx'. apply list_elem_of_singleton in Hx' as ->. done.
        -- apply NoDup_singleton.
      * intros Hall. by apply Forall_cons in Hall as [? _].
      * apply Forall2_fmap_l in Hr. eapply Forall2_impl; [exact Hr|].
        intros r r' Hk k. rewrite Hk, lookup_insert. clear Hk.
        destruct (decide (c = k)) as [->|Hne].
        -- rewrite decide_False; [rewrite decide_True; [done|]|].
           ++ split; [apply elem_of_cons; by left|done].
           ++ intros [_ Hk]. apply Hk, elem_of_app. right. by apply list_elem_of_singleton.
        -- destruct (decide (k ∈ cols /\ k ∉ (columns df ++ [c])%list)) as [[H1 H2]|Hno].
           ++ rewrite decide_True; [done|]. split; [apply elem_of_cons; by right|].
              intros ?. apply H2, elem_of_app. by left.
           ++ rewrite decide_False; [done|]. intros [H1 H2]. apply Hno.
              apply elem_of_cons in H1 as [->|H1]; [done|]. split; [done|].
              rewrite elem_of_app, list_elem_of_singleton. intros [?|?]; [done|congruence].
Qed.

Lemma base_columns_NoDup : NoDup base_columns.
Proof. compute_done. Qed.

(** What [ensure_columns] returns, and what it leaves behind. *)
Lemma ensure_columns_rows (df : frame) :
  columns (ensure_columns df).2 = base_columns /\
  Forall2 (λ r r' : row, forall k,
             r' !! k = if decide (k ∈ base_columns)
                       then if decide (k ∈ columns df) then r !! k else Some PyNone
                       else None)
          (values df) (values (ensure_columns df).2) /\
  Forall2 (λ r r' : row, forall k,
             r' !! k = if decide (k ∈ base_columns /\ k ∉ columns df) then Some PyNone
                       else r !! k)
          (values df) (values (ensure_columns df).1) /\
  (forall k, k ∈ columns (ensure_columns df).1 <-> k ∈ columns df \/ k ∈ base_columns) /\
  (Forall (λ c, c ∈ columns df) base_columns -> (ensure_columns df).1 = df).
Proof.
  destruct (fill_spec base_columns df) as (Hc & _ & He & Hr).
  unfold ensure_columns, fill_columns. cbn [fst snd select_columns columns values]. split; [done|]. split; [|split; [done|split; [done|done]]].
  apply Forall2_fmap_r. eapply Forall2_impl; [exact Hr|]. intros r r' Hk k.
  rewrite map_lookup_filter. rewrite Hk.
  destruct (decide (k ∈ base_columns)) as [Hb|Hb].
  - destruct (decide (k ∈ columns df)) as [Hd|Hd].
    + rewrite decide_False by tauto. destruct (r !! k) as [v|]; [|done].
      cbn. by rewrite option_guard_True.
    + rewrite decide_True by tauto. cbn. by rewrite option_guard_True.
  - rewrite decide_False by tauto. destruct (r !! k) as [v|]; [|done].
    cbn. by rewrite option_guard_False.
Qed.

Lemma get_lookup (r r' : row) (k : string) : r' !! k = r !! k -> get r' k = get r k.
Proof. unfold get. by intros ->. Qed.

(** On a well-formed frame, [ensure_columns] returns rows with the base
    columns and no other, and with the cells the frame had in them. *)
Lemma ensure_columns_get (df : frame) :
  frame_wf df ->
  Forall2 (λ r r' : row,
             (forall k, k ∈ base_columns -> get r' k = get r k) /\
             (forall k, is_Some (r' !! k) <-> k ∈ base_columns))
          (values df) (values (ensure_columns df).2).
Proof.
  intros [Hnd Hwf]. destruct (ensure_columns_rows df) as (_ & Hr & _).
  apply Forall2_same_length_lookup. split; [by eapply Forall2_length|].
  intros i r r' Hi Hi'. destruct (Forall2_lookup_l _ _ _ _ _ Hr Hi) as (r'' & Hi'' & Hk).
  assert (r'' = r') as -> by congruence.
  assert (Hcol : forall k, is_Some (r !! k) <-> k ∈ columns df).
  { apply (proj1 (Forall_forall _ _) Hwf r). by eapply list_elem_of_lookup_2. }
  split.
  - intros k Hb. specialize (Hk k). rewrite decide_True in Hk by done.
    destruct (decide (k ∈ columns df)) as [Hd|Hd]; [by apply get_lookup|].
    unfold get. rewrite Hk.
    assert (r !! k = None) as ->; [|done].
    apply eq_None_not_Some. intros Hs. by apply Hd, Hcol.
  - intros k. rewrite Hk. destruct (decide (k ∈ base_columns)) as [Hb|Hb].
    + split; [done|]. intros _. destruct (decide (k ∈ columns df)) as [Hd|Hd]; [|done].
      by apply Hcol.
    + split; [by intros [? ?]|done].
Qed.

Lemma ensure_columns_fixed (df : frame) :
  columns df = base_columns ->
  Forall (λ r : row, forall k, is_Some (r !! k) <-> k ∈ base_columns) (values df) ->
  ensure_columns df = (df, df).
Proof.
  intros Hc Hrows. destruct (ensure_columns_rows df) as (Hc2 & Hr2 & _ & _ & Hsame2).
  assert (H1 : (ensure_columns df).1 = df).
  { apply Hsame2. rewrite Hc. apply Forall_forall. auto. }
  assert (H2 : (ensure_columns df).2 = df).
  { destruct ((ensure_columns df).2) as [cols2 rows2] eqn:E2.
    destruct df as [cols rows]. cbn [columns values] in *. f_equal; [congruence|].
    pose proof (Forall2_length _ _ _ Hr2) as Hlen.
    apply list_eq. intros i. destruct (rows !! i) as [r|] eqn:Hi.
    - destruct (Forall2_lookup_l _ _ _ _ _ Hr2 Hi) as (r' & -> & Hk). f_equal.
      apply map_eq. intros k. rewrite Hk.
      destruct (decide (k ∈ base_columns)) as [Hb|Hb].
      + rewrite decide_True; [done|]. by rewrite Hc.
      + symmetry. apply eq_None_not_Some. intros Hs. apply Hb.
        apply (proj1 (Forall_forall _ _) Hrows r); [by eapply list_elem_of_lookup_2|done].
    - apply lookup_ge_None. apply lookup_ge_None in Hi. lia. }
  destruct (ensure_columns df) as [o1 o2]. cbn [fst snd] in *. by subst.
Qed.

(** X9. [ensure_columns] returns a frame with exactly the sixteen base
    columns, in their order, and as many rows as it was given: a cell of
    a base column is kept, a base column the frame lacked is filled with
    [None], every other column is dropped.  Normalising the result again
    changes nothing, and a frame that already has every base column is
    not modified in place. *)
Theorem ensure_columns_spec (df : frame) :
  frame_wf df ->
  let out := (ensure_columns df).2 in
  columns out = base_columns /\ frame_wf out /\
  length (values out) = length (values df) /\
  (forall i r, values df !! i = Some r ->
     exists r', values out !! i = Some r' /\
       (forall k, k ∈ base_columns -> get r' k = get r k) /\
       (forall k, k ∉ base_columns -> r' !! k = None)) /\
  ensure_columns out = (out, out) /\
  (Forall (λ c, c ∈ columns df) base_columns -> (ensure_columns df).1 = df).
Proof.
  intros Hwf out. pose proof (ensure_columns_get df Hwf) as Hg. fold out in Hg.
  destruct (ensure_columns_rows df) as (Hc & _ & _ & _ & Hsame). fold out in Hc.
  assert (Hrows : Forall (λ r : row, forall k, is_Some (r !! k) <-> k ∈ base_columns)
                         (values out)).
  { apply Forall_forall. intros r' Hin. apply list_elem_of_lookup in Hin as [i Hi].
    by destruct (Forall2_lookup_r _ _ _ _ _ Hg Hi) as (r & _ & _ & ?). }
  split; [done|]. split; [|split; [|split; [|split]]].
  - split; [rewrite Hc; apply base_columns_NoDup|]. by rewrite Hc.
  - symmetry. by eapply Forall2_length.
  - intros i r Hi. destruct (Forall2_lookup_l _ _ _ _ _ Hg Hi) as (r' & Hri & Hk1 & Hk2).
    exists r'. split; [done|]. split; [done|]. intros k Hb.
    apply eq_None_not_Some. intros Hs. by apply Hb, Hk2.
  - by apply ensure_columns_fixed.
  - done.
Qed.

(** ** The table on display *)

Lemma mapM_returns {A B} (f : A -> exc B) (l : list A) :
  Forall (λ x, returns (f x)) l ->
  exists k, mapM f l = Ret k /\ Forall2 (λ x y, f x = Ret y) l k.
Proof.
  induction 1 as [|x l [y Hy] _ (k & Hk & IH)].
  - exists []. split; [done|constructor].
  - exists (y :: k). cbn [mapM]. rewrite Hy. cbn [mbind exc_bind]. rewrite Hk.
    split; [done|by constructor].
Qed.

Lemma mapM_ret {A B} (f : A -> exc B) (l : list A) (k : list B) :
  mapM f l = Ret k -> Forall2 (λ x y, f x = Ret y) l k.
Proof.
  revert k. induction l as [|x l IH]; intros k; cbn [mapM].
  - intros [= <-]. constructor.
  - destruct (f x) as [y|] eqn:Hy; [|discriminate]. cbn [mbind exc_bind].
    destruct (mapM f l) as [k'|]; [|discriminate]. cbn [mbind exc_bind].
    intros [= <-]. constructor; auto.
Qed.

Lemma zip_with_insert (c : string) (vals : list cell) (rows : list row) :
  length vals = length rows ->
  Forall2 (λ r r' : row, exists v, r' = <[c := v]> r) rows
          (zip_with (λ v (r : row), <[c := v]> r) vals rows).
Proof.
  revert vals. induction rows as [|r rows IH]; intros [|v vals] Hlen;
    try discriminate; cbn [zip_with]; constructor; [by eexists|].
  apply IH. by injection Hlen.
Qed.

Lemma insert_column_ret (loc : nat) (c : string) (vals : list cell) (df : frame) :
  c ∉ columns df -> length vals = length (values df) ->
  exists df', insert_column loc c vals df = Ret df' /\
    columns df' = (take loc (columns df) ++ c :: drop loc (columns df))%list /\
    Forall2 (λ r r' : row, exists v, r' = <[c := v]> r) (values df) (values df').
Proof.
  intros Hc Hlen. unfold insert_column.
  rewrite bool_decide_eq_false_2 by done. rewrite (proj2 (Nat.eqb_eq _ _) Hlen).
  eexists. split; [reflexivity|]. split; [done|]. by apply zip_with_insert.
Qed.

Lemma lookup_keyed {A} (g : string -> A) (cols : list string) (k : string) :
  (list_to_map ((λ c, (c, g c)) <$> cols) : gmap string A) !! k
  = if decide (k ∈ cols) then Some (g k) else None.
Proof.
  induction cols as [|c cols IH]; cbn [fmap list_fmap list_to_map foldr uncurry fst snd].
  - rewrite lookup_empty. destruct (decide (k ∈ [])) as [H|H]; [by apply elem_of_nil in H|done].
  - rewrite lookup_insert. destruct (decide (c = k)) as [->|Hne].
    + rewrite decide_True; [done|]. apply elem_of_cons. by left.
    + rewrite IH. destruct (decide (k ∈ cols)) as [Hin|Hin].
      * rewrite decide_True; [done|]. apply elem_of_cons. by right.
      * rewrite decide_False; [done|]. rewrite elem_of_cons. intros [?|?]; congruence.
Qed.

Section TableProofs.

Variable today : date.
Variable to_datetime : cell -> option datelike.
Variable as_column : list (option Z) -> list cell.

Local Abbreviation compute_status := (compute_status today to_datetime).
Local Abbreviation display := (display today to_datetime as_column).

(** X10. The table on display has the columns DueStatus and Urgency
    (days/meter left) in front of the sixteen base columns and one row
    for each filtered row, but both computed columns are blank in every
    row: [ensure_columns] drops the two columns just inserted, and
    [reindex] puts them back filled with the empty string.  The base
    cells are those of the filtered rows. *)
Theorem display_blank_status (st : session) (filtered : frame) :
  (forall l, length (as_column l) = length l) ->
  "DueStatus" ∉ columns filtered -> "Urgency (days/meter left)" ∉ columns filtered ->
  Forall (λ r, returns (compute_status r (due_soon_days st) (meter_soon st)))
         (values filtered) ->
  exists disp, display st filtered = Ret disp /\
    columns disp = view_cols /\ length (values disp) = length (values filtered) /\
    forall i r, values filtered !! i = Some r ->
      exists r', values disp !! i = Some r' /\
        get r' "DueStatus" = PyStr "" /\
        get r' "Urgency (days/meter left)" = PyStr "" /\
        forall k, k ∈ base_columns ->
          get r' k = if decide (k ∈ columns filtered) then get r k else PyNone.
Proof.
  intros Hcol Hd Hu Hall. unfold display.
  destruct (mapM_returns _ _ Hall) as (sds & -> & Hsds). cbn [mbind exc_bind].
  pose proof (Forall2_length _ _ _ Hsds) as Hlen.
  destruct (insert_column_ret 0 "DueStatus" ((λ sd : string * option Z, PyStr sd.1) <$> sds)
              filtered Hd) as (d1 & -> & Hc1 & Hr1).
  { by rewrite length_fmap. }
  cbn [mbind exc_bind]. simpl in Hc1.
  pose proof (Forall2_length _ _ _ Hr1) as Hlen1.
  destruct (insert_column_ret 1 "Urgency (days/meter left)" (as_column (snd <$> sds)) d1)
    as (d2 & -> & Hc2 & Hr2).
  { rewrite Hc1. rewrite elem_of_cons. intros [?|?]; [discriminate|done]. }
  { rewrite Hcol, length_fmap. lia. }
  cbn [mbind exc_bind]. rewrite Hc1 in Hc2. simpl in Hc2.
  pose proof (Forall2_length _ _ _ Hr2) as Hlen2.
  destruct (ensure_columns_rows d2) as (Hce & Hre & _).
  pose proof (Forall2_length _ _ _ Hre) as Hlen3.
  eexists. split; [reflexivity|]. unfold reindex_columns. cbn [columns values].
  split; [done|]. split; [rewrite length_fmap; lia|].
  intros i r Hi.
  destruct (Forall2_lookup_l _ _ _ _ _ Hr1 Hi) as (r1 & Hi1 & v1 & ->).
  destruct (Forall2_lookup_l _ _ _ _ _ Hr2 Hi1) as (r2 & Hi2 & v2 & ->).
  destruct (Forall2_lookup_l _ _ _ _ _ Hre Hi2) as (re & Hie & Hk).
  rewrite list_lookup_fmap, Hie. cbn [fmap option_fmap option_map]. eexists. split; [reflexivity|].
  rewrite Hce. split; [unfold get; by rewrite lookup_keyed|].
  split; [unfold get; by rewrite lookup_keyed|]. intros k Hb.
  unfold get at 1. rewrite lookup_keyed.
  rewrite decide_True by (unfold view_cols; rewrite !elem_of_cons; auto).
  rewrite bool_decide_eq_true_2 by done. cbn [default from_option].
  unfold get at 1. rewrite Hk, decide_True by done. rewrite Hc2.
  assert (k <> "DueStatus" /\ k <> "Urgency (days/meter left)") as [? ?].
  { split; intros ->; revert Hb; compute_done. }
  destruct (decide (k ∈ columns filtered)) as [Hin|Hin].
  - rewrite decide_True by (rewrite !elem_of_cons; auto).
    by rewrite !lookup_insert_ne.
  - rewrite decide_False; [done|]. rewrite !elem_of_cons. intros [?|[?|?]]; done.
Qed.

End TableProofs.

(** ** The filters *)

Lemma column_is_filter (k v : string) (out : list row) :
  column_is k v out = filter (λ r : row, v = "(All)" \/ get r k = PyStr v) out.
Proof.
  unfold column_is. case_bool_decide as Hv.
  - symmetry. induction out as [|r out IH]; [done|].
    rewrite filter_cons, decide_True by auto. by rewrite IH.
  - apply list_filter_iff. intros r. tauto.
Qed.

Lemma filter_all {A} (P : A -> Prop) `{!forall x, Decision (P x)} (l : list A) :
  Forall P l -> filter P l = l.
Proof.
  induction 1 as [|x l Hx _ IH]; [done|]. by rewrite filter_cons, decide_True, IH.
Qed.

Lemma filter_comm {A} (P Q : A -> Prop) `{!forall x, Decision (P x)}
    `{!forall x, Decision (Q x)} (l : list A) :
  filter P (filter Q l) = filter Q (filter P l).
Proof. rewrite !list_filter_filter. apply list_filter_iff. intros x. tauto. Qed.

Section FilterProofs.

Variable today : date.
Variable to_datetime : cell -> option datelike.
Variable search : string -> list row -> exc (list row).

Local Abbreviation compute_status := (compute_status today to_datetime).
Local Abbreviation state_of := (state_of today to_datetime).
Local Abbreviation tally := (tally today to_datetime).
Local Abbreviation kpi_counts := (kpi_counts today to_datetime).
Local Abbreviation count_rows := (count_rows today to_datetime).
Local Abbreviation apply_filters := (apply_filters today to_datetime search).

Lemma mask_states (st : session) (label : string) (out : list row) (keep : list bool) :
  Forall2 (λ r b, (sd ← compute_status r (due_soon_days st) (meter_soon st);
                   Ret (bool_decide (sd.1 = label))) = Ret b) out keep ->
  mask keep out = filter (λ r, state_of st r = Ret label) out.
Proof.
  induction 1 as [|r b out keep Hb _ IH]; [done|].
  assert (Hiff : state_of st r = Ret label <-> b = true).
  { unfold state_of. destruct (compute_status r _ _) as [[s d]|]; [|discriminate].
    cbn [mbind exc_bind fst] in *. injection Hb as <-.
    rewrite bool_decide_eq_true. split; congruence. }
  unfold mask in *. cbn [zip zip_with]. rewrite !filter_cons. cbn [fst].
  destruct (decide (b = true)) as [Hb'|Hb'], (decide (state_of st r = Ret label)) as [Hs|Hs];
    try tauto.
  cbn [fmap list_fmap snd]. by rewrite <- IH.
Qed.

Lemma pre_filter (f : Sidebar.t) (df : list row) :
  match Sidebar.interval_f f with
  | [] =>
      column_is "PMStatus" (Sidebar.pmstatus_f f)
        (column_is "Priority" (Sidebar.priority_f f)
           (column_is "AssetName" (Sidebar.asset_f f)
              (column_is "Site" (Sidebar.site_f f) df)))
  | _ =>
      filter (λ r : row, isin (Sidebar.interval_f f) (get r "IntervalType") = true)
        (column_is "PMStatus" (Sidebar.pmstatus_f f)
           (column_is "Priority" (Sidebar.priority_f f)
              (column_is "AssetName" (Sidebar.asset_f f)
                 (column_is "Site" (Sidebar.site_f f) df))))
  end = filter (passes f) df.
Proof.
  rewrite !column_is_filter.
  assert (E : forall out : list row,
    match Sidebar.interval_f f with
    | [] => out
    | _ => filter (λ r : row, isin (Sidebar.interval_f f) (get r "IntervalType") = true) out
    end = filter (λ r : row, Sidebar.interval_f f = []
                             \/ isin (Sidebar.interval_f f) (get r "IntervalType") = true) out).
  { intros out. destruct (Sidebar.interval_f f) as [|x l] eqn:E.
    - symmetry. induction out as [|r out IH]; [done|].
      rewrite filter_cons, decide_True by auto. by rewrite IH.
    - apply list_filter_iff. intros r. split; [auto|]. by intros [?|?]. }
  rewrite E, !list_filter_filter. apply list_filter_iff. intros r. unfold passes. tauto.
Qed.

(** [apply_filters] with an empty search box, by the tile selected. *)
Lemma apply_filters_cases (f : Sidebar.t) (st : session) (df : list row) :
  strip (Sidebar.q f) = "" ->
  let pre := filter (passes f) df in
  (status_filter st = None \/ status_filter st = Some "" ->
   apply_filters f st df = Ret pre) /\
  (forall label, status_filter st = Some label -> label <> "" ->
     match apply_filters f st df with
     | Ret out => out = filter (λ r, state_of st r = Ret label) pre /\
                  Forall (λ r, returns (compute_status r (due_soon_days st) (meter_soon st))) pre
     | Raise e => exists r, r ∈ pre /\
                    compute_status r (due_soon_days st) (meter_soon st) = Raise e
     end).
Proof.
  intros Hq pre.
  assert (Hsearch : forall out : list row,
    (if truthy (PyStr (Sidebar.q f)) && truthy (PyStr (strip (Sidebar.q f)))
     then search (lower_string (strip (Sidebar.q f))) out else Ret out) = Ret out).
  { intros out. rewrite Hq. cbn [truthy String.eqb negb]. by rewrite andb_false_r. }
  unfold apply_filters. cbn zeta. rewrite (pre_filter f df). fold pre. split.
  - intros [-> | ->]; cbn [truthy String.eqb negb mbind exc_bind]; apply Hsearch.
  - intros label -> Hne. cbn [truthy]. rewrite (proj2 (String.eqb_neq _ _) Hne). cbn [negb].
    destruct (mapM _ pre) as [keep|e] eqn:Ek; cbn [mbind exc_bind].
    + rewrite Hsearch. apply mapM_ret in Ek. split; [by apply mask_states|].
      clear -Ek. induction Ek as [|r b out keep Hb _ IH]; constructor; [|done].
      destruct (compute_status r _ _); [by eexists|discriminate].
    + clear -Ek. induction pre as [|r out IH]; [discriminate|].
      cbn [mapM] in Ek. destruct (compute_status r _ _) as [sd|e'] eqn:Er.
      * cbn [mbind exc_bind] in Ek. destruct (mapM _ out) as [k|e'']; [discriminate|].
        cbn [mbind exc_bind] in Ek. injection Ek as <-.
        destruct (IH eq_refl) as (r' & Hin & Hr'). exists r'. split; [|done].
        apply elem_of_cons. by right.
      * cbn [mbind exc_bind] in Ek. injection Ek as <-. exists r. split; [|done].
        apply elem_of_cons. by left.
Qed.

(** X11. With an empty search box [apply_filters] returns, in the order
    of the table, the rows that pass the select boxes of the sidebar;
    when a tile is selected, those of them in the tile's state.  It then
    classifies every row that passes the select boxes, and raises what
    [compute_status] raises on one of them.  Whatever it returns is a
    part of the table, in order, whose rows all pass the select boxes. *)
Theorem apply_filters_spec (f : Sidebar.t) (st : session) (df : list row) :
  strip (Sidebar.q f) = "" ->
  let pre := filter (passes f) df in
  (status_filter st = None \/ status_filter st = Some "" ->
   apply_filters f st df = Ret pre) /\
  (forall label, status_filter st = Some label -> label <> "" ->
     match apply_filters f st df with
     | Ret out => out = filter (λ r, state_of st r = Ret label) pre /\
                  Forall (λ r, returns (compute_status r (due_soon_days st) (meter_soon st))) pre
     | Raise e => exists r, r ∈ pre /\
                    compute_status r (due_soon_days st) (meter_soon st) = Raise e
     end) /\
  (forall out, apply_filters f st df = Ret out ->
     out `sublist_of` df /\ Forall (passes f) out).
Proof.
  intros Hq pre. destruct (apply_filters_cases f st df Hq) as [H1 H2]. fold pre in H1, H2.
  split; [exact H1|]. split; [exact H2|]. intros out Hout.
  assert (Hs : out = pre \/ exists label, out = filter (λ r, state_of st r = Ret label) pre).
  { destruct (status_filter st) as [label|] eqn:Hl.
    - destruct (decide (label = "")) as [->|Hne].
      + left. rewrite H1 in Hout by auto. by injection Hout.
      + right. exists label. specialize (H2 label eq_refl Hne). rewrite Hout in H2.
        by destruct H2.
    - left. rewrite H1 in Hout by auto. by injection Hout. }
  assert (Hpre : Forall (passes f) pre).
  { apply Forall_forall. intros r Hr. by apply list_elem_of_filter in Hr as [? _]. }
  destruct Hs as [-> | [label ->]].
  - split; [apply sublist_filter|done].
  - split; [etrans; apply sublist_filter|].
    apply Forall_forall. intros r Hr. apply list_elem_of_filter in Hr as [_ Hr].
    by apply (proj1 (Forall_forall _ _) Hpre).
Qed.

Lemma count_rows_returns (st : session) (rows : list row) (c c' : gmap string Z) :
  count_rows st rows c = Ret c' ->
  Forall (λ r, returns (compute_status r (due_soon_days st) (meter_soon st))) rows.
Proof.
  revert c. induction rows as [|r rows IH]; intros c; [constructor|].
  cbn [count_rows]. destruct (compute_status r _ _) as [sd|] eqn:E; [|discriminate].
  cbn [mbind exc_bind]. intros H. constructor; [by eexists|by eapply IH].
Qed.

(** X12. With a tile selected and an empty search box, the table never
    lists more rows than the number on the tile: it lists the rows of the
    tile's state that also pass the select boxes of the sidebar, and
    exactly as many as the tile counts when every row passes them. *)
Theorem table_within_tile (f : Sidebar.t) (st : session) (label : string)
    (out : list row) (counts : gmap string Z) :
  strip (Sidebar.q f) = "" -> status_filter st = Some label -> label ∈ STATES ->
  apply_filters f st (df st) = Ret out -> kpi_counts st = Ret counts ->
  exists n, counts !! label = Some n /\ Z.of_nat (length out) <= n /\
    (Forall (passes f) (df st) -> Z.of_nat (length out) = n) /\
    Forall (λ r, passes f r /\ state_of st r = Ret label) out.
Proof.
  intros Hq Hl Hin Ha Hk.
  assert (Hne : label <> "") by (intros ->; revert Hin; compute_done).
  destruct (apply_filters_cases f st (df st) Hq) as [_ Hs].
  specialize (Hs label Hl Hne). rewrite Ha in Hs. destruct Hs as [-> _].
  unfold kpi_counts in Hk.
  pose proof (count_rows_returns _ _ _ _ Hk) as Hall.
  destruct (count_rows_spec today to_datetime st (df st) counts0 Hall) as (c' & Hc' & Hlk).
  { intros s Hs. rewrite counts0_lookup, decide_True; done. }
  rewrite Hk in Hc'. injection Hc' as <-.
  exists (tally st (df st) label). split.
  { by rewrite Hlk, decide_True, counts0_lookup, decide_True. }
  unfold tally. split; [|split].
  - apply inj_le. rewrite filter_comm. apply length_filter.
  - intros Hp. by rewrite (filter_all _ _ Hp).
  - apply Forall_forall. intros r Hr.
    apply list_elem_of_filter in Hr as [Hs Hr]. apply list_elem_of_filter in Hr as [Hp _].
    done.
Qed.

End FilterProofs.

(** ** The form *)

Lemma mkrow_lookup (l : list (string * string)) (k : string) :
  mkrow l !! k = PyStr <$> (list_to_map l : gmap string string) !! k.
Proof.
  unfold mkrow. induction l as [|[k' v] l IH];
    cbn [fmap list_fmap prod_map fst snd id list_to_map foldr uncurry].
  - by rewrite !lookup_empty.
  - rewrite !lookup_insert. destruct (decide (k' = k)); [done|exact IH].
Qed.

Lemma mkrow_dom (l : list (string * string)) (k : string) :
  is_Some (mkrow l !! k) <-> k ∈ l.*1.
Proof.
  rewrite mkrow_lookup, fmap_is_Some. induction l as [|[k' v] l IH];
    cbn [fmap list_fmap fst list_to_map foldr uncurry].
  - rewrite lookup_empty, elem_of_nil. split; [by intros [? ?]|done].
  - rewrite lookup_insert, elem_of_cons. cbn [fst snd].
    destruct (decide (k' = k)) as [->|Hne].
    + split; [auto|by eexists].
    + rewrite IH. split; [auto|]. intros [?|?]; [congruence|done].
Qed.

Section FormProofs.

Variable today : date.
Variable to_datetime : cell -> option datelike.
Variable csv : Type.
Variable to_csv : frame -> csv.

Local Abbreviation parse_date := (parse_date to_datetime).
Local Abbreviation compute_next_due := (compute_next_due today to_datetime).
Local Abbreviation computed_status := (computed_status today to_datetime).
Local Abbreviation compute_status := (compute_status today to_datetime).
Local Abbreviation due_to_store := (due_to_store today to_datetime).
Local Abbreviation recompute_row := (recompute_row today to_datetime).
Local Abbreviation save_pm := (save_pm today to_datetime csv to_csv).
Local Abbreviation save_data := (save_data csv to_csv).
Local Abbreviation delete_pm := (delete_pm csv to_csv).

(** An absent due point reads the same as [None] and as [""]. *)
Lemma absent_either (nd : option date * option Z) (r : row) (dsd ms : Z) :
  compute_status (store_next_due (PyStr "") nd r) dsd ms
  = compute_status (store_next_due PyNone nd r) dsd ms.
Proof.
  unfold compute_status, store_next_due.
  rewrite !interval_type_insert, !pm_status_insert by done.
  destruct (interval_type r) as [t|]; [|done]. cbn [mbind exc_bind].
  assert (E : computed_status t (<["NextDueMeter":=meter_cell (PyStr "") nd.2]>
                                   (<["NextDueDate":=date_cell (PyStr "") nd.1]> r)) dsd ms
            = computed_status t (<["NextDueMeter":=meter_cell PyNone nd.2]>
                                   (<["NextDueDate":=date_cell PyNone nd.1]> r)) dsd ms).
  { unfold computed_status.
    rewrite !(get_insert_ne _ "NextDueMeter" "NextDueDate") by done.
    rewrite !(get_insert_ne _ "NextDueMeter" "CurrentMeter") by done.
    rewrite !(get_insert_ne _ "NextDueDate" "CurrentMeter") by done.
    rewrite !get_insert_eq. destruct nd as [[d|] [m|]]; reflexivity. }
  by rewrite E.
Qed.

Lemma form_row_dom (f : Form.t) (nd : option date * option Z) (k : string) :
  is_Some (store_next_due (PyStr "") nd (form_row f) !! k) <-> k ∈ base_columns.
Proof.
  unfold store_next_due. rewrite !lookup_insert_is_Some'.
  unfold form_row. rewrite mkrow_dom. cbn [fmap list_fmap fst].
  split.
  - intros [<-|[<-|H]]; [compute_done..|exact H].
  - auto.
Qed.

(** A stored due point classifies: its date is read back as a date. *)
Lemma stored_classifies (absent : cell) (r : row) (nd : option date * option Z)
    (t p : string) (dsd ms : Z) :
  absent = PyNone \/ absent = PyStr "" ->
  interval_type r = Ret t -> pm_status r = Ret p ->
  (forall d, nd.1 = Some d -> Date.valid d) ->
  returns (compute_status (store_next_due absent nd r) dsd ms).
Proof.
  intros Ha Ht Hp Hv.
  rewrite (compute_status_eq today to_datetime _ dsd ms t p);
    [|unfold store_next_due; by rewrite ?interval_type_insert, ?pm_status_insert..].
  destruct (computed_status t _ dsd ms) as [sd|e] eqn:E; [by eexists|].
  apply (computed_status_raises today to_datetime) in E as (_ & E & _). exfalso.
  unfold store_next_due in E. rewrite get_insert_ne, get_insert_eq in E by done.
  destruct nd as [[d|] m]; cbn [fst date_cell from_option] in E.
  - by rewrite (parse_date_strftime to_datetime) in E by auto.
  - by destruct Ha as [-> | ->].
Qed.

(** X13. "Save PM" raises what [compute_next_due] raises on the form's
    row ([ValueError] if it were to return [NaT]) and then leaves the
    table and the file as they were.  Otherwise
    it stores a row with exactly the sixteen base columns, the due point
    written in it, in place of the edited row or after the last row, and
    writes the table to the file.  The stored row holds "" where the
    back-fill writes [None] for a due point that is absent; the back-fill
    of the stored row gives the back-filled form row, and both classify
    alike. *)
Theorem save_pm_spec (df : list row) (file : option csv) (idx : option nat) (f : Form.t) :
  match due_to_store (form_row f) with
  | Raise e =>
      save_pm df file idx f = (df, file, Raise e) /\
      (compute_next_due (form_row f) = Raise e \/
       ((exists m, compute_next_due (form_row f) = Ret (Some NaT, m)) /\ e = ValueError))
  | Ret nd =>
      let r := store_next_due (PyStr "") nd (form_row f) in
      let df' := match idx with
                 | Some i => alter (λ old : row, r ∪ old) i df
                 | None => (df ++ [r])%list
                 end in
      compute_next_due (form_row f) = Ret (Day <$> nd.1, nd.2) /\
      save_pm df file idx f = (df', Some (save_data df'), Ret tt) /\
      (forall k, is_Some (r !! k) <-> k ∈ base_columns) /\
      (forall i old, idx = Some i -> df !! i = Some old ->
         (forall k, is_Some (old !! k) -> k ∈ base_columns) ->
         df' = <[i := r]> df) /\
      recompute_row r = Ret (store_next_due PyNone nd (form_row f)) /\
      (forall dsd ms,
         returns (compute_status r dsd ms) /\
         compute_status r dsd ms
         = compute_status (store_next_due PyNone nd (form_row f)) dsd ms)
  end.
Proof.
  unfold save_pm. destruct (due_to_store (form_row f)) as [nd|e] eqn:End.
  2: { split; [done|]. by apply (due_to_store_raise today to_datetime). }
  assert (Hnd : compute_next_due (form_row f) = Ret (Day <$> nd.1, nd.2)).
  { destruct nd as [due m]. by apply (due_to_store_ret today to_datetime). }
  cbn zeta. split; [done|]. split; [done|]. split; [apply form_row_dom|]. split; [|split].
  - pose proof (form_row_dom f nd) as Hdom.
    generalize dependent (store_next_due (PyStr "") nd (form_row f)). intros r Hdom.
    intros i old -> Hi Hold. apply list_eq. intros j.
    destruct (decide (i = j)) as [<-|Hne].
    + rewrite list_lookup_alter_eq, Hi, list_lookup_insert_eq by (by eapply lookup_lt_Some).
      cbn. f_equal. apply map_eq. intros k. rewrite lookup_union.
      destruct (r !! k) as [v|] eqn:Ek; destruct (old !! k) as [w|] eqn:Eo; try done.
      exfalso. assert (Hb : k ∈ base_columns) by (apply Hold; by eexists).
      apply Hdom in Hb. rewrite Ek in Hb. by destruct Hb.
    + by rewrite list_lookup_alter_ne, list_lookup_insert_ne.
  - unfold recompute_row. rewrite (due_to_store_stored today to_datetime), End.
    cbn [mbind exc_bind]. f_equal.
  - intros dsd ms. split; [|apply absent_either].
    destruct (text_strip_method (get (form_row f) "IntervalType") "") as [t Ht];
      [apply text_row_mkrow|].
    destruct (text_strip_method (get (form_row f) "PMStatus") "Active") as [p Hp];
      [apply text_row_mkrow|].
    apply (stored_classifies _ _ _ t p); [auto|exact Ht|exact Hp|].
    intros d Hd. rewrite Hd in Hnd.
    by apply (compute_next_due_valid today to_datetime) in Hnd.
Qed.

(** X14. A row added with "Save PM" is the last row of the table, the
    rows before it are unchanged, and "Delete PM" on it gives back the
    table as it was and writes that table to the file. *)
Theorem delete_after_add (df : list row) (file : option csv) (f : Form.t) :
  returns (due_to_store (form_row f)) ->
  (save_pm df file None f).2 = Ret tt /\
  length (save_pm df file None f).1.1 = S (length df) /\
  (forall i, (i < length df)%nat -> (save_pm df file None f).1.1 !! i = df !! i) /\
  delete_pm (save_pm df file None f).1.1 (length df) = (df, save_data df).
Proof.
  intros [nd Hnd]. unfold save_pm, delete_pm. rewrite Hnd.
  cbn [fst snd]. split; [done|]. split; [rewrite length_app; cbn; lia|]. split.
  - intros i Hi. by rewrite lookup_app_l.
  - assert (E : delete (length df) (df ++ [store_next_due (PyStr "") nd (form_row f)])%list
                = df).
    { generalize (store_next_due (PyStr "") nd (form_row f)). intros r. clear.
      induction df as [|x df IH]; [done|]. cbn. f_equal. exact IH. }
    by rewrite E.
Qed.

End FormProofs.

(** ** Loading the table *)

Lemma mapM_raises {A B} (f : A -> exc B) (l : list A) (e : error) :
  mapM f l = Raise e -> exists x, x ∈ l /\ f x = Raise e.
Proof.
  induction l as [|x l IH]; [discriminate|]. cbn [mapM].
  destruct (f x) as [y|e'] eqn:Ex; cbn [mbind exc_bind].
  - destruct (mapM f l) as [k|e'']; [discriminate|]. cbn [mbind exc_bind]. intros [= <-].
    destruct (IH eq_refl) as (x' & Hin & Hx'). exists x'. split; [|done].
    apply elem_of_cons. by right.
  - intros [= <-]. exists x. split; [|done]. apply elem_of_cons. by left.
Qed.

Lemma mapM_raise_elem {A B} (f : A -> exc B) (l : list A) (x : A) (e : error) :
  x ∈ l -> f x = Raise e -> exists e', mapM f l = Raise e'.
Proof.
  intros Hin Hx. destruct (mapM f l) as [k|e'] eqn:E; [|by eexists].
  apply mapM_ret in E. apply list_elem_of_lookup in Hin as [i Hi].
  destruct (Forall2_lookup_l _ _ _ _ _ E Hi) as (y & _ & Hy). congruence.
Qed.

Section LoadProofs.

Variable today : date.
Variable to_datetime : cell -> option datelike.
Variable csv : Type.
Variable read_csv : csv -> exc frame.
Variable to_csv : frame -> csv.

Local Abbreviation compute_next_due := (compute_next_due today to_datetime).
Local Abbreviation due_to_store := (due_to_store today to_datetime).
Local Abbreviation recompute_row := (recompute_row today to_datetime).
Local Abbreviation recompute_all := (recompute_all today to_datetime).
Local Abbreviation load_data := (load_data today to_datetime csv read_csv to_csv).
Local Abbreviation import_csv := (import_csv today to_datetime csv read_csv to_csv).
Local Abbreviation save_data := (save_data csv to_csv).

Lemma ensured_due (df : frame) :
  frame_wf df ->
  Forall2 (λ r r' : row, compute_next_due r' = compute_next_due r /\
                         (forall k, k ∈ base_columns -> get r' k = get r k) /\
                         (forall k, is_Some (r' !! k) <-> k ∈ base_columns))
          (values df) (values (ensure_columns df).2).
Proof.
  intros Hwf. eapply Forall2_impl; [exact (ensure_columns_get df Hwf)|].
  intros r r' [Hg Hd]. split; [|done].
  apply compute_next_due_frame. apply Forall_forall. intros k Hk. apply Hg.
  revert Hk. unfold DUE_INPUTS, base_columns. rewrite !elem_of_cons. intros H.
  repeat (destruct H as [->|H]; [compute_done|]). by apply elem_of_nil in H.
Qed.

(** X15. [load_data] on a stored file leaves the file as it is and
    returns one row for each row of the file, with exactly the sixteen
    base columns: the due point of [compute_next_due] in NextDueDate and
    NextDueMeter, whatever the file held there, and the file's cells in
    the other base columns.  The rows are a fixed point of
    [recompute_all].  It raises when, on a row of the file,
    [compute_next_due] raises, or returns [NaT] for the due date, which
    [strftime] refuses with [ValueError]. *)
Theorem load_data_spec (f : csv) (nd : frame) :
  read_csv f = Ret nd -> frame_wf nd ->
  (load_data (Some f)).1 = Some f /\
  match (load_data (Some f)).2 with
  | Ret rows =>
      length rows = length (values nd) /\
      (forall i r, values nd !! i = Some r ->
         exists r' due m, rows !! i = Some r' /\
           compute_next_due r = Ret (Day <$> due, m) /\
           get r' "NextDueDate" = date_cell PyNone due /\
           get r' "NextDueMeter" = meter_cell PyNone m /\
           (forall k, k ∈ base_columns -> k ∉ ["NextDueDate"; "NextDueMeter"] ->
                      get r' k = get r k) /\
           (forall k, is_Some (r' !! k) <-> k ∈ base_columns)) /\
      recompute_all rows = Ret rows
  | Raise e =>
      exists r, r ∈ values nd /\
        (compute_next_due r = Raise e \/
         ((exists m, compute_next_due r = Ret (Some NaT, m)) /\ e = ValueError))
  end.
Proof.
  intros Hread Hwf. unfold load_data. rewrite Hread. cbn [fst snd mbind exc_bind].
  split; [done|]. pose proof (ensured_due nd Hwf) as He.
  set (out := values (ensure_columns nd).2) in *.
  unfold recompute_all. destruct (mapM _ out) as [rows|e] eqn:Em.
  - pose proof (mapM_ret _ _ _ Em) as Hrows.
    split; [|split].
    + rewrite (Forall2_length _ _ _ He). symmetry. by eapply Forall2_length.
    + intros i r Hi. destruct (Forall2_lookup_l _ _ _ _ _ He Hi) as (r1 & Hi1 & Hdue & Hg & Hd).
      destruct (Forall2_lookup_l _ _ _ _ _ Hrows Hi1) as (r' & Hi' & Hr').
      unfold recompute_row in Hr'.
      destruct (due_to_store r1) as [[due m]|] eqn:Est; [|discriminate].
      apply (due_to_store_ret today to_datetime) in Est. rewrite Hdue in Est.
      cbn [mbind exc_bind] in Hr'. injection Hr' as <-. eexists _, due, m.
      split; [exact Hi'|]. split; [done|]. unfold store_next_due. cbn [fst snd].
      split; [rewrite get_insert_ne by done; apply get_insert_eq|].
      split; [apply get_insert_eq|]. split.
      * intros k Hb Hk. rewrite !get_insert_ne; [by apply Hg|..];
          intros <-; apply Hk; compute_done.
      * intros k. rewrite !lookup_insert_is_Some', Hd. split; [|auto].
        intros [<-|[<-|?]]; [compute_done..|done].
    + clear -Hrows. induction Hrows as [|r r' l l' Hr _ IH]; [done|]. cbn [mapM].
      rewrite (recompute_row_again today to_datetime r r' Hr). cbn [mbind exc_bind].
      unfold recompute_all in IH. by rewrite IH.
  - destruct (mapM_raises _ _ _ Em) as (r1 & Hin & Hr1).
    apply list_elem_of_lookup in Hin as [i Hi].
    destruct (Forall2_lookup_r _ _ _ _ _ He Hi) as (r & Hir & Hdue & _).
    exists r. split; [by eapply list_elem_of_lookup_2|].
    unfold recompute_row in Hr1.
    destruct (due_to_store r1) as [x|e'] eqn:Est; [discriminate|].
    cbn [mbind exc_bind] in Hr1. injection Hr1 as ->.
    apply (due_to_store_raise today to_datetime) in Est. by rewrite Hdue in Est.
Qed.

(** X16. A file with an empty IntervalType cell cannot be loaded:
    [pd.read_csv] reads the cell as [nan], [compute_next_due] raises
    [AttributeError] on the row, so [load_data] raises, and the importer,
    which catches the exception, leaves the table and the stored file as
    they were. *)
Theorem blank_interval_type_rejected (up : csv) (nd : frame) (r : row)
    (df : list row) (file : option csv) :
  read_csv up = Ret nd -> frame_wf nd -> r ∈ values nd ->
  get r "IntervalType" = PyNaN ->
  compute_next_due r = Raise AttributeError /\
  import_csv up df file = (df, file) /\
  (exists e, load_data (Some up) = (Some up, Raise e)).
Proof.
  intros Hread Hwf Hin Hnan.
  assert (Hr : compute_next_due r = Raise AttributeError).
  { unfold compute_next_due, interval_type. by rewrite Hnan. }
  split; [done|].
  assert (He : exists e, recompute_all (values (ensure_columns nd).2) = Raise e).
  { apply list_elem_of_lookup in Hin as [i Hi].
    destruct (Forall2_lookup_l _ _ _ _ _ (ensured_due nd Hwf) Hi) as (r1 & Hi1 & Hdue & _).
    apply (mapM_raise_elem _ _ r1 AttributeError); [by eapply list_elem_of_lookup_2|].
    unfold recompute_row, due_to_store. by rewrite Hdue, Hr. }
  destruct He as [e He]. split.
  - unfold import_csv. rewrite Hread. cbn [mbind exc_bind]. by rewrite He.
  - exists e. unfold load_data. rewrite Hread. cbn [mbind exc_bind]. by rewrite He.
Qed.

End LoadProofs.

(** ** Dates as text *)

Section ParseProofs.

Variable today : date.
Variable to_datetime : cell -> option datelike.

Local Abbreviation parse_date := (parse_date to_datetime).
Local Abbreviation compute_next_due := (compute_next_due today to_datetime).
Local Abbreviation computed_status := (computed_status today to_datetime).
Local Abbreviation compute_status := (compute_status today to_datetime).
Local Abbreviation recompute_row := (recompute_row today to_datetime).
Local Abbreviation recompute_all := (recompute_all today to_datetime).
Local Abbreviation log_completion := (log_completion today to_datetime).

(** X17. [parse_date] reads a date written without leading zeros in
    the month or the day, such as "2024-6-5": the month and the day can
    each be written with or without the zero. *)
Theorem parse_date_reads_plain_dates (d : date) (ms ds : list ascii) :
  Date.valid d -> ms ∈ month_texts (Date.month d) -> ds ∈ day_texts (Date.day d) ->
  parse_date (PyStr (string_of_list_ascii
                       (Date.pad4 (Date.year d) ++ "-"%char :: ms ++ "-"%char :: ds)))
  = Some (Day d).
Proof.
  intros Hv Hms Hds. unfold parse_date. cbn [isna orb str].
  rewrite bool_decide_eq_false_2.
  - by rewrite PlainDates.strptime_texts.
  - unfold Date.pad4, Date.pad2. cbn. discriminate.
Qed.

End ParseProofs.

(** ** The back-fill and the classifier *)

Section RecomputeProofs.

Variable today : date.
Variable to_datetime : cell -> option datelike.
Hypothesis today_valid : Date.valid today.
Hypothesis to_datetime_valid : forall c d, to_datetime c = Some (Day d) -> Date.valid d.

Local Abbreviation parse_date := (parse_date to_datetime).
Local Abbreviation compute_next_due := (compute_next_due today to_datetime).
Local Abbreviation computed_status := (computed_status today to_datetime).
Local Abbreviation compute_status := (compute_status today to_datetime).
Local Abbreviation recompute_row := (recompute_row today to_datetime).
Local Abbreviation recompute_all := (recompute_all today to_datetime).
Local Abbreviation log_completion := (log_completion today to_datetime).

(** The state of a record whose derived columns have just been stored. *)
Lemma stored_date_status (absent : cell) (r : row) (nd : option date * option Z)
    (t p : string) (dsd ms : Z) :
  absent = PyNone \/ absent = PyStr "" ->
  interval_type r = Ret t -> t ∈ ["Days"; "Weeks"; "Months"] -> pm_status r = Ret p ->
  (forall d, nd.1 = Some d -> Date.valid d) ->
  compute_status (store_next_due absent nd r) dsd ms
  = Ret (overridden p (from_option (λ d, urgency (Date.sub_days d today) dsd) "Unknown" nd.1),
         (λ d, Date.sub_days d today) <$> nd.1).
Proof.
  intros Ha Ht Hin Hp Hv.
  assert (Ht' : interval_type (store_next_due absent nd r) = Ret t).
  { unfold store_next_due. by rewrite !interval_type_insert. }
  assert (Hp' : pm_status (store_next_due absent nd r) = Ret p).
  { unfold store_next_due. by rewrite !pm_status_insert. }
  assert (Hd : get (store_next_due absent nd r) "NextDueDate" = date_cell absent nd.1).
  { unfold store_next_due. rewrite get_insert_ne by done. apply get_insert_eq. }
  rewrite (compute_status_eq today to_datetime _ dsd ms t p Ht' Hp').
  unfold computed_status. rewrite (date_based_true _ Hin), Hd.
  destruct nd as [[d|] m]; cbn [fst date_cell from_option fmap option_fmap option_map].
  - rewrite (parse_date_strftime to_datetime); [done|]. by apply Hv.
  - by destruct Ha as [-> | ->].
Qed.

Lemma stored_meter_status (absent : cell) (r : row) (nd : option date * option Z)
    (p : string) (dsd ms : Z) :
  absent = PyNone \/ absent = PyStr "" ->
  interval_type r = Ret "Meter" -> pm_status r = Ret p ->
  (forall m, nd.2 = Some m -> Z.abs m < 2 ^ 53) ->
  compute_status (store_next_due absent nd r) dsd ms
  = match nd.2, safe_int (get r "CurrentMeter") with
    | Some m, Some cm => Ret (overridden p (urgency (m - cm) ms), Some (m - cm))
    | _, _ => Ret (overridden p "Unknown", None)
    end.
Proof.
  intros Ha Ht Hp Hm.
  assert (Ht' : interval_type (store_next_due absent nd r) = Ret "Meter").
  { unfold store_next_due. by rewrite !interval_type_insert. }
  assert (Hp' : pm_status (store_next_due absent nd r) = Ret p).
  { unfold store_next_due. by rewrite !pm_status_insert. }
  rewrite (compute_status_eq today to_datetime _ dsd ms "Meter" p Ht' Hp').
  unfold computed_status. change (date_based "Meter") with false. cbn iota.
  rewrite bool_decide_eq_true_2 by done. unfold store_next_due.
  rewrite get_insert_eq, !get_insert_ne by done.
  destruct nd as [d [m|]]; cbn [snd meter_cell from_option].
  - destruct (safe_int_exact m (Hm m eq_refl)) as [-> _].
    by destruct (safe_int (get r "CurrentMeter")).
  - by destruct Ha as [-> | ->].
Qed.

(** X18. Once [recompute_row] has stored the due date of a date-based
    row, [compute_status] reads that date back and classifies the row by
    the days from today to it; a row with no due date is Unknown; Paused
    and Retired take precedence.  For Days and Weeks the urgency is the
    interval, in days, less the days since the task was last done.  The
    due date is taken in the years from 1000 on, where [strftime] writes
    four digits on every platform. *)
Theorem recomputed_date_status (r : row) (t p : string) (due : option date)
    (m : option Z) (dsd ms : Z) :
  interval_type r = Ret t -> t ∈ ["Days"; "Weeks"; "Months"] -> pm_status r = Ret p ->
  compute_next_due r = Ret (Day <$> due, m) ->
  (forall d, due = Some d -> 1000 <= Date.year d) ->
  exists r', recompute_row r = Ret r' /\
    compute_status r' dsd ms
    = Ret (overridden p (from_option (λ d, urgency (Date.sub_days d today) dsd) "Unknown" due),
           (λ d, Date.sub_days d today) <$> due) /\
    (forall d n, due = Some d -> safe_int (get r "IntervalValue") = Some n ->
       exists base, default (Day today) (parse_date (get r "LastDoneDate")) = Day base /\
         (t = "Days" ->
          Date.sub_days d today = Date.toordinal base + n - Date.toordinal today) /\
         (t = "Weeks" ->
          Date.sub_days d today = Date.toordinal base + 7 * n - Date.toordinal today)).
Proof.
  intros Ht Hin Hp Hdue _. exists (store_next_due PyNone (due, m) r).
  split.
  { unfold recompute_row.
    by rewrite (proj2 (due_to_store_ret today to_datetime r due m) Hdue). }
  split.
  - apply (stored_date_status PyNone r (due, m) t p dsd ms); auto.
    cbn [fst]. intros d ->. by eapply (compute_next_due_valid today to_datetime).
  - intros d n -> Hn. destruct (due_date_cases today to_datetime r d m Hdue)
      as (base & t' & n' & Hb & Ht' & Hn' & _ & _ & Hc).
    assert (t' = t) as -> by congruence. assert (n' = n) as -> by congruence.
    exists base. split; [done|]. unfold Date.sub_days.
    split; intros ->; destruct Hc as [[? ->]|[[? ->]|[? ?]]]; (done || lia).
Qed.

(** X19. Once [recompute_row] has stored the due meter reading of a
    Meter row, an integer below 2^53, [compute_status] reads it back and
    classifies the row by the reading less the current one; with no due
    reading or no current reading the row is Unknown; Paused and Retired
    take precedence. *)
Theorem recomputed_meter_status (r : row) (p : string) (due : option datelike)
    (m : option Z) (dsd ms : Z) :
  interval_type r = Ret "Meter" -> pm_status r = Ret p ->
  compute_next_due r = Ret (due, m) ->
  (forall n, m = Some n -> Z.abs n < 2 ^ 53) ->
  exists r', recompute_row r = Ret r' /\
    compute_status r' dsd ms
    = match m, safe_int (get r "CurrentMeter") with
      | Some n, Some cm => Ret (overridden p (urgency (n - cm) ms), Some (n - cm))
      | _, _ => Ret (overridden p "Unknown", None)
      end.
Proof.
  intros Ht Hp Hdue Hm.
  assert (due = None) as ->.
  { revert Hdue. rewrite (meter_next_due today to_datetime r Ht).
    destruct (not_positive _); [by intros [= <- _]|]. cbn zeta.
    destruct (safe_int (get r "LastMeter")); by intros [= <- _]. }
  exists (store_next_due PyNone (None, m) r).
  split.
  { unfold recompute_row.
    by rewrite (proj2 (due_to_store_ret today to_datetime r None m) Hdue). }
  apply (stored_meter_status PyNone r (None, m) p dsd ms); auto.
Qed.

(** X20. A date-based task logged as done today, in a year from 1000
    on, is not Overdue afterwards, whatever the cutoffs: its urgency is
    the interval in days for Days, seven times it for Weeks, and positive
    for Months. *)
Theorem completed_today_not_overdue (df : list row) (i : nat) (r : row)
    (new_meter t p : string) (dsd ms : Z) :
  df !! i = Some r -> interval_type r = Ret t -> t ∈ ["Days"; "Weeks"; "Months"] ->
  pm_status r = Ret p -> 1000 <= Date.year today ->
  (log_completion df i today new_meter).2 = Ret tt ->
  exists r2 s d,
    (log_completion df i today new_meter).1 !! i = Some r2 /\
    compute_status r2 dsd ms = Ret (s, d) /\ s <> "Overdue" /\
    (forall n, safe_int (get r "IntervalValue") = Some n -> 0 < n ->
       (t = "Days" -> d = Some n) /\ (t = "Weeks" -> d = Some (7 * n)) /\
       (t = "Months" -> exists k, d = Some k /\ 0 < k)).
Proof.
  intros Hi Ht Hin Hp _ Hok.
  assert (Hraw : get r "IntervalType" <> PyStr "Meter").
  { intros E. unfold interval_type in Ht. rewrite E in Ht. vm_compute in Ht.
    injection Ht as <-. revert Hin. compute_done. }
  assert (Hr1 : checkpoint r today new_meter
                = <["LastDoneDate" := PyStr (Date.strftime today)]> r).
  { destruct (checkpoint_cases r today new_meter) as [(? & _)|[_ ->]]; done. }
  unfold log_completion in *. rewrite Hi in *. rewrite Hr1 in *.
  set (r1 := <["LastDoneDate" := PyStr (Date.strftime today)]> r) in *.
  assert (Ht1 : interval_type r1 = Ret t) by (unfold r1; by rewrite interval_type_insert).
  assert (Hp1 : pm_status r1 = Ret p) by (unfold r1; by rewrite pm_status_insert).
  assert (Hb : default (Day today) (parse_date (get r1 "LastDoneDate")) = Day today).
  { unfold r1. by rewrite get_insert_eq, (parse_date_strftime to_datetime). }
  destruct (due_to_store today to_datetime r1) as [[due m]|] eqn:Hdue; [|discriminate].
  apply (due_to_store_ret today to_datetime) in Hdue.
  cbn [fst snd] in *. rewrite list_insert_insert_eq.
  rewrite list_lookup_insert_eq by (by eapply lookup_lt_Some).
  eexists _, _, _. split; [reflexivity|]. split.
  { apply (stored_date_status (PyStr "") r1 (due, m) t p dsd ms); auto.
    cbn [fst]. intros d ->. by eapply (compute_next_due_valid today to_datetime). }
  cbn [fst]. split.
  - destruct due as [d|]; cbn [from_option].
    + destruct (due_date_later today to_datetime today_valid to_datetime_valid
                  r1 d m Hdue) as (base & Hbase & Hlt).
      rewrite Hb in Hbase. injection Hbase as <-.
      assert (0 < Date.sub_days d today) by (unfold Date.sub_days; lia).
      destruct (overridden_cases p (urgency (Date.sub_days d today) dsd)) as [[Hp' ->]|[_ ->]].
      * destruct (paused_or_retired p Hp') as [-> | ->]; discriminate.
      * destruct (urgency_cases (Date.sub_days d today) dsd) as [[-> ?]|[[-> ?]|[-> ?]]];
          [lia|discriminate..].
    + destruct (overridden_cases p "Unknown") as [[Hp' ->]|[_ ->]]; [|discriminate].
      destruct (paused_or_retired p Hp') as [-> | ->]; discriminate.
  - intros n Hn Hpos.
    assert (Hn1 : safe_int (get r1 "IntervalValue") = Some n).
    { unfold r1. by rewrite get_insert_ne. }
    destruct due as [d|].
    + destruct (due_date_cases today to_datetime r1 d m Hdue)
        as (base & t' & n' & Hbase & Ht' & Hn' & _ & _ & Hc).
      assert (t' = t) as -> by congruence. assert (n' = n) as -> by congruence.
      rewrite Hb in Hbase. injection Hbase as <-.
      cbn [fmap option_fmap option_map]. unfold Date.sub_days.
      split; [|split]; intros ->; destruct Hc as [[? Hc]|[[? Hc]|[? Hc]]]; try done.
      * f_equal. lia.
      * f_equal. lia.
      * eexists. split; [done|].
        pose proof (Months.add_months_later today n d today_valid Hpos Hc). lia.
    + exfalso. rewrite (date_next_due today to_datetime r1 t n Ht1 Hin Hn1 Hpos) in Hdue.
      cbn zeta in Hdue.
      match type of Hdue with (?c ≫= _) = _ => destruct c end; discriminate.
Qed.

End RecomputeProofs.

(** ** The first run *)

Lemma sample_rows_columns (s1 s2 s3 : string) :
  Forall (λ r : row, forall k, is_Some (r !! k) <-> k ∈ base_columns) (sample_rows s1 s2 s3).
Proof.
  unfold sample_rows. repeat apply Forall_cons_2; try apply Forall_nil_2;
    intros k; by rewrite mkrow_dom.
Qed.

(** The cells of the sample rows that the calculator and the classifier read. *)
Lemma sample_rows_cells (s1 s2 s3 : string) :
  (λ r : row, (get r "IntervalType", get r "IntervalValue", get r "LastDoneDate",
              get r "LastMeter", get r "CurrentMeter", get r "PMStatus"))
    <$> sample_rows s1 s2 s3
  = [(PyStr "Months", PyStr "6", PyStr s1, PyStr "", PyStr "", PyStr "Active");
     (PyStr "Meter", PyStr "200", PyStr s2, PyStr "1400", PyStr "1585", PyStr "Active");
     (PyStr "Weeks", PyStr "12", PyStr s3, PyStr "", PyStr "", PyStr "Paused")].
Proof. vm_compute. reflexivity. Qed.

Section FirstRun.

Variable today : date.
Variable to_datetime : cell -> option datelike.
Variable csv : Type.
Variable read_csv : csv -> exc frame.
Variable to_csv : frame -> csv.
Hypothesis today_valid : Date.valid today.
Hypothesis to_datetime_valid : forall c d, to_datetime c = Some (Day d) -> Date.valid d.

Local Abbreviation parse_date := (parse_date to_datetime).
Local Abbreviation compute_next_due := (compute_next_due today to_datetime).
Local Abbreviation compute_status := (compute_status today to_datetime).
Local Abbreviation recompute_row := (recompute_row today to_datetime).
Local Abbreviation recompute_all := (recompute_all today to_datetime).
Local Abbreviation load_data := (load_data today to_datetime csv read_csv to_csv).
Local Abbreviation sample_data_on := (sample_data_on today).
Local Abbreviation kpi_counts := (kpi_counts today to_datetime).

(** X21. With no stored file, on any day from the year 1001 to two
    weeks before the end of the calendar, [load_data] writes the three
    sample rows to the file as [sample_data] builds them and returns them
    back-filled: the compressor Overdue, the forklift Due Soon with 15
    hours left, the fan Paused with 14 days left.  The tiles then show
    Overdue 1, Due Soon 1, Paused 1 and 0 elsewhere. *)
Theorem first_run_tiles :
  1001 <= Date.year today -> Date.toordinal today + 14 <= Date.MAXORDINAL ->
  exists raw rows late counts,
    sample_data_on = Ret raw /\
    load_data None = (Some (to_csv (mkframe base_columns raw)), Ret rows) /\
    ((λ r, compute_status r DUE_SOON_DAYS_DEFAULT METER_SOON_THRESHOLD_DEFAULT) <$> rows
     = [Ret ("Overdue", Some late); Ret ("Due Soon", Some 15); Ret ("Paused", Some 14)]) /\
    late < 0 /\
    kpi_counts (mksession rows DUE_SOON_DAYS_DEFAULT METER_SOON_THRESHOLD_DEFAULT None)
    = Ret counts /\
    (λ s, counts !! s) <$> STATES = [Some 1; Some 1; Some 0; Some 0; Some 1; Some 0].
Proof.
  intros Hy Hmax. pose proof today_valid as (Hy' & Hm & Hd). unfold Date.MAXYEAR in Hy'.
  destruct (Back.months_before_spec today 7 today_valid ltac:(lia) ltac:(lia)) as [E1 V1].
  destruct (Back.months_before_spec today 2 today_valid ltac:(lia) ltac:(lia)) as [E2 V2].
  destruct (Back.weeks_before_spec today 10 today_valid ltac:(lia) ltac:(lia))
    as (d3 & E3 & V3 & O3 & Y3).
  cbn zeta in E1, E2, V1, V2.
  set (d1 := Date.clamp ((Date.month_index today - 7) / 12)
                        ((Date.month_index today - 7) mod 12 + 1) (Date.day today)) in *.
  set (d2 := Date.clamp ((Date.month_index today - 2) / 12)
                        ((Date.month_index today - 2) mod 12 + 1) (Date.day today)) in *.
  set (raw := sample_rows (Date.strftime d1) (Date.strftime d2) (Date.strftime d3)).
  assert (Hraw : sample_data_on = Ret raw).
  { unfold sample_data_on. by rewrite E1, E2, E3. }
  pose proof (sample_rows_cells (Date.strftime d1) (Date.strftime d2) (Date.strftime d3))
    as Hcells. fold raw in Hcells.
  destruct raw as [|r1 [|r2 [|r3 [|]]]] eqn:Eraw; try discriminate Hcells.
  cbn [fmap list_fmap] in Hcells.
  injection Hcells as T1 I1 L1 M1 C1 P1 T2 I2 L2 M2 C2 P2 T3 I3 L3 M3 C3 P3.
  (* the compressor *)
  assert (Hdue1 : exists due1, compute_next_due r1 = Ret (Some (Day due1), None) /\
                    Date.valid due1 /\ Date.toordinal due1 < Date.toordinal today).
  { rewrite (date_next_due today to_datetime r1 "Months" 6);
      [|unfold interval_type; by rewrite T1|compute_done|by rewrite I1|lia].
    cbn zeta. rewrite L1, (parse_date_strftime to_datetime) by done.
    change (default (Day today) (Some (Day d1))) with (Day d1).
    rewrite !bool_decide_eq_false_2 by done. unfold plus_months.
    destruct (Calendar.add_months_spec d1 6 V1 ltac:(lia)) as [H6 _].
    assert (Hk : Date.month_index d1 = Date.month_index today - 7).
    { unfold d1, Date.clamp, Date.month_index. cbn [Date.year Date.month].
      unfold Date.month_index. divlia. }
    cbn zeta in H6. rewrite Hk in H6. rewrite H6.
    2:{ unfold Date.month_index, Date.MAXYEAR. divlia. }
    cbn [mbind exc_bind]. eexists. split; [reflexivity|].
    assert (Hm1 : 1 <= (Date.month_index today - 7 + 6) mod 12 + 1 <= 12) by divlia.
    pose proof (Calendar.month_len_bounds
                  (Date.is_leap ((Date.month_index today - 7 + 6) / 12)) _ Hm1) as Hl.
    rewrite <- Calendar.days_in_month_len in Hl.
    assert (Hvd : Date.valid (Date.clamp ((Date.month_index today - 7 + 6) / 12)
                    ((Date.month_index today - 7 + 6) mod 12 + 1) (Date.day d1))).
    { unfold Date.valid, Date.clamp, Date.MINYEAR, Date.MAXYEAR. cbn [Date.year Date.month Date.day].
      destruct V1 as (_ & _ & ?). unfold Date.month_index in *.
      split; [divlia|]. split; [done|lia]. }
    split; [done|].
    destruct today as [y m d]. cbn [Date.year Date.month Date.day] in *.
    apply Months.later_month; [done|done|lia|].
    unfold Date.clamp, Date.month_index. cbn [Date.year Date.month]. divlia. }
  destruct Hdue1 as (due1 & Hdue1 & Vdue1 & Hlate).
  (* the forklift *)
  assert (Hdue2 : compute_next_due r2 = Ret (None, Some 1600)).
  { rewrite (meter_next_due today to_datetime r2) by (unfold interval_type; by rewrite T2).
    by rewrite I2, M2. }
  (* the fan *)
  assert (Hdue3 : exists due3, compute_next_due r3 = Ret (Some (Day due3), None) /\
                    Date.valid due3 /\ Date.toordinal due3 = Date.toordinal today + 14).
  { rewrite (date_next_due today to_datetime r3 "Weeks" 12);
      [|unfold interval_type; by rewrite T3|compute_done|by rewrite I3|lia].
    cbn zeta. rewrite L3, (parse_date_strftime to_datetime) by done.
    change (default (Day today) (Some (Day d3))) with (Day d3).
    rewrite bool_decide_eq_false_2, bool_decide_eq_true_2 by done.
    destruct (add_days_spec d3 (7 * 12) V3 ltac:(lia)) as [H84 _].
    destruct H84 as (due3 & -> & ? & ?); [lia|]. cbn [mbind exc_bind].
    exists due3. split; [done|]. split; [done|lia]. }
  destruct Hdue3 as (due3 & Hdue3 & Vdue3 & Hfan).
  set (rows := [store_next_due PyNone (Some due1, None) r1;
                store_next_due PyNone (None, Some 1600) r2;
                store_next_due PyNone (Some due3, None) r3]).
  assert (Hload : load_data None = (Some (to_csv (mkframe base_columns raw)), Ret rows)).
  { unfold load_data. rewrite Hraw, Eraw. cbn [mbind exc_bind].
    rewrite ensure_columns_fixed; [|done|rewrite <- Eraw; apply sample_rows_columns].
    cbn [snd values]. unfold recompute_all, recompute_row, due_to_store. cbn [mapM].
    rewrite Hdue1, Hdue2, Hdue3. reflexivity. }
  assert (S1 : compute_status (store_next_due PyNone (Some due1, None) r1) 14 50
               = Ret ("Overdue", Some (Date.sub_days due1 today))).
  { rewrite (stored_date_status today to_datetime PyNone r1 _ "Months" "Active");
      [|auto|unfold interval_type; by rewrite T1|compute_done
       |unfold pm_status; by rewrite P1|by intros d [= <-]].
    cbn [fst from_option fmap option_fmap option_map]. unfold urgency, Date.sub_days.
    replace (_ - _ <? 0) with true by (symmetry; bools; lia). reflexivity. }
  assert (S2 : compute_status (store_next_due PyNone (None, Some 1600) r2) 14 50
               = Ret ("Due Soon", Some 15)).
  { rewrite (stored_meter_status today to_datetime PyNone r2 _ "Active");
      [|auto|unfold interval_type; by rewrite T2|unfold pm_status; by rewrite P2
       |intros m [= <-]; lia].
    cbn [snd]. by rewrite C2. }
  assert (S3 : compute_status (store_next_due PyNone (Some due3, None) r3) 14 50
               = Ret ("Paused", Some 14)).
  { rewrite (stored_date_status today to_datetime PyNone r3 _ "Weeks" "Paused");
      [|auto|unfold interval_type; by rewrite T3|compute_done
       |unfold pm_status; by rewrite P3|by intros d [= <-]].
    cbn [fst from_option fmap option_fmap option_map]. unfold Date.sub_days.
    replace (Date.toordinal due3 - Date.toordinal today) with 14 by lia. reflexivity. }
  exists raw, rows, (Date.sub_days due1 today). rewrite Eraw in *.
  eexists. split; [done|]. split; [done|]. split.
  { unfold rows. cbn [fmap list_fmap].
    change DUE_SOON_DAYS_DEFAULT with 14. change METER_SOON_THRESHOLD_DEFAULT with 50.
    by rewrite S1, S2, S3. }
  split; [unfold Date.sub_days; lia|].
  unfold kpi_counts, rows. cbn [df due_soon_days meter_soon count_rows].
  change DUE_SOON_DAYS_DEFAULT with 14. change METER_SOON_THRESHOLD_DEFAULT with 50.
  rewrite S1. cbn [mbind exc_bind fst]. rewrite S2. cbn [mbind exc_bind fst].
  rewrite S3. cbn [mbind exc_bind fst]. split; [reflexivity|]. vm_compute. reflexivity.
Qed.

End FirstRun.

(** ** The further properties on sample inputs *)

(** 1600, the reading at which the forklift is due, is read exactly in
    both forms. *)
Lemma whole_numbers_read_exactly_witness :
  safe_int (PyInt 1600) = Some 1600 /\ safe_int (PyStr "1600") = Some 1600.
Proof.
  destruct (whole_numbers_read_exactly 1600 ltac:(by vm_compute)) as (H1 & H2 & _).
  split; [exact H1|exact H2].
Defined.

(** The due point of the forklift is a meter reading, and the forklift
    is a Meter record. *)
Lemma due_point_kind_witness :
  compute_next_due today0 no_fallback sample_forklift = Ret (None, Some 1600) /\
  interval_type sample_forklift = Ret "Meter".
Proof.
  assert (H : compute_next_due today0 no_fallback sample_forklift = Ret (None, Some 1600))
    by run.
  destruct (due_point_kind today0 no_fallback sample_forklift None (Some 1600) H)
    as (_ & _ & Hm & _).
  split; [exact H|exact (Hm 1600 eq_refl)].
Defined.

(** The compressor is Overdue on 2024-06-15, with a negative urgency. *)
Lemma state_matches_urgency_witness :
  compute_status today0 no_fallback compressor_due 14 50 = Ret ("Overdue", Some (-31)) /\
  exists n, Some (-31) = Some n /\ n < 0.
Proof.
  assert (H : compute_status today0 no_fallback compressor_due 14 50
              = Ret ("Overdue", Some (-31))) by run.
  destruct (state_matches_urgency today0 no_fallback compressor_due 14 50 _ _ H) as [Ho _].
  split; [exact H|exact (Ho eq_refl)].
Defined.

(** The forklift, 15 hours before its due reading, is Due Soon with the
    cutoff at 50 hours and Due Soon or OK with any other. *)
Lemma cutoffs_split_the_rest_witness :
  compute_status today0 no_fallback forklift_due 14 50 = Ret ("Due Soon", Some 15) /\
  exists s', compute_status today0 no_fallback forklift_due 14 10 = Ret (s', Some 15) /\
             s' ∈ ["Due Soon"; "OK"].
Proof.
  assert (H : compute_status today0 no_fallback forklift_due 14 50
              = Ret ("Due Soon", Some 15)) by run.
  destruct (cutoffs_split_the_rest today0 no_fallback forklift_due 14 50 14 10 _ _ H)
    as (s' & Hs' & _ & Hrest).
  split; [exact H|]. exists s'. split; [exact Hs'|]. apply Hrest. compute_done.
Defined.

(** 2024-02-29, due one month after 2024-01-31, is after it. *)
Lemma due_point_beyond_base_witness :
  compute_next_due today0 no_fallback end_of_january
  = Ret (Some (Day (mkdate 2024 2 29)), None) /\
  exists base,
    default (Day today0) (parse_date no_fallback (get end_of_january "LastDoneDate"))
    = Day base /\
    Date.toordinal base < Date.toordinal (mkdate 2024 2 29).
Proof.
  assert (H : compute_next_due today0 no_fallback end_of_january
              = Ret (Some (Day (mkdate 2024 2 29)), None)) by run.
  destruct (due_point_beyond_base today0 no_fallback today0_valid no_fallback_valid
              end_of_january _ _ H) as [Hd _].
  split; [exact H|exact (Hd _ eq_refl)].
Defined.

(** A table with the column AssetName and a column of its own gets the
    sixteen base columns. *)
Lemma ensure_columns_spec_witness :
  frame_wf narrow_frame /\ columns (ensure_columns narrow_frame).2 = base_columns.
Proof.
  assert (Hwf : frame_wf narrow_frame).
  { split; [compute_done|]. apply Forall_cons_2; [|apply Forall_nil_2].
    intros k. unfold narrow_frame. cbn [columns]. rewrite mkrow_dom. reflexivity. }
  destruct (ensure_columns_spec narrow_frame Hwf) as [Hc _].
  split; [exact Hwf|exact Hc].
Defined.

(** The table of the sample session has three rows, and the compressor,
    which is Overdue, is shown with no status. *)
Lemma display_blank_status_witness :
  exists disp,
    display today0 no_fallback plain_column session0 (mkframe base_columns (df session0))
    = Ret disp /\
    columns disp = view_cols /\ length (values disp) = 3%nat /\
    exists r', values disp !! 0%nat = Some r' /\ get r' "DueStatus" = PyStr "".
Proof.
  destruct (display_blank_status today0 no_fallback plain_column session0
              (mkframe base_columns (df session0)))
    as (disp & Hd & Hc & Hl & Hrows).
  - intros l. unfold plain_column. apply length_fmap.
  - compute_done.
  - compute_done.
  - repeat apply Forall_cons_2; try apply Forall_nil_2; eexists; run.
  - destruct (Hrows 0%nat compressor_due eq_refl) as (r' & Hr' & Hs & _).
    exists disp. split; [exact Hd|]. split; [exact Hc|]. split; [exact Hl|].
    exists r'. split; [exact Hr'|exact Hs].
Defined.

(** With the sidebar as the page first shows it and no tile selected,
    the table lists the three sample rows. *)
Lemma apply_filters_spec_witness :
  apply_filters today0 no_fallback keep_all sidebar0 session0 (df session0)
  = Ret (filter (passes sidebar0) (df session0)) /\
  length (filter (passes sidebar0) (df session0)) = 3%nat.
Proof.
  destruct (apply_filters_spec today0 no_fallback keep_all sidebar0 session0 (df session0)
              ltac:(run)) as [H _].
  split; [apply H; by left|]. by vm_compute.
Defined.

(** With the Overdue tile selected the table lists no more rows than
    the tile counts. *)
Lemma table_within_tile_witness :
  exists out counts n,
    apply_filters today0 no_fallback keep_all sidebar0 overdue_tile (df overdue_tile)
    = Ret out /\
    kpi_counts today0 no_fallback overdue_tile = Ret counts /\
    counts !! "Overdue" = Some n /\ Z.of_nat (length out) <= n.
Proof.
  assert (Hall : Forall (λ r, returns (compute_status today0 no_fallback r
                                         (due_soon_days overdue_tile) (meter_soon overdue_tile)))
                        (df overdue_tile)).
  { repeat apply Forall_cons_2; try apply Forall_nil_2; eexists; run. }
  destruct (apply_filters_cases today0 no_fallback keep_all sidebar0 overdue_tile
              (df overdue_tile) ltac:(run)) as [_ Hc].
  specialize (Hc "Overdue" eq_refl ltac:(discriminate)).
  destruct (apply_filters today0 no_fallback keep_all sidebar0 overdue_tile (df overdue_tile))
    as [out|e] eqn:Ha.
  - destruct (count_rows_spec today0 no_fallback overdue_tile (df overdue_tile) counts0 Hall)
      as (counts & Hk & _).
    { intros s Hs. rewrite counts0_lookup, decide_True; done. }
    destruct (table_within_tile today0 no_fallback keep_all sidebar0 overdue_tile "Overdue"
                out counts ltac:(run) eq_refl ltac:(compute_done) Ha Hk)
      as (n & Hn & Hle & _).
    exists out, counts, n. split; [reflexivity|]. split; [exact Hk|].
    split; [exact Hn|exact Hle].
  - exfalso. destruct Hc as (r & Hr & He). apply list_elem_of_filter in Hr as [_ Hr].
    destruct (proj1 (Forall_forall _ _) Hall r Hr) as [x Hx]. congruence.
Defined.

(** The pump added to the sample table is its fourth row, and deleting
    it gives the sample table back. *)
Lemma delete_after_add_witness :
  length (save_pm today0 no_fallback frame id (df session0) None None pump_form).1.1 = 4%nat /\
  delete_pm frame id (save_pm today0 no_fallback frame id (df session0) None None pump_form).1.1 3
  = (df session0, mkframe base_columns (df session0)).
Proof.
  destruct (delete_after_add today0 no_fallback frame id (df session0) None pump_form)
    as (_ & Hl & _ & Hd).
  - eexists. run.
  - split; [exact Hl|exact Hd].
Defined.

(** Loading the sample rows from a file gives three rows, and the first
    is due on 2024-05-15. *)
Lemma load_data_spec_witness :
  exists rows r',
    (load_data today0 no_fallback frame read_frame id (Some sample_frame)).2 = Ret rows /\
    length rows = 3%nat /\ rows !! 0%nat = Some r' /\
    get r' "NextDueDate" = PyStr "2024-05-15".
Proof.
  assert (Hwf : frame_wf sample_frame).
  { split; [apply base_columns_NoDup|]. unfold sample_frame, sample_data. cbn [values columns].
    unfold sample_compressor, sample_forklift, sample_fan.
    repeat apply Forall_cons_2; try apply Forall_nil_2; intros k; by rewrite mkrow_dom. }
  assert (Hall : Forall (λ r, returns (due_to_store today0 no_fallback r))
                        (values sample_frame)).
  { repeat apply Forall_cons_2; try apply Forall_nil_2; eexists; run. }
  assert (Hdue' : compute_next_due today0 no_fallback sample_compressor
                  = Ret (Some (Day (mkdate 2024 5 15)), None)) by run.
  destruct (load_data_spec today0 no_fallback frame read_frame id sample_frame sample_frame
              eq_refl Hwf) as [_ H].
  destruct (load_data today0 no_fallback frame read_frame id (Some sample_frame)).2
    as [rows|e] eqn:E.
  - destruct H as (Hl & Hrows & _).
    destruct (Hrows 0%nat sample_compressor eq_refl) as (r' & due & m & Hr' & Hdue & Hd & _).
    exists rows, r'. split; [reflexivity|]. split; [exact Hl|]. split; [exact Hr'|].
    rewrite Hd. rewrite Hdue' in Hdue.
    destruct due as [d|]; cbn [fmap option_fmap option_map] in Hdue; [|discriminate Hdue].
    injection Hdue as Hd1 _. rewrite <- Hd1. reflexivity.
  - exfalso. destruct H as (r & Hr & He).
    destruct (proj1 (Forall_forall _ _) Hall r Hr) as [x Hx].
    apply (due_to_store_raise today0 no_fallback) in He. congruence.
Defined.

(** A file in which the forklift has no interval type is not imported:
    the table and the stored file stay as they were. *)
Lemma blank_interval_type_rejected_witness :
  import_csv today0 no_fallback frame read_frame id blank_type_frame
             (df session0) (Some sample_frame)
  = (df session0, Some sample_frame).
Proof.
  assert (Hwf : frame_wf blank_type_frame).
  { split; [apply base_columns_NoDup|]. apply Forall_forall. intros r Hr k.
    revert Hr. unfold blank_type_frame. cbn [values columns]. intros Hr.
    apply elem_of_cons in Hr as [->|Hr].
    - unfold sample_compressor. by rewrite mkrow_dom.
    - apply list_elem_of_singleton in Hr as ->. rewrite lookup_insert_is_Some'.
      unfold sample_forklift. rewrite mkrow_dom. split; [|tauto].
      intros [<-|H]; [compute_done|done]. }
  destruct (blank_interval_type_rejected today0 no_fallback frame read_frame id
              blank_type_frame blank_type_frame (<["IntervalType" := PyNaN]> sample_forklift)
              (df session0) (Some sample_frame) eq_refl Hwf)
    as (_ & H & _).
  - unfold blank_type_frame. cbn [values]. apply elem_of_cons. right. apply elem_of_cons. by left.
  - by vm_compute.
  - exact H.
Defined.

(** 5 June 2024 written without zeros. *)
Lemma parse_date_reads_plain_dates_witness :
  parse_date no_fallback (PyStr "2024-6-5") = Some (Day (mkdate 2024 6 5)).
Proof.
  exact (parse_date_reads_plain_dates no_fallback (mkdate 2024 6 5) ["6"%char] ["5"%char]
           ltac:(compute_done) ltac:(compute_done) ltac:(compute_done)).
Defined.

(** The back-filled compressor is 31 days overdue on 2024-06-15. *)
Lemma recomputed_date_status_witness :
  exists r', recompute_row today0 no_fallback sample_compressor = Ret r' /\
    compute_status today0 no_fallback r' 14 50 = Ret ("Overdue", Some (-31)).
Proof.
  destruct (recomputed_date_status today0 no_fallback sample_compressor "Months" "Active"
              (Some (mkdate 2024 5 15)) None 14 50)
    as (r' & Hr' & Hs & _).
  - run.
  - compute_done.
  - run.
  - run.
  - intros d [= <-]. by vm_compute.
  - exists r'. split; [exact Hr'|exact Hs].
Defined.

(** The back-filled forklift is Due Soon, 15 hours before 1600. *)
Lemma recomputed_meter_status_witness :
  exists r', recompute_row today0 no_fallback sample_forklift = Ret r' /\
    compute_status today0 no_fallback r' 14 50 = Ret ("Due Soon", Some 15).
Proof.
  destruct (recomputed_meter_status today0 no_fallback sample_forklift "Active"
              None (Some 1600) 14 50)
    as (r' & Hr' & Hs).
  - run.
  - run.
  - run.
  - intros n [= <-]. by vm_compute.
  - exists r'. split; [exact Hr'|]. rewrite Hs. run.
Defined.

(** The compressor logged as done on 2024-06-15 is not Overdue. *)
Lemma completed_today_not_overdue_witness :
  exists r2 s d,
    (log_completion today0 no_fallback (df session0) 0 today0 "").1 !! 0%nat = Some r2 /\
    compute_status today0 no_fallback r2 14 50 = Ret (s, d) /\ s <> "Overdue".
Proof.
  destruct (completed_today_not_overdue today0 no_fallback today0_valid no_fallback_valid
              (df session0) 0 compressor_due "" "Months" "Active" 14 50)
    as (r2 & s & d & H1 & H2 & H3 & _).
  - reflexivity.
  - run.
  - compute_done.
  - run.
  - by vm_compute.
  - run.
  - exists r2, s, d. split; [exact H1|]. split; [exact H2|exact H3].
Defined.

(** The first run on 2024-06-15. *)
Lemma first_run_tiles_witness :
  exists rows counts,
    (load_data today0 no_fallback frame read_frame id None).2 = Ret rows /\
    kpi_counts today0 no_fallback
      (mksession rows DUE_SOON_DAYS_DEFAULT METER_SOON_THRESHOLD_DEFAULT None) = Ret counts /\
    counts !! "Overdue" = Some 1 /\ counts !! "Paused" = Some 1.
Proof.
  destruct (first_run_tiles today0 no_fallback frame read_frame id today0_valid
              ltac:(by vm_compute) ltac:(by vm_compute))
    as (raw & rows & late & counts & _ & Hl & _ & _ & Hk & Hc).
  exists rows, counts. split; [by rewrite Hl|]. split; [exact Hk|].
  cbn [fmap list_fmap STATES] in Hc. injection Hc as H1 H2 H3 H4 H5 H6.
  split; [exact H1|exact H5].
Defined.
